(** * Door-locker security system (TM4C123, two ECUs): protocol model

    A shallow embedding of the two applications of the repository,
    [src/Control/main.c] (the Control ECU, which owns the credential, the
    EEPROM and the door) and [src/main.c] (the HMI ECU, which drives the
    dialogs), together with the drivers they call ([uart.c], [eeprom.c],
    [buzzer.c]).

    Conventions.
    - A C [char]/[uint8_t] is a [Z] in [0,256) (plain [char] is unsigned on
      the Cortex-M4 target); a [uint32_t] is a [Z] in [0,2^32).  Narrowing
      conversions are written out with [Z.land].
    - A [char] buffer is a [list Z]; the password buffers have
      [PASSWORD_LENGTH + 1] cells.
    - Time advances only inside [DelayMs]; one unit is one millisecond. *)

From Stdlib Require Import ZArith List Lia Bool.
From stdpp Require Import base numbers list gmap.
Import ListNotations.

Local Open Scope Z_scope.

(** ** Protocol constants (identical in both [main.c] files) *)

Definition CMD_SETUP_PASSWORD : Z := 0x01.
Definition CMD_VERIFY_PASSWORD : Z := 0x02.
Definition CMD_CHANGE_PASSWORD : Z := 0x03.
Definition CMD_SET_TIMEOUT : Z := 0x04.
Definition CMD_OPEN_DOOR : Z := 0x05.
Definition CMD_ERASE_EEPROM : Z := 0x06.
Definition CMD_CHECK_PASSWORD : Z := 0x07.
Definition CMD_TRIGGER_LOCKOUT : Z := 0x08.

Definition RESP_PASSWORD_MATCH : Z := 0x10.
Definition RESP_PASSWORD_MISMATCH : Z := 0x11.
Definition RESP_TIMEOUT_SAVED : Z := 0x12.
Definition RESP_DOOR_UNLOCKING : Z := 0x13.
Definition RESP_DOOR_LOCKING : Z := 0x14.
Definition RESP_DOOR_LOCKED : Z := 0x15.
Definition RESP_SYSTEM_LOCKED : Z := 0x16.
Definition RESP_EEPROM_ERASED : Z := 0x17.
Definition RESP_PASSWORD_EXISTS : Z := 0x18.
Definition RESP_NO_PASSWORD : Z := 0x19.
Definition RESP_COUNTDOWN_START : Z := 0x1A.

Definition PASSWORD_LENGTH : nat := 5.
Definition MAX_ATTEMPTS : Z := 3.

(** ** C strings: [strcmp] and [strcpy] on [char] buffers

    Both stop at the first NUL.  A cell past the end of the list reads as
    NUL; the buffers of the program always carry their terminator, so that
    case is never exercised. *)

Fixpoint strcmp (s1 s2 : list Z) : Z :=
  match s1 with
  | [] => 0 - hd 0 s2
  | c1 :: r1 =>
      let c2 := hd 0 s2 in
      if c1 =? c2 then (if c1 =? 0 then 0 else strcmp r1 (tl s2))
      else c1 - c2
  end.

Fixpoint strcpy (dst src : list Z) : list Z :=
  match src, dst with
  | c :: src', _ :: dst' => c :: (if c =? 0 then dst' else strcpy dst' src')
  | _, _ => dst
  end.

(** ** UART5 driver ([uart.c]) over a timed channel

    [rx] is the receive line: each entry is a byte on its way, with the
    number of milliseconds that separate its arrival from the arrival of
    the entry before it (from now, for the head).  An entry whose delay is
    [0] sits in the receive FIFO.  [tx] is the log of transmitted bytes,
    oldest first. *)

Record UART := mkUART { rx : list (nat * Z); tx : list Z }.

(** Passing of [ms] milliseconds on the receive line. *)
Fixpoint advance (ms : nat) (q : list (nat * Z)) : list (nat * Z) :=
  match q with
  | [] => []
  | (d, v) :: q' =>
      if (d <=? ms)%nat then (0%nat, v) :: advance (ms - d) q'
      else ((d - ms)%nat, v) :: q'
  end.

Module Uart.

Definition DelayMs (ms : nat) (u : UART) : UART :=
  {| rx := advance ms (rx u); tx := tx u |}.

Definition UART5_IsDataAvailable (u : UART) : bool :=
  match rx u with
  | (O, _) :: _ => true
  | _ => false
  end.

(** [(char)UARTCharGet(UART5_BASE)]: blocks until the next byte has
    arrived and narrows the data register to a [char].  On a line where
    nothing is under way the C function never returns; every call in the
    two applications is guarded by [UART5_IsDataAvailable], and the model
    gives ['\0'] there. *)
Definition UART5_ReceiveChar (u : UART) : Z * UART :=
  match rx u with
  | (_, v) :: q => (Z.land v 0xFF, {| rx := q; tx := tx u |})
  | [] => (0, u)
  end.

Definition UART5_SendChar (data : Z) (u : UART) : UART :=
  {| rx := rx u; tx := tx u ++ [data] |}.

(** The polling loop shared by every bounded wait,
    [while (!UART5_IsDataAvailable() && timeout < bound)
       { DelayMs(1); timeout++; }]
    with [timeout] starting at [0]: the argument counts the iterations
    that are left, [bound - timeout]. *)
Fixpoint poll (left : nat) (u : UART) : UART :=
  match left with
  | O => u
  | S left' =>
      if UART5_IsDataAvailable u then u else poll left' (DelayMs 1 u)
  end.

(** [if (UART5_IsDataAvailable()) x = UART5_ReceiveChar(); else x = dflt;] *)
Definition receive_or (dflt : Z) (u : UART) : Z * UART :=
  if UART5_IsDataAvailable u then UART5_ReceiveChar u else (dflt, u).

End Uart.

(** ** EEPROM driver ([eeprom.c])

    The TivaWare primitives [EEPROMProgram], [EEPROMRead] and
    [EEPROMMassErase] are the storage collaborator: a word-addressed store
    whose erased cells read as all ones, and whose operations succeed. *)

Module Eeprom.

Definition EEPROM_SUCCESS : Z := 0.
Definition EEPROM_ERROR : Z := 1.
Definition EEPROM_BLOCK_SIZE : Z := 16.
Definition EEPROM_WORD_SIZE : Z := 4.
Definition EEPROM_TOTAL_BLOCKS : Z := 32.

Definition ERASED_WORD : Z := 0xFFFFFFFF.

Definition EEPROMProgram (data address : Z) (m : gmap Z Z) : Z * gmap Z Z :=
  (0, <[address := data]> m).

Definition EEPROMRead (address : Z) (m : gmap Z Z) : Z :=
  default ERASED_WORD (m !! address).

Definition EEPROMMassErase (m : gmap Z Z) : Z * gmap Z Z := (0, ∅).

Definition CalculateAddress (block offset : Z) : Z :=
  Z.land (block * EEPROM_BLOCK_SIZE * EEPROM_WORD_SIZE
          + offset * EEPROM_WORD_SIZE) 0xFFFFFFFF.

Definition EEPROM_WriteWord (block offset data : Z) (m : gmap Z Z)
  : Z * gmap Z Z :=
  if (block >=? EEPROM_TOTAL_BLOCKS) || (offset >=? EEPROM_BLOCK_SIZE)
  then (EEPROM_ERROR, m)
  else
    let '(result, m') := EEPROMProgram data (CalculateAddress block offset) m in
    if negb (result =? 0) then (EEPROM_ERROR, m') else (EEPROM_SUCCESS, m').

(** [data] is the content of the out-parameter before the call; it is
    left as it was when the parameters are rejected. *)
Definition EEPROM_ReadWord (block offset data : Z) (m : gmap Z Z) : Z * Z :=
  if (block >=? EEPROM_TOTAL_BLOCKS) || (offset >=? EEPROM_BLOCK_SIZE)
  then (EEPROM_ERROR, data)
  else (EEPROM_SUCCESS, EEPROMRead (CalculateAddress block offset) m).

Definition EEPROM_MassErase (m : gmap Z Z) : Z * gmap Z Z :=
  let '(result, m') := EEPROMMassErase m in
  if negb (result =? 0) then (EEPROM_ERROR, m') else (EEPROM_SUCCESS, m').

End Eeprom.

(** ** Control ECU ([src/Control/main.c]) *)

Module Control.
Import Uart Eeprom.

Definition EEPROM_PASSWORD_BLOCK : Z := 0.
Definition EEPROM_PASSWORD_OFFSET : Z := 0.
Definition EEPROM_TIMEOUT_BLOCK : Z := 0.
Definition EEPROM_TIMEOUT_OFFSET : Z := 2.
Definition EEPROM_VALID_FLAG_BLOCK : Z := 0.
Definition EEPROM_VALID_FLAG_OFFSET : Z := 3.
Definition PASSWORD_VALID_MARKER : Z := 0xAA55AA55.
Definition DEFAULT_TIMEOUT : Z := 5.
Definition LOCKOUT_DURATION : nat := 10.

(** The globals of the application, the EEPROM and the UART. *)
Record ECU := mkECU {
  g_storedPassword : list Z;
  g_autoLockTimeout : Z;
  eeprom : gmap Z Z;
  uart5 : UART
}.

Definition on_uart (f : UART -> UART) (s : ECU) : ECU :=
  {| g_storedPassword := g_storedPassword s;
     g_autoLockTimeout := g_autoLockTimeout s;
     eeprom := eeprom s;
     uart5 := f (uart5 s) |}.

Definition set_eeprom (m : gmap Z Z) (s : ECU) : ECU :=
  {| g_storedPassword := g_storedPassword s;
     g_autoLockTimeout := g_autoLockTimeout s;
     eeprom := m;
     uart5 := uart5 s |}.

Definition set_storedPassword (p : list Z) (s : ECU) : ECU :=
  {| g_storedPassword := p;
     g_autoLockTimeout := g_autoLockTimeout s;
     eeprom := eeprom s;
     uart5 := uart5 s |}.

Definition set_autoLockTimeout (t : Z) (s : ECU) : ECU :=
  {| g_storedPassword := g_storedPassword s;
     g_autoLockTimeout := t;
     eeprom := eeprom s;
     uart5 := uart5 s |}.

Definition delay (ms : nat) : ECU -> ECU := on_uart (DelayMs ms).
Definition send (data : Z) : ECU -> ECU := on_uart (UART5_SendChar data).

Definition write_word (block offset data : Z) (s : ECU) : ECU :=
  set_eeprom (snd (EEPROM_WriteWord block offset data (eeprom s))) s.

(** The value of a local [uint32_t] that was declared without an
    initialiser; it is only seen if [EEPROM_ReadWord] rejects its
    parameters, which the fixed memory map never causes. *)
Definition uninitialised : Z := 0.

Definition read_word (block offset : Z) (s : ECU) : Z :=
  snd (EEPROM_ReadWord block offset uninitialised (eeprom s)).

(** *** ReceivePassword *)

Fixpoint receive_chars (n : nat) (u : UART) : list Z * UART :=
  match n with
  | O => ([], u)
  | S n' =>
      let '(c, u1) := receive_or 0x30 (poll 1000 u) in
      let '(cs, u2) := receive_chars n' u1 in
      (c :: cs, u2)
  end.

Definition ReceivePassword (s : ECU) : list Z * ECU :=
  let '(cs, u) := receive_chars PASSWORD_LENGTH (uart5 s) in
  (cs ++ [0], on_uart (fun _ => u) s).

Definition VerifyPassword (password : list Z) (s : ECU) : bool :=
  strcmp password (g_storedPassword s) =? 0.

(** *** The persistence codec of SavePassword / LoadPassword *)

Definition u32 (x : Z) : Z := Z.land x 0xFFFFFFFF.

Definition pack_data1 (password : list Z) : Z :=
  Z.lor (Z.lor (Z.lor (u32 (Z.shiftl (nth 0 password 0) 24))
                      (u32 (Z.shiftl (nth 1 password 0) 16)))
               (u32 (Z.shiftl (nth 2 password 0) 8)))
        (nth 3 password 0).

Definition pack_data2 (password : list Z) : Z :=
  u32 (Z.shiftl (nth 4 password 0) 24).

Definition unpack (data1 data2 : Z) : list Z :=
  [ Z.land (Z.shiftr data1 24) 0xFF;
    Z.land (Z.shiftr data1 16) 0xFF;
    Z.land (Z.shiftr data1 8) 0xFF;
    Z.land data1 0xFF;
    Z.land (Z.shiftr data2 24) 0xFF;
    0 ].

Definition MarkPasswordAsValid (s : ECU) : ECU :=
  write_word EEPROM_VALID_FLAG_BLOCK EEPROM_VALID_FLAG_OFFSET
             PASSWORD_VALID_MARKER s.

Definition SavePassword (password : list Z) (s : ECU) : ECU :=
  let data1 := pack_data1 password in
  let data2 := pack_data2 password in
  let s := write_word EEPROM_PASSWORD_BLOCK EEPROM_PASSWORD_OFFSET data1 s in
  let s := delay 10 s in
  let s := write_word EEPROM_PASSWORD_BLOCK (EEPROM_PASSWORD_OFFSET + 1) data2 s in
  let s := delay 10 s in
  let s := MarkPasswordAsValid s in
  let s := delay 10 s in
  set_storedPassword (strcpy (g_storedPassword s) password) s.

Definition LoadPassword (s : ECU) : ECU :=
  let data1 := read_word EEPROM_PASSWORD_BLOCK EEPROM_PASSWORD_OFFSET s in
  let data2 := read_word EEPROM_PASSWORD_BLOCK (EEPROM_PASSWORD_OFFSET + 1) s in
  set_storedPassword (unpack data1 data2) s.

Definition LoadTimeout (s : ECU) : ECU :=
  let data := read_word EEPROM_TIMEOUT_BLOCK EEPROM_TIMEOUT_OFFSET s in
  let t := Z.land (Z.land data 0xFF) 0xFF in
  if (t <? 5) || (t >? 30) then set_autoLockTimeout DEFAULT_TIMEOUT s
  else set_autoLockTimeout t s.

Definition SaveTimeout (timeout : Z) (s : ECU) : ECU :=
  let data := timeout in
  let s := write_word EEPROM_TIMEOUT_BLOCK EEPROM_TIMEOUT_OFFSET data s in
  let s := delay 10 s in
  set_autoLockTimeout timeout s.

Definition IsPasswordValid (s : ECU) : bool :=
  read_word EEPROM_VALID_FLAG_BLOCK EEPROM_VALID_FLAG_OFFSET s
    =? PASSWORD_VALID_MARKER.

(** *** Opcode handlers *)

Definition HandleSetupPassword (s : ECU) : ECU :=
  let '(password1, s) := ReceivePassword s in
  let s := delay 50 s in
  let '(password2, s) := ReceivePassword s in
  if strcmp password1 password2 =? 0 then
    let s := SavePassword password1 s in
    let s := delay 100 s in
    send RESP_PASSWORD_MATCH s
  else
    send RESP_PASSWORD_MISMATCH s.

Definition HandleChangePassword (s : ECU) : ECU :=
  let '(password, s) := ReceivePassword s in
  if VerifyPassword password s then send RESP_PASSWORD_MATCH s
  else send RESP_PASSWORD_MISMATCH s.

(** The wait for the timeout byte of [HandleSetTimeout]. *)
Definition receive_timeout (s : ECU) : Z * ECU :=
  let '(timeout, u) := receive_or DEFAULT_TIMEOUT (poll 1000 (uart5 s)) in
  (timeout, on_uart (fun _ => u) s).

Definition HandleSetTimeout (s : ECU) : ECU :=
  let '(password, s) := ReceivePassword s in
  let '(timeout, s) := receive_timeout s in
  if VerifyPassword password s then
    let s := SaveTimeout timeout s in
    let s := delay 50 s in
    send RESP_TIMEOUT_SAVED s
  else
    send RESP_PASSWORD_MISMATCH s.

Definition SendCountdown (seconds : Z) (s : ECU) : ECU := send seconds s.

(** [for (i = g_autoLockTimeout; i > 0; i--) { SendCountdown(i); DelayMs(1000); }] *)
Fixpoint countdown (i : nat) (s : ECU) : ECU :=
  match i with
  | O => s
  | S i' => countdown i' (delay 1000 (SendCountdown (Z.of_nat i) s))
  end.

(** The motor driver only moves the actuator; its calls leave the modelled
    state as it is and are kept as comments. *)
Definition PerformDoorOperation (s : ECU) : ECU :=
  let s := send RESP_DOOR_UNLOCKING s in
  (* Motor_RotateCW *)
  let s := delay 2000 s in
  (* Motor_Stop *)
  let s := send RESP_COUNTDOWN_START s in
  let s := delay 50 s in
  let s := countdown (Z.to_nat (g_autoLockTimeout s)) s in
  let s := delay 100 s in
  let s := send RESP_DOOR_LOCKING s in
  (* Motor_RotateCCW *)
  let s := delay 2000 s in
  (* Motor_Stop *)
  let s := delay 50 s in
  send RESP_DOOR_LOCKED s.

Definition HandleOpenDoor (s : ECU) : ECU :=
  let '(password, s) := ReceivePassword s in
  if VerifyPassword password s then
    let s := send RESP_PASSWORD_MATCH s in
    let s := delay 100 s in
    PerformDoorOperation s
  else
    send RESP_PASSWORD_MISMATCH s.

(** [Buzzer_Beep] of [buzzer.c]: [duration_ms * 4000 / 1000] toggles of
    the pin, about 125 microseconds apart. *)
Definition Buzzer_Beep (duration_ms : Z) (s : ECU) : ECU :=
  let toggles := duration_ms * 4000 / 1000 in
  delay (Z.to_nat (toggles * 125 / 1000)) s.

Definition TriggerLockout (s : ECU) : ECU :=
  let s := send RESP_SYSTEM_LOCKED s in
  Nat.iter LOCKOUT_DURATION (fun s => delay 200 (Buzzer_Beep 800 s)) s.

Definition HandleEraseEEPROM (s : ECU) : ECU :=
  let '(password, s) := ReceivePassword s in
  if VerifyPassword password s then
    let s := set_eeprom (snd (EEPROM_MassErase (eeprom s))) s in
    let s := set_storedPassword
               (strcpy (g_storedPassword s) [0x30; 0x30; 0x30; 0x30; 0x30; 0]) s in
    let s := set_autoLockTimeout DEFAULT_TIMEOUT s in
    let s := delay 50 s in
    send RESP_EEPROM_ERASED s
  else
    send RESP_PASSWORD_MISMATCH s.

Definition HandleTriggerLockout (s : ECU) : ECU := TriggerLockout s.

Definition HandleCheckPassword (s : ECU) : ECU :=
  if IsPasswordValid s then send RESP_PASSWORD_EXISTS s
  else send RESP_NO_PASSWORD s.

(** *** main: boot, then the command loop *)

(** The [switch (command)] of the main loop. *)
Definition dispatch (command : Z) (s : ECU) : ECU :=
  if command =? CMD_CHECK_PASSWORD then HandleCheckPassword s
  else if command =? CMD_SETUP_PASSWORD then HandleSetupPassword s
  else if command =? CMD_CHANGE_PASSWORD then HandleChangePassword s
  else if command =? CMD_SET_TIMEOUT then HandleSetTimeout s
  else if command =? CMD_OPEN_DOOR then HandleOpenDoor s
  else if command =? CMD_ERASE_EEPROM then HandleEraseEEPROM s
  else if command =? CMD_TRIGGER_LOCKOUT then HandleTriggerLockout s
  else s.

(** The command that the next pass of the loop takes from the line, if
    one is in the FIFO. *)
Definition pending_command (s : ECU) : option Z :=
  if UART5_IsDataAvailable (uart5 s)
  then Some (fst (UART5_ReceiveChar (uart5 s)))
  else None.

(** One pass of [while (1) { if (UART5_IsDataAvailable()) {...} DelayMs(10); }]. *)
Definition main_pass (s : ECU) : ECU :=
  let s :=
    if UART5_IsDataAvailable (uart5 s) then
      let '(command, u) := UART5_ReceiveChar (uart5 s) in
      dispatch command (on_uart (fun _ => u) s)
    else s in
  delay 10 s.

(** The state in which [main] enters its loop: statics zeroed or at their
    initialisers, then [LoadPassword] and [LoadTimeout]. *)
Definition boot (m : gmap Z Z) (line : list (nat * Z)) : ECU :=
  LoadTimeout
    (LoadPassword
       {| g_storedPassword := [0; 0; 0; 0; 0; 0];
          g_autoLockTimeout := DEFAULT_TIMEOUT;
          eeprom := m;
          uart5 := {| rx := line; tx := [] |} |}).

(** [main] after [n] passes of its loop. *)
Definition main (n : nat) (m : gmap Z Z) (line : list (nat * Z)) : ECU :=
  Nat.iter n main_pass (boot m line).

End Control.

(** ** HMI ECU ([src/main.c])

    The LCD is a write-only collaborator: its calls change nothing that
    the protocol depends on and are left out.  The keypad and the
    potentiometer drivers are not part of the sources; they are taken as
    the sequences of values that their successive calls return. *)

Module HMI.
Import Uart.

Definition KEY_SAVE : Z := 0x2A.
Definition UART_RESPONSE_TIMEOUT_MS : nat := Z.to_nat 5000.
Definition LOCKOUT_DURATION_MS : nat := Z.to_nat 10000.
Definition TIMEOUT_MIN_SECONDS : Z := 5.
Definition TIMEOUT_MAX_SECONDS : Z := 30.
Definition RESP_TIMEOUT : Z := 0xFF.

(** [keypad]: what the coming calls of [Keypad_GetKey] return ([0] when
    no key is down, and for ever once the list is used up).
    [knob]: what the coming calls of [POT_ReadMapped] return.
    [heard]: history of the values returned by [WaitForResponse]. *)
Record ECU := mkECU {
  uart5 : UART;
  keypad : list Z;
  knob : list Z;
  heard : list Z
}.

Definition on_uart (f : UART -> UART) (s : ECU) : ECU :=
  {| uart5 := f (uart5 s); keypad := keypad s; knob := knob s;
     heard := heard s |}.

Definition delay (ms : nat) : ECU -> ECU := on_uart (DelayMs ms).
Definition send (data : Z) : ECU -> ECU := on_uart (UART5_SendChar data).

Definition Keypad_GetKey (s : ECU) : Z * ECU :=
  match keypad s with
  | [] => (0, s)
  | k :: ks =>
      (Z.land k 0xFF,
       {| uart5 := uart5 s; keypad := ks; knob := knob s; heard := heard s |})
  end.

(** [(uint8_t)POT_ReadMapped(min, max)]. *)
Definition POT_ReadMapped (min max : Z) (s : ECU) : Z * ECU :=
  match knob s with
  | [] => (min, s)
  | v :: vs =>
      (Z.land v 0xFF,
       {| uart5 := uart5 s; keypad := keypad s; knob := vs; heard := heard s |})
  end.

(** A computation of the HMI either returns ([Done]) or is still turning
    in one of its unbounded loops when the fuel is used up ([Spin]). *)
Inductive run (A : Type) : Type :=
| Done (a : A) (s : ECU)
| Spin (s : ECU).
Arguments Done {A} a s.
Arguments Spin {A} s.

Definition bind {A B : Type} (r : run A) (k : A -> ECU -> run B) : run B :=
  match r with
  | Done a s => k a s
  | Spin s => Spin s
  end.

Definition final {A : Type} (r : run A) : ECU :=
  match r with
  | Done _ s => s
  | Spin s => s
  end.

Definition returned {A : Type} (r : run A) : bool :=
  match r with
  | Done _ _ => true
  | Spin _ => false
  end.

(** [while (i < PASSWORD_LENGTH) {...}] of [GetPassword]; [password] holds
    the [i] characters stored so far. *)
Fixpoint get_digits (fuel : nat) (password : list Z) (s : ECU) : run (list Z) :=
  if (length password <? PASSWORD_LENGTH)%nat then
    match fuel with
    | O => Spin s
    | S fuel' =>
        let '(key, s) := Keypad_GetKey s in
        if (0x30 <=? key) && (key <=? 0x39)
        then get_digits fuel' (password ++ [key]) (delay 10 (delay 200 s))
        else get_digits fuel' password (delay 10 s)
    end
  else Done (password ++ [0]) s.

Definition GetPassword (fuel : nat) (s : ECU) : run (list Z) :=
  get_digits fuel [] s.

Fixpoint send_chars (n : nat) (password : list Z) (s : ECU) : ECU :=
  match n with
  | O => s
  | S n' => send_chars n' (tl password) (delay 10 (send (hd 0 password) s))
  end.

Definition SendPassword (password : list Z) (s : ECU) : ECU :=
  send_chars PASSWORD_LENGTH password s.

Definition WaitForResponse (s : ECU) : Z * ECU :=
  let '(response, u) :=
    receive_or RESP_TIMEOUT (poll UART_RESPONSE_TIMEOUT_MS (uart5 s)) in
  (response,
   {| uart5 := u; keypad := keypad s; knob := knob s;
      heard := heard s ++ [response] |}).

Definition SetupPassword (fuel : nat) (s : ECU) : run bool :=
  bind (GetPassword fuel s) (fun password1 s =>
  let s := delay 500 s in
  bind (GetPassword fuel s) (fun password2 s =>
  let s := send CMD_SETUP_PASSWORD s in
  let s := delay 50 s in
  let s := SendPassword password1 s in
  let s := delay 50 s in
  let s := SendPassword password2 s in
  let '(response, s) := WaitForResponse s in
  if response =? RESP_PASSWORD_MATCH then Done true (delay 2000 s)
  else Done false (delay 2000 s))).

(** [while (!passwordSet) { passwordSet = SetupPassword(); }] *)
Fixpoint setup_until_saved (fuel : nat) (s : ECU) : run unit :=
  match fuel with
  | O => Spin s
  | S fuel' =>
      bind (SetupPassword fuel' s) (fun saved s =>
      if saved then Done tt s else setup_until_saved fuel' s)
  end.

(** [while (countingDown) {...}] of [HandleOpenDoor]; returns [response]. *)
Fixpoint receive_countdown (fuel : nat) (s : ECU) : run Z :=
  match fuel with
  | O => Spin s
  | S fuel' =>
      if UART5_IsDataAvailable (uart5 s) then
        let '(countdown, u) := UART5_ReceiveChar (uart5 s) in
        let s := on_uart (fun _ => u) s in
        if countdown =? RESP_DOOR_LOCKING
        then Done RESP_DOOR_LOCKING (delay 10 s)
        else receive_countdown fuel' (delay 10 s)
      else receive_countdown fuel' (delay 10 s)
  end.

(** The branch of [HandleOpenDoor] taken after [RESP_PASSWORD_MATCH]. *)
Definition follow_door (fuel : nat) (s : ECU) : run unit :=
  let s := delay 1500 s in
  let '(response, s) := WaitForResponse s in
  let s := if response =? RESP_DOOR_UNLOCKING then delay 2000 s else s in
  let '(response, s) := WaitForResponse s in
  bind (if response =? RESP_COUNTDOWN_START then receive_countdown fuel s
        else Done response s) (fun response s =>
  let s := if response =? RESP_DOOR_LOCKING then delay 2000 s else s in
  let '(response, s) := WaitForResponse s in
  let s := if response =? RESP_DOOR_LOCKED then delay 1500 s else s in
  Done tt s).

(** [while (attempts < MAX_ATTEMPTS) {...}] of [HandleOpenDoor], with
    [left = MAX_ATTEMPTS - attempts].  The result is [true] when the
    function returned from inside the loop. *)
Fixpoint open_attempts (fuel : nat) (left : nat) (s : ECU) : run bool :=
  match left with
  | O => Done false s
  | S left' =>
      bind (GetPassword fuel s) (fun password s =>
      let s := send CMD_OPEN_DOOR s in
      let s := delay 50 s in
      let s := SendPassword password s in
      let '(response, s) := WaitForResponse s in
      if response =? RESP_PASSWORD_MATCH then
        bind (follow_door fuel s) (fun _ s => Done true s)
      else
        let s := match left' with O => s | S _ => delay 1500 s end in
        open_attempts fuel left' s)
  end.

(** The tail shared by [HandleOpenDoor] and [HandleChangePassword]. *)
Definition lockout (s : ECU) : ECU :=
  let s := send CMD_TRIGGER_LOCKOUT s in
  delay LOCKOUT_DURATION_MS s.

Definition HandleOpenDoor (fuel : nat) (s : ECU) : run unit :=
  bind (open_attempts fuel (Z.to_nat MAX_ATTEMPTS) s) (fun exited s =>
  if exited then Done tt s else Done tt (lockout s)).

Fixpoint change_attempts (fuel : nat) (left : nat) (s : ECU) : run bool :=
  match left with
  | O => Done false s
  | S left' =>
      bind (GetPassword fuel s) (fun password s =>
      let s := send CMD_CHANGE_PASSWORD s in
      let s := delay 50 s in
      let s := SendPassword password s in
      let '(response, s) := WaitForResponse s in
      if response =? RESP_PASSWORD_MATCH then
        let s := delay 1000 s in
        bind (setup_until_saved fuel s) (fun _ s => Done true s)
      else
        let s := match left' with O => s | S _ => delay 1500 s end in
        change_attempts fuel left' s)
  end.

Definition HandleChangePassword (fuel : nat) (s : ECU) : run unit :=
  bind (change_attempts fuel (Z.to_nat MAX_ATTEMPTS) s) (fun exited s =>
  if exited then Done tt s else Done tt (lockout s)).

(** [while (key != KEY_SAVE) {...}] of [HandleSetTimeout]; returns the last
    reading of the potentiometer. *)
Fixpoint adjust_timeout (fuel : nat) (s : ECU) : run Z :=
  match fuel with
  | O => Spin s
  | S fuel' =>
      let '(timeout, s) := POT_ReadMapped TIMEOUT_MIN_SECONDS TIMEOUT_MAX_SECONDS s in
      let '(key, s) := Keypad_GetKey s in
      let s := delay 100 s in
      if key =? KEY_SAVE then Done timeout s else adjust_timeout fuel' s
  end.

Definition HandleSetTimeout (fuel : nat) (s : ECU) : run unit :=
  bind (adjust_timeout fuel s) (fun timeout s =>
  bind (GetPassword fuel s) (fun password s =>
  let s := send CMD_SET_TIMEOUT s in
  let s := delay 50 s in
  let s := SendPassword password s in
  let s := delay 50 s in
  let s := send timeout s in
  let '(response, s) := WaitForResponse s in
  if response =? RESP_TIMEOUT_SAVED then Done tt (delay 2000 s)
  else Done tt (delay 1500 s))).

Definition HandleEraseEEPROM (fuel : nat) (s : ECU) : run unit :=
  let s := delay 2000 s in
  bind (GetPassword fuel s) (fun password s =>
  let s := send CMD_ERASE_EEPROM s in
  let s := delay 50 s in
  let s := SendPassword password s in
  let '(response, s) := WaitForResponse s in
  if response =? RESP_EEPROM_ERASED then
    let s := delay 2000 s in
    setup_until_saved fuel s
  else Done tt (delay 1500 s)).

Definition CheckPasswordExists (s : ECU) : bool * ECU :=
  let s := send CMD_CHECK_PASSWORD s in
  let u := poll 2000 (uart5 s) in
  if UART5_IsDataAvailable u then
    let '(response, u) := UART5_ReceiveChar u in
    (response =? RESP_PASSWORD_EXISTS, on_uart (fun _ => u) s)
  else (false, on_uart (fun _ => u) s).

(** The four password-gated dialogs of the main menu. *)
Inductive dialog : Type :=
| OpenDoor | ChangePassword | SetTimeout | EraseEeprom.

Definition handle (d : dialog) (fuel : nat) (s : ECU) : run unit :=
  match d with
  | OpenDoor => HandleOpenDoor fuel s
  | ChangePassword => HandleChangePassword fuel s
  | SetTimeout => HandleSetTimeout fuel s
  | EraseEeprom => HandleEraseEEPROM fuel s
  end.

End HMI.

(** ** Vocabulary of the properties *)

(** A credential of the data model: five decimal digits. *)
Definition is_credential (C : list Z) : Prop :=
  length C = PASSWORD_LENGTH /\ Forall (fun c => 0x30 <= c <= 0x39) C.

(** What was appended to a log between two states. *)
Definition since {A : Type} (before after : list A) : list A :=
  drop (length before) after.

(** Number of payload bytes that follow an opcode on the wire. *)
Definition payload_length (opcode : Z) : nat :=
  if opcode =? CMD_SETUP_PASSWORD then 10
  else if opcode =? CMD_CHANGE_PASSWORD then 5
  else if opcode =? CMD_SET_TIMEOUT then 6
  else if opcode =? CMD_OPEN_DOOR then 5
  else if opcode =? CMD_ERASE_EEPROM then 5
  else 0.

(** The opcodes of a byte stream sent by the HMI, payloads skipped. *)
Fixpoint opcodes_from (skip : nat) (wire : list Z) : list Z :=
  match wire with
  | [] => []
  | b :: wire' =>
      match skip with
      | S k => opcodes_from k wire'
      | O => b :: opcodes_from (payload_length b) wire'
      end
  end.

Definition opcodes (wire : list Z) : list Z := opcodes_from 0 wire.

Definition lockouts (wire : list Z) : nat :=
  count_occ Z.eq_dec (opcodes wire) CMD_TRIGGER_LOCKOUT.

(** The bytes of the countdown that starts at [n]: [n], [n-1], ..., [1]. *)
Fixpoint countdown_values (n : nat) : list Z :=
  match n with
  | O => []
  | S n' => Z.of_nat n :: countdown_values n'
  end.

(** The string literal ["00000"] that [HandleEraseEEPROM] copies. *)
Definition default_credential : list Z := [0x30; 0x30; 0x30; 0x30; 0x30; 0].

(** The state in which the Control ECU is left by an erase: the default
    credential in memory and no validity marker in the EEPROM. *)
Definition erased_state (s : Control.ECU) : Prop :=
  Control.g_storedPassword s = default_credential
  /\ Control.IsPasswordValid s = false.

(** [F] is a run of whole frames whose opcodes are [ops]. *)
Definition frames (F ops : list Z) : Prop :=
  forall rest, opcodes (F ++ rest) = ops ++ opcodes rest.

(** A run of whole frames none of which is TriggerLockout. *)
Definition silent (F : list Z) : Prop :=
  exists ops, frames F ops /\ ~ In CMD_TRIGGER_LOCKOUT ops.

(** [s'] comes after [s] in a dialog of the HMI: both logs have grown, and
    what was sent in between has no TriggerLockout. *)
Definition extends (s s' : HMI.ECU) : Prop :=
  exists F R,
    tx (HMI.uart5 s') = tx (HMI.uart5 s) ++ F
    /\ HMI.heard s' = HMI.heard s ++ R
    /\ silent F.

(** The shape shared by the attempt loops of [HandleOpenDoor] and
    [HandleChangePassword]: [command] is the opcode sent with each
    password, [granted] what follows a PasswordMatch. *)
Fixpoint attempts_loop (command : Z) (granted : HMI.ECU -> HMI.run unit)
    (fuel left : nat) (s : HMI.ECU) : HMI.run bool :=
  match left with
  | O => HMI.Done false s
  | S left' =>
      HMI.bind (HMI.GetPassword fuel s) (fun password s =>
      let s := HMI.send command s in
      let s := HMI.delay 50 s in
      let s := HMI.SendPassword password s in
      let '(response, s) := HMI.WaitForResponse s in
      if response =? RESP_PASSWORD_MATCH then
        HMI.bind (granted s) (fun _ s => HMI.Done true s)
      else
        let s := match left' with O => s | S _ => HMI.delay 1500 s end in
        attempts_loop command granted fuel left' s)
  end.

(** ** Further drivers *)

(** [UART5_SendString] of [uart.c]: sends the characters of [str] up to its
    terminator.  A list without terminator stands for a buffer that the C
    function would overrun; the model stops at its end. *)
Fixpoint UART5_SendString (str : list Z) (u : UART) : UART :=
  match str with
  | [] => u
  | c :: str' =>
      if c =? 0 then u else UART5_SendString str' (Uart.UART5_SendChar c u)
  end.

(** The digit keys among the coming samples of the keypad, as
    [GetPassword] sees them. *)
Definition digit_keys (samples : list Z) : list Z :=
  List.filter (fun key => (0x30 <=? key) && (key <=? 0x39))
              (map (fun k => Z.land k 0xFF) samples).

(** What every state of the Control ECU satisfies from boot on: the
    credential buffer has its six cells and its terminator, the timeout is
    a byte, and no NUL byte was ever sent. *)
Definition control_invariant (s : Control.ECU) : Prop :=
  length (Control.g_storedPassword s) = 6%nat
  /\ nth 5 (Control.g_storedPassword s) 1 = 0
  /\ 0 <= Control.g_autoLockTimeout s < 256
  /\ Forall (fun b => 1 <= b <= 255) (tx (Control.uart5 s)).

(** [s'] is [s] after a handler that has answered: at least one byte was
    sent, and the parts of [control_invariant] are kept. *)
Definition answered (s s' : Control.ECU) : Prop :=
  exists L,
    tx (Control.uart5 s') = tx (Control.uart5 s) ++ L
    /\ L <> []
    /\ length (Control.g_storedPassword s') = length (Control.g_storedPassword s)
    /\ (length (Control.g_storedPassword s) = 6%nat ->
        nth 5 (Control.g_storedPassword s) 1 = 0 ->
        nth 5 (Control.g_storedPassword s') 1 = 0)
    /\ (0 <= Control.g_autoLockTimeout s < 256 ->
        0 <= Control.g_autoLockTimeout s' < 256
        /\ Forall (fun b => 1 <= b <= 255) L).

(** The opcodes that the main loop of the Control ECU has a case for. *)
Definition handled_opcodes : list Z :=
  [CMD_CHECK_PASSWORD; CMD_SETUP_PASSWORD; CMD_CHANGE_PASSWORD; CMD_SET_TIMEOUT;
   CMD_OPEN_DOOR; CMD_ERASE_EEPROM; CMD_TRIGGER_LOCKOUT].

(** * Properties *)

(** ** The receive line *)

Lemma advance_0 q : advance 0 q = q.
Proof.
  induction q as [|[d v] q IH]; simpl; [reflexivity|].
  destruct d; simpl; [now rewrite IH | reflexivity].
Qed.

Lemma advance_bytes ms q : map snd (advance ms q) = map snd q.
Proof.
  revert ms; induction q as [|[d v] q IH]; intros ms; simpl; [reflexivity|].
  destruct (d <=? ms)%nat; simpl; [now rewrite IH | reflexivity].
Qed.

Lemma poll_empty n t :
  Uart.poll n {| rx := []; tx := t |} = {| rx := []; tx := t |}.
Proof. induction n; simpl; auto. Qed.

Lemma poll_in_time n d v q t :
  (d <= n)%nat ->
  Uart.poll n {| rx := (d, v) :: q; tx := t |} = {| rx := (0%nat, v) :: q; tx := t |}.
Proof.
  revert d; induction n as [|n IH]; intros d Hd.
  - assert (d = 0)%nat as -> by lia. reflexivity.
  - destruct d as [|d]; [reflexivity|].
    cbn [Uart.poll Uart.UART5_IsDataAvailable rx].
    unfold Uart.DelayMs; cbn [rx tx advance].
    destruct d as [|d].
    + cbn. rewrite advance_0. destruct n; reflexivity.
    + cbn [Nat.leb Nat.sub]. apply IH. lia.
Qed.

Lemma poll_late n d v q t :
  (n < d)%nat ->
  Uart.poll n {| rx := (d, v) :: q; tx := t |} = {| rx := ((d - n)%nat, v) :: q; tx := t |}.
Proof.
  revert d; induction n as [|n IH]; intros d Hd.
  - simpl. now rewrite Nat.sub_0_r.
  - destruct d as [|d]; [lia|].
    cbn [Uart.poll Uart.UART5_IsDataAvailable rx].
    unfold Uart.DelayMs; cbn [rx tx advance].
    destruct d as [|d]; [lia|].
    cbn [Nat.leb Nat.sub]. rewrite IH by lia. reflexivity.
Qed.

Lemma poll_tx n u : tx (Uart.poll n u) = tx u.
Proof.
  revert u; induction n as [|n IH]; intros u; simpl; [reflexivity|].
  destruct (Uart.UART5_IsDataAvailable u); [reflexivity|]. now rewrite IH.
Qed.

Lemma receive_or_tx dflt u : tx (snd (Uart.receive_or dflt u)) = tx u.
Proof.
  unfold Uart.receive_or, Uart.UART5_ReceiveChar.
  destruct (Uart.UART5_IsDataAvailable u); [|reflexivity].
  destruct (rx u) as [|[d v] q]; reflexivity.
Qed.

Lemma receive_or_byte dflt u :
  0 <= dflt < 256 -> 0 <= fst (Uart.receive_or dflt u) < 256.
Proof.
  intros Hd. unfold Uart.receive_or, Uart.UART5_ReceiveChar.
  destruct (Uart.UART5_IsDataAvailable u); [|exact Hd].
  destruct (rx u) as [|[d v] q]; simpl; [lia|].
  change 0xFF with (Z.ones 8). rewrite Z.land_ones by lia.
  apply Z.mod_pos_bound. lia.
Qed.

(** ** Persistence codec *)

Section Codec.
Import Control.

Lemma u32_shiftl_byte c n :
  0 <= c < 256 -> 0 <= n <= 24 -> u32 (Z.shiftl c n) = Z.shiftl c n.
Proof.
  intros Hc Hn. unfold u32. change 0xFFFFFFFF with (Z.ones 32).
  rewrite Z.land_ones by lia. rewrite Z.shiftl_mul_pow2 by lia.
  apply Z.mod_small. split; [nia|].
  assert (2 ^ n <= 2 ^ 24) by (apply Z.pow_le_mono_r; lia).
  assert (0 < 2 ^ n) by (apply Z.pow_pos_nonneg; lia).
  change (2 ^ 32) with (256 * 2 ^ 24). nia.
Qed.

Lemma byte_shiftr_0 c n : 0 <= c < 256 -> 8 <= n -> Z.shiftr c n = 0.
Proof.
  intros Hc Hn. rewrite Z.shiftr_div_pow2 by lia. apply Z.div_small.
  assert (2 ^ 8 <= 2 ^ n) by (apply Z.pow_le_mono_r; lia).
  change (2 ^ 8) with 256 in *. lia.
Qed.

Lemma land_byte c : 0 <= c < 256 -> Z.land c 0xFF = c.
Proof.
  intros Hc. change 0xFF with (Z.ones 8). rewrite Z.land_ones by lia.
  apply Z.mod_small. change (2 ^ 8) with 256. lia.
Qed.

Lemma land_shiftl_0 c n : 8 <= n -> Z.land (Z.shiftl c n) 0xFF = 0.
Proof.
  intros Hn. change 0xFF with (Z.ones 8). rewrite Z.land_ones by lia.
  rewrite Z.shiftl_mul_pow2 by lia.
  replace n with ((n - 8) + 8) by lia. rewrite Z.pow_add_r by lia.
  rewrite Z.mul_assoc. apply Z.mod_mul. discriminate.
Qed.

(** The two words written by [SavePassword] give back the five characters
    when [LoadPassword] unpacks them, for any five bytes. *)
Lemma unpack_pack a b c d e z :
  0 <= a < 256 -> 0 <= b < 256 -> 0 <= c < 256 -> 0 <= d < 256 ->
  0 <= e < 256 ->
  unpack (pack_data1 [a; b; c; d; e; z]) (pack_data2 [a; b; c; d; e; z])
  = [a; b; c; d; e; 0].
Proof.
  intros Ha Hb Hc Hd He. unfold unpack, pack_data1, pack_data2.
  cbn [nth].
  rewrite !u32_shiftl_byte by lia.
  repeat f_equal.
  - rewrite !Z.shiftr_lor.
    rewrite (Z.shiftr_shiftl_l a 24 24), (Z.shiftr_shiftl_r b 16 24),
      (Z.shiftr_shiftl_r c 8 24) by lia.
    change (24 - 24) with 0; change (24 - 16) with 8; change (24 - 8) with 16.
    rewrite Z.shiftl_0_r, !byte_shiftr_0, !Z.lor_0_r by lia.
    now apply land_byte.
  - rewrite !Z.shiftr_lor.
    rewrite (Z.shiftr_shiftl_l a 24 16), (Z.shiftr_shiftl_l b 16 16),
      (Z.shiftr_shiftl_r c 8 16) by lia.
    change (24 - 16) with 8; change (16 - 16) with 0; change (16 - 8) with 8.
    rewrite Z.shiftl_0_r, !byte_shiftr_0, !Z.lor_0_r by lia.
    rewrite Z.land_lor_distr_l, land_shiftl_0, Z.lor_0_l by lia.
    now apply land_byte.
  - rewrite !Z.shiftr_lor.
    rewrite (Z.shiftr_shiftl_l a 24 8), (Z.shiftr_shiftl_l b 16 8),
      (Z.shiftr_shiftl_l c 8 8) by lia.
    change (24 - 8) with 16; change (16 - 8) with 8; change (8 - 8) with 0.
    rewrite Z.shiftl_0_r, byte_shiftr_0, Z.lor_0_r by lia.
    rewrite !Z.land_lor_distr_l, !land_shiftl_0, !Z.lor_0_l by lia.
    now apply land_byte.
  - rewrite !Z.land_lor_distr_l, !land_shiftl_0, !Z.lor_0_l by lia.
    now apply land_byte.
  - rewrite (Z.shiftr_shiftl_l e 24 24) by lia. change (24 - 24) with 0.
    rewrite Z.shiftl_0_r. now apply land_byte.
Qed.

End Codec.

(** ** The EEPROM cells of the memory map *)

Section Cells.
Import Control Eeprom.

Lemma eeprom_on_uart f s : eeprom (on_uart f s) = eeprom s.
Proof. reflexivity. Qed.

Lemma eeprom_SavePassword p s :
  eeprom (SavePassword p s)
  = <[12 := PASSWORD_VALID_MARKER]>
      (<[4 := pack_data2 p]> (<[0 := pack_data1 p]> (eeprom s))).
Proof. reflexivity. Qed.

Lemma eeprom_SaveTimeout t s :
  eeprom (SaveTimeout t s) = <[8 := t]> (eeprom s).
Proof. reflexivity. Qed.

Lemma read_password_word0 s :
  read_word EEPROM_PASSWORD_BLOCK EEPROM_PASSWORD_OFFSET s
  = default ERASED_WORD (eeprom s !! 0).
Proof. reflexivity. Qed.

Lemma read_password_word1 s :
  read_word EEPROM_PASSWORD_BLOCK (EEPROM_PASSWORD_OFFSET + 1) s
  = default ERASED_WORD (eeprom s !! 4).
Proof. reflexivity. Qed.

Lemma read_timeout_word s :
  read_word EEPROM_TIMEOUT_BLOCK EEPROM_TIMEOUT_OFFSET s
  = default ERASED_WORD (eeprom s !! 8).
Proof. reflexivity. Qed.

Lemma read_valid_flag s :
  read_word EEPROM_VALID_FLAG_BLOCK EEPROM_VALID_FLAG_OFFSET s
  = default ERASED_WORD (eeprom s !! 12).
Proof. reflexivity. Qed.

Lemma credential_bytes C :
  is_credential C ->
  exists a b c d e,
    C = [a; b; c; d; e] /\ 0 <= a < 256 /\ 0 <= b < 256 /\ 0 <= c < 256
    /\ 0 <= d < 256 /\ 0 <= e < 256.
Proof.
  intros [Hlen Hall].
  destruct C as [|a [|b [|c [|d [|e [|? ?]]]]]]; try discriminate Hlen.
  exists a, b, c, d, e.
  repeat match goal with
         | H : Forall _ (_ :: _) |- _ => inversion H; subst; clear H
         end.
  repeat split; lia.
Qed.

End Cells.

(** C2. For every credential [C] of five decimal digits, unpacking the two
    words that [SavePassword] packs from [C] gives back the five characters
    of [C]; and a [LoadPassword] that reads the EEPROM left by
    [SavePassword] restores the buffer [C] with its terminator. *)
Theorem credential_roundtrip (C : list Z) :
  is_credential C ->
  take 5 (Control.unpack (Control.pack_data1 (C ++ [0]))
                         (Control.pack_data2 (C ++ [0]))) = C
  /\ forall s s' : Control.ECU,
       Control.eeprom s' = Control.eeprom (Control.SavePassword (C ++ [0]) s) ->
       Control.g_storedPassword (Control.LoadPassword s') = C ++ [0].
Proof.
  intros HC.
  destruct (credential_bytes C HC) as (a & b & c & d & e & -> & Ha & Hb & Hc & Hd & He).
  cbn [app]. split.
  - rewrite unpack_pack by assumption. reflexivity.
  - intros s s' He'. unfold Control.LoadPassword.
    cbn [Control.g_storedPassword Control.set_storedPassword].
    rewrite read_password_word0, read_password_word1, He', eeprom_SavePassword.
    rewrite lookup_insert_ne, lookup_insert_ne, lookup_insert_eq by discriminate.
    rewrite lookup_insert_ne, lookup_insert_eq by discriminate.
    cbn [default from_option id]. now apply unpack_pack.
Qed.

Lemma credential_roundtrip_witness :
  is_credential [0x31; 0x33; 0x35; 0x37; 0x39]
  /\ take 5 (Control.unpack (Control.pack_data1 ([0x31; 0x33; 0x35; 0x37; 0x39] ++ [0]))
                            (Control.pack_data2 ([0x31; 0x33; 0x35; 0x37; 0x39] ++ [0])))
     = [0x31; 0x33; 0x35; 0x37; 0x39].
Proof.
  assert (H : is_credential [0x31; 0x33; 0x35; 0x37; 0x39]).
  { split; [reflexivity|]. repeat constructor; lia. }
  split; [exact H|]. exact (proj1 (credential_roundtrip _ H)).
Defined.

(** C4. Whatever word [T] the timeout cell holds, the timeout that
    [LoadTimeout] leaves in memory lies in [5,30]; and when the value
    decoded from [T], its low byte, is outside [5,30], the timeout is 5. *)
Theorem timeout_load_clamped (T : Z) (s : Control.ECU) :
  Control.read_word Control.EEPROM_TIMEOUT_BLOCK Control.EEPROM_TIMEOUT_OFFSET s = T ->
  5 <= Control.g_autoLockTimeout (Control.LoadTimeout s) <= 30
  /\ (~ (5 <= Z.land T 0xFF <= 30) ->
      Control.g_autoLockTimeout (Control.LoadTimeout s) = 5).
Proof.
  intros HT. unfold Control.LoadTimeout. rewrite HT.
  assert (Hb : 0 <= Z.land T 0xFF < 256).
  { change 0xFF with (Z.ones 8). rewrite Z.land_ones by lia.
    apply Z.mod_pos_bound. lia. }
  rewrite (land_byte (Z.land T 0xFF)) by exact Hb.
  destruct (Z.ltb_spec (Z.land T 0xFF) 5); cbn [orb].
  - cbn. unfold Control.DEFAULT_TIMEOUT. split; [lia|reflexivity].
  - destruct (Z.gtb_spec (Z.land T 0xFF) 30); cbn.
    + unfold Control.DEFAULT_TIMEOUT. split; [lia|reflexivity].
    + split; [lia|]. intros Hn. exfalso. apply Hn. lia.
Qed.

Lemma timeout_load_clamped_witness :
  let s := Control.mkECU [0; 0; 0; 0; 0; 0] 5 (<[8 := 0x1F0]> ∅) (mkUART [] []) in
  Control.read_word Control.EEPROM_TIMEOUT_BLOCK Control.EEPROM_TIMEOUT_OFFSET s = 0x1F0
  /\ Control.g_autoLockTimeout (Control.LoadTimeout s) = 5.
Proof.
  intros s.
  assert (H : Control.read_word Control.EEPROM_TIMEOUT_BLOCK
                Control.EEPROM_TIMEOUT_OFFSET s = 0x1F0) by (vm_compute; reflexivity).
  split; [exact H|].
  apply (proj2 (timeout_load_clamped 0x1F0 s H)). vm_compute. intros [_ Hle].
  apply Hle. reflexivity.
Defined.

(** ** Control ECU: what the handlers leave alone and what they send *)

Section ControlFacts.
Import Control.

Lemma strcmp_refl p : strcmp p p = 0.
Proof.
  induction p as [|c r IH]; [reflexivity|].
  cbn [strcmp hd tl]. rewrite Z.eqb_refl. destruct (c =? 0); auto.
Qed.

Lemma tx_send b s : tx (uart5 (send b s)) = tx (uart5 s) ++ [b].
Proof. reflexivity. Qed.

Lemma tx_delay n s : tx (uart5 (delay n s)) = tx (uart5 s).
Proof. reflexivity. Qed.

Lemma rx_send b s : rx (uart5 (send b s)) = rx (uart5 s).
Proof. reflexivity. Qed.

Lemma receive_chars_tx n u : tx (snd (receive_chars n u)) = tx u.
Proof.
  revert u; induction n as [|n IH]; intros u; [reflexivity|].
  cbn [receive_chars].
  destruct (Uart.receive_or 48 (Uart.poll 1000 u)) as [c u1] eqn:E1.
  destruct (receive_chars n u1) as [cs u2] eqn:E2. cbn [snd].
  specialize (IH u1). rewrite E2 in IH. cbn [snd] in IH. rewrite IH.
  pose proof (receive_or_tx 48 (Uart.poll 1000 u)) as H.
  rewrite E1 in H. cbn [snd] in H. rewrite H. apply poll_tx.
Qed.

(** [ReceivePassword] fills the five cells with bytes and terminates the
    buffer; it touches nothing but the receive line. *)
Lemma receive_chars_bytes n u :
  length (fst (receive_chars n u)) = n
  /\ Forall (fun c => 0 <= c < 256) (fst (receive_chars n u)).
Proof.
  revert u; induction n as [|n IH]; intros u; [split; [reflexivity|constructor]|].
  cbn [receive_chars].
  destruct (Uart.receive_or 48 (Uart.poll 1000 u)) as [c u1] eqn:E1.
  destruct (receive_chars n u1) as [cs u2] eqn:E2. cbn [fst].
  specialize (IH u1). rewrite E2 in IH. cbn [fst] in IH. destruct IH as [IH1 IH2].
  split; [cbn; now rewrite IH1|]. constructor; [|exact IH2].
  pose proof (receive_or_byte 48 (Uart.poll 1000 u)) as H.
  rewrite E1 in H. apply H. lia.
Qed.

Lemma ReceivePassword_frame s :
  let s1 := snd (ReceivePassword s) in
  g_storedPassword s1 = g_storedPassword s
  /\ g_autoLockTimeout s1 = g_autoLockTimeout s
  /\ eeprom s1 = eeprom s
  /\ tx (uart5 s1) = tx (uart5 s).
Proof.
  unfold ReceivePassword.
  pose proof (receive_chars_tx PASSWORD_LENGTH (uart5 s)) as H.
  destruct (receive_chars PASSWORD_LENGTH (uart5 s)) as [cs u].
  cbn. cbn in H. auto.
Qed.

Lemma ReceivePassword_shape s :
  exists a b c d e,
    fst (ReceivePassword s) = [a; b; c; d; e; 0]
    /\ 0 <= a < 256 /\ 0 <= b < 256 /\ 0 <= c < 256 /\ 0 <= d < 256
    /\ 0 <= e < 256.
Proof.
  unfold ReceivePassword.
  pose proof (receive_chars_bytes PASSWORD_LENGTH (uart5 s)) as [Hl Hb].
  destruct (receive_chars PASSWORD_LENGTH (uart5 s)) as [cs u].
  cbn [fst] in *.
  destruct cs as [|a [|b [|c [|d [|e [|? ?]]]]]]; try discriminate Hl.
  exists a, b, c, d, e.
  repeat match goal with
         | H : Forall _ (_ :: _) |- _ => inversion H; subst; clear H
         end.
  repeat split; lia.
Qed.

Lemma countdown_frame i s :
  g_storedPassword (countdown i s) = g_storedPassword s
  /\ g_autoLockTimeout (countdown i s) = g_autoLockTimeout s
  /\ eeprom (countdown i s) = eeprom s
  /\ tx (uart5 (countdown i s)) = tx (uart5 s) ++ countdown_values i.
Proof.
  revert s; induction i as [|i IH]; intros s.
  - cbn. now rewrite app_nil_r.
  - cbn [countdown countdown_values].
    destruct (IH (delay 1000 (SendCountdown (Z.of_nat (S i)) s))) as (H1 & H2 & H3 & H4).
    rewrite H1, H2, H3, H4. repeat split.
    unfold SendCountdown. rewrite tx_delay, tx_send, <- app_assoc. reflexivity.
Qed.

Lemma PerformDoorOperation_frame s :
  let s' := PerformDoorOperation s in
  g_storedPassword s' = g_storedPassword s
  /\ g_autoLockTimeout s' = g_autoLockTimeout s
  /\ eeprom s' = eeprom s
  /\ tx (uart5 s')
     = tx (uart5 s)
       ++ [RESP_DOOR_UNLOCKING; RESP_COUNTDOWN_START]
       ++ countdown_values (Z.to_nat (g_autoLockTimeout s))
       ++ [RESP_DOOR_LOCKING; RESP_DOOR_LOCKED].
Proof.
  unfold PerformDoorOperation.
  set (s1 := delay 50 (send RESP_COUNTDOWN_START (delay 2000 (send RESP_DOOR_UNLOCKING s)))).
  destruct (countdown_frame (Z.to_nat (g_autoLockTimeout s1)) s1) as (H1 & H2 & H3 & H4).
  cbn zeta.
  repeat split;
    repeat first [rewrite tx_send | rewrite tx_delay]; try assumption.
  rewrite H4. subst s1.
  repeat first [rewrite tx_send | rewrite tx_delay].
  change (g_autoLockTimeout (delay 50 (send RESP_COUNTDOWN_START
            (delay 2000 (send RESP_DOOR_UNLOCKING s))))) with (g_autoLockTimeout s).
  rewrite <- !app_assoc. reflexivity.
Qed.

End ControlFacts.

(** C1. When the password that [HandleOpenDoor] receives is the stored
    credential and the configured timeout is 5, the handler transmits
    PasswordMatch, DoorUnlocking, CountdownStart, 5, 4, 3, 2, 1,
    DoorLocking, DoorLocked, in this order, and nothing else. *)
Theorem open_door_sequence (s : Control.ECU) :
  Control.g_autoLockTimeout s = 5 ->
  fst (Control.ReceivePassword s) = Control.g_storedPassword s ->
  tx (Control.uart5 (Control.HandleOpenDoor s))
  = tx (Control.uart5 s)
    ++ [RESP_PASSWORD_MATCH; RESP_DOOR_UNLOCKING; RESP_COUNTDOWN_START;
        5; 4; 3; 2; 1; RESP_DOOR_LOCKING; RESP_DOOR_LOCKED].
Proof.
  intros Ht Hpw. unfold Control.HandleOpenDoor.
  destruct (ReceivePassword_frame s) as (F1 & F2 & F3 & F4).
  destruct (Control.ReceivePassword s) as [password s1]. cbn [fst snd] in *.
  unfold Control.VerifyPassword. rewrite F1, Hpw, strcmp_refl. cbn [Z.eqb].
  destruct (PerformDoorOperation_frame
              (Control.delay 100 (Control.send RESP_PASSWORD_MATCH s1)))
    as (_ & _ & _ & H).
  rewrite H, tx_delay, tx_send, F4.
  change (Control.g_autoLockTimeout
            (Control.delay 100 (Control.send RESP_PASSWORD_MATCH s1)))
    with (Control.g_autoLockTimeout s1).
  rewrite F2, Ht, <- app_assoc. reflexivity.
Qed.

Lemma open_door_sequence_witness :
  let s := Control.mkECU [0x31; 0x33; 0x35; 0x37; 0x39; 0] 5 ∅
             (mkUART [(0%nat, 0x31); (10%nat, 0x33); (10%nat, 0x35); (10%nat, 0x37); (10%nat, 0x39)] []) in
  Control.g_autoLockTimeout s = 5
  /\ fst (Control.ReceivePassword s) = Control.g_storedPassword s
  /\ tx (Control.uart5 (Control.HandleOpenDoor s))
     = [0x10; 0x13; 0x1A; 5; 4; 3; 2; 1; 0x14; 0x15].
Proof.
  intros s.
  assert (H1 : Control.g_autoLockTimeout s = 5) by reflexivity.
  assert (H2 : fst (Control.ReceivePassword s) = Control.g_storedPassword s)
    by (vm_compute; reflexivity).
  split; [exact H1|]. split; [exact H2|].
  exact (open_door_sequence s H1 H2).
Defined.

(** C5. When the password received by [HandleSetTimeout] does not match
    the stored credential, the handler has nevertheless waited for the
    timeout byte: a byte that arrives within the bound is taken from the
    line.  The only byte sent is PasswordMismatch, and the EEPROM, the
    timeout in memory and the credential in memory stay as they were. *)
Theorem set_timeout_mismatch (s s1 : Control.ECU) (password : list Z) :
  Control.ReceivePassword s = (password, s1) ->
  Control.VerifyPassword password s = false ->
  let s' := Control.HandleSetTimeout s in
  tx (Control.uart5 s') = tx (Control.uart5 s) ++ [RESP_PASSWORD_MISMATCH]
  /\ Control.eeprom s' = Control.eeprom s
  /\ Control.g_autoLockTimeout s' = Control.g_autoLockTimeout s
  /\ Control.g_storedPassword s' = Control.g_storedPassword s
  /\ (forall (d : nat) (b : Z) (rest : list (nat * Z)),
        rx (Control.uart5 s1) = (d, b) :: rest -> (d <= 1000)%nat ->
        rx (Control.uart5 s') = rest).
Proof.
  intros HR HV. unfold Control.HandleSetTimeout. rewrite HR.
  destruct (ReceivePassword_frame s) as (F1 & F2 & F3 & F4).
  rewrite HR in F1, F2, F3, F4. cbn [snd] in *.
  unfold Control.receive_timeout.
  pose proof (receive_or_tx Control.DEFAULT_TIMEOUT
                (Uart.poll 1000 (Control.uart5 s1))) as Htx.
  destruct (Uart.receive_or Control.DEFAULT_TIMEOUT
              (Uart.poll 1000 (Control.uart5 s1))) as [timeout u] eqn:E.
  cbn [snd] in Htx. rewrite poll_tx in Htx.
  assert (HV' : Control.VerifyPassword password
                  (Control.on_uart (fun _ => u) s1) = false).
  { unfold Control.VerifyPassword in *.
    cbn [Control.on_uart Control.g_storedPassword]. now rewrite F1. }
  rewrite HV'. cbn zeta.
  rewrite tx_send. cbn [Control.on_uart Control.send Control.uart5
    Control.eeprom Control.g_autoLockTimeout Control.g_storedPassword tx].
  rewrite Htx, F4. repeat split; try assumption.
  intros d b rest Hrx Hd.
  destruct (Control.uart5 s1) as [q t]. cbn [rx] in Hrx. subst q.
  rewrite (poll_in_time 1000 d b rest t Hd) in E.
  cbv [Uart.receive_or Uart.UART5_IsDataAvailable Uart.UART5_ReceiveChar rx tx] in E.
  injection E as _ <-. reflexivity.
Qed.

Lemma set_timeout_mismatch_witness :
  let s := Control.mkECU [0x31; 0x33; 0x35; 0x37; 0x39; 0] 5 ∅
             (mkUART [(0%nat, 0x31); (10%nat, 0x31); (10%nat, 0x31); (10%nat, 0x31); (10%nat, 0x31);
                      (50%nat, 0x14); (700%nat, 0x07)] []) in
  let s' := Control.HandleSetTimeout s in
  tx (Control.uart5 s') = [RESP_PASSWORD_MISMATCH]
  /\ rx (Control.uart5 s') = [(700%nat, 0x07)]
  /\ Control.g_autoLockTimeout s' = 5.
Proof.
  intros s s'.
  assert (HR : Control.ReceivePassword s
               = ([0x31; 0x31; 0x31; 0x31; 0x31; 0],
                  Control.on_uart (fun _ => mkUART [(50%nat, 0x14); (700%nat, 0x07)] []) s))
    by (vm_compute; reflexivity).
  assert (HV : Control.VerifyPassword [0x31; 0x31; 0x31; 0x31; 0x31; 0] s = false)
    by (vm_compute; reflexivity).
  destruct (set_timeout_mismatch s _ _ HR HV) as (H1 & _ & H3 & _ & H5).
  split; [exact H1|]. split; [|exact H3].
  apply (H5 50%nat 0x14 [(700%nat, 0x07)]); [reflexivity|].
  apply Nat.leb_le. vm_compute. reflexivity.
Defined.

(** ** Setup-password *)

Lemma strcmp_terminated_eq (a b : list Z) :
  Forall (fun c => c <> 0) a -> Forall (fun c => c <> 0) b ->
  strcmp (a ++ [0]) (b ++ [0]) = 0 <-> a = b.
Proof.
  revert b; induction a as [|x a IH]; intros b Ha Hb.
  - destruct b as [|y b]; cbn [app strcmp hd tl]; [cbn; tauto|].
    inversion Hb; subst. destruct (Z.eqb_spec 0 y); [congruence|].
    split; [intros; exfalso; lia|discriminate].
  - inversion Ha as [|? ? Hx Ha']; subst.
    destruct b as [|y b]; cbn [app strcmp hd tl].
    + destruct (Z.eqb_spec x 0); [contradiction|]. split; [intros; exfalso; lia|discriminate].
    + inversion Hb as [|? ? Hy Hb']; subst.
      destruct (Z.eqb_spec x y) as [->|Hne].
      * destruct (Z.eqb_spec y 0); [contradiction|].
        rewrite (IH b Ha' Hb'). split; intros H; [now subst|now injection H].
      * split; [intros; exfalso; lia|]. intros H; injection H; intros; contradiction.
Qed.

(** C6, as the code has it.  [HandleSetupPassword] compares the two
    received buffers with [strcmp].  When they compare equal it writes the
    first payload to the credential cells (a later [LoadPassword] restores
    exactly this payload), writes the validity marker and sends
    PasswordMatch; otherwise it sends PasswordMismatch and leaves the
    EEPROM (credential, marker and timeout cells) and the credential and
    timeout in memory as they were.  For payloads without a NUL character,
    digit payloads among them, comparing equal is being equal. *)
Theorem setup_password_effect (s s1 s2 : Control.ECU) (p1 p2 : list Z) :
  Control.ReceivePassword s = (p1, s1) ->
  Control.ReceivePassword (Control.delay 50 s1) = (p2, s2) ->
  let s' := Control.HandleSetupPassword s in
  (strcmp p1 p2 = 0 ->
     Control.g_storedPassword (Control.LoadPassword s') = p1
     /\ Control.IsPasswordValid s' = true
     /\ tx (Control.uart5 s') = tx (Control.uart5 s) ++ [RESP_PASSWORD_MATCH])
  /\ (strcmp p1 p2 <> 0 ->
        tx (Control.uart5 s') = tx (Control.uart5 s) ++ [RESP_PASSWORD_MISMATCH]
        /\ Control.eeprom s' = Control.eeprom s
        /\ Control.g_storedPassword s' = Control.g_storedPassword s
        /\ Control.g_autoLockTimeout s' = Control.g_autoLockTimeout s)
  /\ (Forall (fun c => c <> 0) (take 5 p1) ->
      Forall (fun c => c <> 0) (take 5 p2) ->
      (strcmp p1 p2 = 0 <-> p1 = p2)).
Proof.
  intros H1 H2. unfold Control.HandleSetupPassword. rewrite H1, H2.
  destruct (ReceivePassword_frame s) as (A1 & A2 & A3 & A4).
  destruct (ReceivePassword_frame (Control.delay 50 s1)) as (B1 & B2 & B3 & B4).
  destruct (ReceivePassword_shape s) as (a & b & c & d & e & Sp1 & Ha & Hb & Hc & Hd & He).
  destruct (ReceivePassword_shape (Control.delay 50 s1))
    as (a' & b' & c' & d' & e' & Sp2 & _).
  rewrite H1 in A1, A2, A3, A4, Sp1. rewrite H2 in B1, B2, B3, B4, Sp2.
  cbn [fst snd] in *. subst p1 p2. cbn zeta.
  split; [|split].
  - intros Heq. rewrite Heq. cbn [Z.eqb]. split; [|split].
    + unfold Control.LoadPassword.
      cbn [Control.g_storedPassword Control.set_storedPassword].
      rewrite read_password_word0, read_password_word1.
      change (Control.eeprom (Control.send RESP_PASSWORD_MATCH
                (Control.delay 100 (Control.SavePassword [a; b; c; d; e; 0] s2))))
        with (Control.eeprom (Control.SavePassword [a; b; c; d; e; 0] s2)).
      rewrite eeprom_SavePassword.
      rewrite lookup_insert_ne, lookup_insert_ne, lookup_insert_eq by discriminate.
      rewrite lookup_insert_ne, lookup_insert_eq by discriminate.
      cbn [default from_option id]. now apply unpack_pack.
    + unfold Control.IsPasswordValid. rewrite read_valid_flag.
      change (Control.eeprom (Control.send RESP_PASSWORD_MATCH
                (Control.delay 100 (Control.SavePassword [a; b; c; d; e; 0] s2))))
        with (Control.eeprom (Control.SavePassword [a; b; c; d; e; 0] s2)).
      rewrite eeprom_SavePassword, lookup_insert_eq. reflexivity.
    + rewrite tx_send, tx_delay.
      change (tx (Control.uart5 (Control.SavePassword [a; b; c; d; e; 0] s2)))
        with (tx (Control.uart5 s2)).
      rewrite B4, tx_delay, A4. reflexivity.
  - intros Hne. destruct (Z.eqb_spec (strcmp [a; b; c; d; e; 0] [a'; b'; c'; d'; e'; 0]) 0);
      [contradiction|].
    rewrite tx_send, B4, tx_delay, A4.
    change (Control.eeprom (Control.send RESP_PASSWORD_MISMATCH s2))
      with (Control.eeprom s2).
    change (Control.g_storedPassword (Control.send RESP_PASSWORD_MISMATCH s2))
      with (Control.g_storedPassword s2).
    change (Control.g_autoLockTimeout (Control.send RESP_PASSWORD_MISMATCH s2))
      with (Control.g_autoLockTimeout s2).
    rewrite B1, B2, B3. cbn [Control.delay Control.on_uart Control.eeprom
      Control.g_storedPassword Control.g_autoLockTimeout].
    rewrite A1, A2, A3. repeat split.
  - cbn [take]. intros N1 N2.
    destruct (strcmp_terminated_eq [a; b; c; d; e] [a'; b'; c'; d'; e'] N1 N2)
      as [K _].
    cbn [app] in K. split.
    + intros H. apply K in H. injection H; intros; subst. reflexivity.
    + intros H. injection H; intros; subst. apply strcmp_refl.
Qed.

Lemma setup_password_effect_witness :
  let s := Control.mkECU [0; 0; 0; 0; 0; 0] 5 ∅
             (mkUART [(0%nat, 0x31); (10%nat, 0x33); (10%nat, 0x35); (10%nat, 0x37);
                      (10%nat, 0x39); (60%nat, 0x31); (10%nat, 0x33); (10%nat, 0x35);
                      (10%nat, 0x37); (10%nat, 0x39)] []) in
  let s' := Control.HandleSetupPassword s in
  Control.g_storedPassword (Control.LoadPassword s') = [0x31; 0x33; 0x35; 0x37; 0x39; 0]
  /\ Control.IsPasswordValid s' = true
  /\ tx (Control.uart5 s') = [RESP_PASSWORD_MATCH].
Proof.
  intros s s'.
  pose (r1 := Control.ReceivePassword s).
  pose (r2 := Control.ReceivePassword (Control.delay 50 (snd r1))).
  assert (H1 : Control.ReceivePassword s = (fst r1, snd r1))
    by apply surjective_pairing.
  assert (H2 : Control.ReceivePassword (Control.delay 50 (snd r1)) = (fst r2, snd r2))
    by apply surjective_pairing.
  assert (H3 : strcmp (fst r1) (fst r2) = 0) by (vm_compute; reflexivity).
  destruct (setup_password_effect s _ _ _ _ H1 H2) as (K & _ & _).
  exact (K H3).
Defined.

(** C6, the claim as worded, at a concrete invocation: the two payloads
    differ (they share a leading NUL), yet the handler answers
    PasswordMatch and writes the credential and the validity marker. *)
Lemma setup_password_counterexample :
  let s := Control.mkECU [0; 0; 0; 0; 0; 0] 5 ∅
             (mkUART [(0%nat, 0x00); (10%nat, 0x31); (10%nat, 0x31); (10%nat, 0x31);
                      (10%nat, 0x31); (60%nat, 0x00); (10%nat, 0x32); (10%nat, 0x32);
                      (10%nat, 0x32); (10%nat, 0x32)] []) in
  let p1 := fst (Control.ReceivePassword s) in
  let p2 := fst (Control.ReceivePassword
                   (Control.delay 50 (snd (Control.ReceivePassword s)))) in
  let s' := Control.HandleSetupPassword s in
  p1 = [0x00; 0x31; 0x31; 0x31; 0x31; 0]
  /\ p2 = [0x00; 0x32; 0x32; 0x32; 0x32; 0]
  /\ p1 <> p2
  /\ tx (Control.uart5 s') = [RESP_PASSWORD_MATCH]
  /\ Control.IsPasswordValid s = false
  /\ Control.IsPasswordValid s' = true
  /\ Control.eeprom s' <> Control.eeprom s.
Proof.
  intros s p1 p2 s'.
  assert (E1 : p1 = [0x00; 0x31; 0x31; 0x31; 0x31; 0]) by (vm_compute; reflexivity).
  assert (E2 : p2 = [0x00; 0x32; 0x32; 0x32; 0x32; 0]) by (vm_compute; reflexivity).
  assert (V' : Control.IsPasswordValid s' = true) by (vm_compute; reflexivity).
  assert (V : Control.IsPasswordValid s = false) by (vm_compute; reflexivity).
  split; [exact E1|]. split; [exact E2|].
  split; [intros E; rewrite E1, E2 in E; discriminate E|].
  split; [vm_compute; reflexivity|].
  split; [exact V|]. split; [exact V'|].
  intros E. unfold Control.IsPasswordValid, Control.read_word in V, V'.
  rewrite E in V'. congruence.
Qed.

(** ** Set-timeout takes any byte *)

(** C3, the code at a concrete byte stream.  From an erased EEPROM the
    line carries Setup-password with 12345 twice, then Set-timeout with
    12345 and the timeout byte 200.  After the second command the timeout
    in memory is 200, outside [5,30]; an Open-door that follows counts
    down from 200. *)
Lemma set_timeout_out_of_range :
  let line :=
    [(0%nat, CMD_SETUP_PASSWORD);
     (50%nat, 0x31); (10%nat, 0x32); (10%nat, 0x33); (10%nat, 0x34); (10%nat, 0x35);
     (60%nat, 0x31); (10%nat, 0x32); (10%nat, 0x33); (10%nat, 0x34); (10%nat, 0x35);
     (10%nat, CMD_SET_TIMEOUT);
     (50%nat, 0x31); (10%nat, 0x32); (10%nat, 0x33); (10%nat, 0x34); (10%nat, 0x35);
     (60%nat, 200);
     (10%nat, CMD_OPEN_DOOR);
     (50%nat, 0x31); (10%nat, 0x32); (10%nat, 0x33); (10%nat, 0x34); (10%nat, 0x35)] in
  Control.g_autoLockTimeout (Control.main 0 ∅ line) = 5
  /\ Control.g_autoLockTimeout (Control.main 2 ∅ line) = 200
  /\ tx (Control.uart5 (Control.main 2 ∅ line))
     = [RESP_PASSWORD_MATCH; RESP_TIMEOUT_SAVED]
  /\ take 4 (since (tx (Control.uart5 (Control.main 2 ∅ line)))
                   (tx (Control.uart5 (Control.main 3 ∅ line))))
     = [RESP_PASSWORD_MATCH; RESP_DOOR_UNLOCKING; RESP_COUNTDOWN_START; 200].
Proof. vm_compute. repeat split; reflexivity. Qed.

(** C8, the code at a concrete byte stream.  As above with the timeout
    byte 0xFF: the Open-door that follows starts its countdown with the
    byte 0xFF on the wire. *)
Lemma sentinel_on_the_wire :
  let line :=
    [(0%nat, CMD_SETUP_PASSWORD);
     (50%nat, 0x31); (10%nat, 0x32); (10%nat, 0x33); (10%nat, 0x34); (10%nat, 0x35);
     (60%nat, 0x31); (10%nat, 0x32); (10%nat, 0x33); (10%nat, 0x34); (10%nat, 0x35);
     (10%nat, CMD_SET_TIMEOUT);
     (50%nat, 0x31); (10%nat, 0x32); (10%nat, 0x33); (10%nat, 0x34); (10%nat, 0x35);
     (60%nat, 0xFF);
     (10%nat, CMD_OPEN_DOOR);
     (50%nat, 0x31); (10%nat, 0x32); (10%nat, 0x33); (10%nat, 0x34); (10%nat, 0x35)] in
  take 6 (tx (Control.uart5 (Control.main 3 ∅ line)))
  = [RESP_PASSWORD_MATCH; RESP_TIMEOUT_SAVED;
     RESP_PASSWORD_MATCH; RESP_DOOR_UNLOCKING; RESP_COUNTDOWN_START; HMI.RESP_TIMEOUT]
  /\ In HMI.RESP_TIMEOUT (tx (Control.uart5 (Control.main 3 ∅ line))).
Proof.
  vm_compute. split; [reflexivity|]. do 5 right. left. reflexivity.
Qed.

(** ** After an erase *)

Section AfterErase.
Import Control.

Lemma strcpy_default dst :
  length dst = 6%nat -> strcpy dst default_credential = default_credential.
Proof.
  intros H. destruct dst as [|? [|? [|? [|? [|? [|? [|? ?]]]]]]]; try discriminate H.
  reflexivity.
Qed.

Lemma lockout_beeps_frame n s :
  let s' := Nat.iter n (fun s => delay 200 (Buzzer_Beep 800 s)) s in
  g_storedPassword s' = g_storedPassword s /\ eeprom s' = eeprom s
  /\ g_autoLockTimeout s' = g_autoLockTimeout s
  /\ tx (uart5 s') = tx (uart5 s).
Proof.
  induction n as [|n IH]; [cbn; auto|]. cbn [Nat.iter]. exact IH.
Qed.

Lemma erased_state_on_uart f s : erased_state s -> erased_state (on_uart f s).
Proof. intros H; exact H. Qed.

Lemma erased_state_fields s s' :
  g_storedPassword s' = g_storedPassword s -> eeprom s' = eeprom s ->
  erased_state s -> erased_state s'.
Proof.
  intros Hp He [J1 J2]. unfold erased_state, IsPasswordValid, read_word in *.
  rewrite Hp, He. auto.
Qed.

Lemma erased_state_HandleCheckPassword s :
  erased_state s -> erased_state (HandleCheckPassword s).
Proof. intros H. unfold HandleCheckPassword. destruct (IsPasswordValid s); exact H. Qed.

Lemma erased_state_HandleChangePassword s :
  erased_state s -> erased_state (HandleChangePassword s).
Proof.
  intros H. unfold HandleChangePassword.
  destruct (ReceivePassword_frame s) as (F1 & _ & F3 & _).
  destruct (ReceivePassword s) as [p s1]. cbn [snd] in *.
  destruct (VerifyPassword p s1); apply (erased_state_fields s); auto.
Qed.

Lemma erased_state_HandleOpenDoor s :
  erased_state s -> erased_state (HandleOpenDoor s).
Proof.
  intros H. unfold HandleOpenDoor.
  destruct (ReceivePassword_frame s) as (F1 & _ & F3 & _).
  destruct (ReceivePassword s) as [p s1]. cbn [snd] in *.
  destruct (VerifyPassword p s1); [|apply (erased_state_fields s); auto].
  destruct (PerformDoorOperation_frame (delay 100 (send RESP_PASSWORD_MATCH s1)))
    as (P1 & _ & P3 & _).
  apply (erased_state_fields s); [rewrite P1|rewrite P3|]; auto.
Qed.

Lemma erased_state_HandleSetTimeout s :
  erased_state s -> erased_state (HandleSetTimeout s).
Proof.
  intros H. unfold HandleSetTimeout.
  destruct (ReceivePassword_frame s) as (F1 & _ & F3 & _).
  destruct (ReceivePassword s) as [p s1]. cbn [snd] in *.
  unfold receive_timeout.
  destruct (Uart.receive_or DEFAULT_TIMEOUT (Uart.poll 1000 (uart5 s1))) as [t u].
  destruct (VerifyPassword p (on_uart (fun _ => u) s1));
    [|apply (erased_state_fields s); auto].
  destruct H as [J1 J2]. split.
  - cbn. rewrite F1. exact J1.
  - unfold IsPasswordValid in *. rewrite read_valid_flag in *.
    change (eeprom (send RESP_TIMEOUT_SAVED
              (delay 50 (SaveTimeout t (on_uart (fun _ => u) s1)))))
      with (eeprom (SaveTimeout t (on_uart (fun _ => u) s1))).
    rewrite eeprom_SaveTimeout, lookup_insert_ne by discriminate.
    cbn [eeprom on_uart]. rewrite F3. exact J2.
Qed.

Lemma erased_state_HandleEraseEEPROM s :
  erased_state s -> erased_state (HandleEraseEEPROM s).
Proof.
  intros H. unfold HandleEraseEEPROM.
  destruct (ReceivePassword_frame s) as (F1 & _ & F3 & _).
  destruct (ReceivePassword s) as [p s1]. cbn [snd] in *.
  destruct (VerifyPassword p s1); [|apply (erased_state_fields s); auto].
  destruct H as [J1 _]. split.
  - cbn. rewrite F1, J1. reflexivity.
  - reflexivity.
Qed.

Lemma erased_state_HandleTriggerLockout s :
  erased_state s -> erased_state (HandleTriggerLockout s).
Proof.
  intros H. unfold HandleTriggerLockout, TriggerLockout.
  destruct (lockout_beeps_frame LOCKOUT_DURATION (send RESP_SYSTEM_LOCKED s))
    as (L1 & L2 & _).
  apply (erased_state_fields s); [rewrite L1|rewrite L2|]; auto.
Qed.

Lemma erased_state_main_pass s :
  erased_state s ->
  pending_command s <> Some CMD_SETUP_PASSWORD ->
  erased_state (main_pass s).
Proof.
  intros H Hc. unfold main_pass, pending_command in *.
  destruct (Uart.UART5_IsDataAvailable (uart5 s)); [|exact H].
  destruct (Uart.UART5_ReceiveChar (uart5 s)) as [command u]. cbn [fst] in Hc.
  apply erased_state_fields
    with (s := dispatch command (on_uart (fun _ => u) s)); [reflexivity..|].
  pose proof (erased_state_on_uart (fun _ => u) s H) as H'.
  unfold dispatch.
  destruct (command =? CMD_CHECK_PASSWORD);
    [now apply erased_state_HandleCheckPassword|].
  destruct (Z.eqb_spec command CMD_SETUP_PASSWORD); [congruence|].
  destruct (command =? CMD_CHANGE_PASSWORD);
    [now apply erased_state_HandleChangePassword|].
  destruct (command =? CMD_SET_TIMEOUT);
    [now apply erased_state_HandleSetTimeout|].
  destruct (command =? CMD_OPEN_DOOR);
    [now apply erased_state_HandleOpenDoor|].
  destruct (command =? CMD_ERASE_EEPROM);
    [now apply erased_state_HandleEraseEEPROM|].
  destruct (command =? CMD_TRIGGER_LOCKOUT);
    [now apply erased_state_HandleTriggerLockout|].
  exact H'.
Qed.

Lemma erased_state_passes n s :
  erased_state s ->
  (forall k, (k < n)%nat ->
     pending_command (Nat.iter k main_pass s) <> Some CMD_SETUP_PASSWORD) ->
  erased_state (Nat.iter n main_pass s).
Proof.
  intros H. induction n as [|n IH]; intros Hk; [exact H|].
  cbn [Nat.iter]. apply erased_state_main_pass.
  - apply IH. intros k Hlt. apply Hk. lia.
  - apply Hk. lia.
Qed.

(** In an erased state the default payload opens every password gate,
    and Check-password-exists answers NoPassword. *)
Lemma erased_state_accepts t :
  erased_state t ->
  tx (uart5 (HandleCheckPassword t)) = tx (uart5 t) ++ [RESP_NO_PASSWORD]
  /\ (fst (ReceivePassword t) = default_credential ->
      (exists more,
         tx (uart5 (HandleOpenDoor t))
         = tx (uart5 t) ++ RESP_PASSWORD_MATCH :: more)
      /\ tx (uart5 (HandleChangePassword t)) = tx (uart5 t) ++ [RESP_PASSWORD_MATCH]
      /\ tx (uart5 (HandleSetTimeout t)) = tx (uart5 t) ++ [RESP_TIMEOUT_SAVED]
      /\ tx (uart5 (HandleEraseEEPROM t)) = tx (uart5 t) ++ [RESP_EEPROM_ERASED]).
Proof.
  intros [J1 J2]. split.
  - unfold HandleCheckPassword. rewrite J2. reflexivity.
  - intros Hp.
    destruct (ReceivePassword_frame t) as (F1 & F2 & F3 & F4).
    assert (V : forall f, VerifyPassword (fst (ReceivePassword t))
                  (on_uart f (snd (ReceivePassword t))) = true).
    { intros f. unfold VerifyPassword. cbn [on_uart g_storedPassword].
      rewrite F1, J1, Hp. reflexivity. }
    pose proof (V (fun u => u)) as V0.
    unfold HandleOpenDoor, HandleChangePassword, HandleSetTimeout,
      HandleEraseEEPROM, receive_timeout.
    destruct (ReceivePassword t) as [p s1]. cbn [fst snd] in *.
    change (on_uart (fun u => u) s1) with
      (mkECU (g_storedPassword s1) (g_autoLockTimeout s1) (eeprom s1) (uart5 s1)) in V0.
    assert (V1 : VerifyPassword p s1 = true) by (destruct s1; exact V0).
    rewrite V1. repeat split.
    + destruct (PerformDoorOperation_frame (delay 100 (send RESP_PASSWORD_MATCH s1)))
        as (_ & _ & _ & P).
      eexists. rewrite P, tx_delay, tx_send, F4, <- app_assoc. reflexivity.
    + rewrite tx_send, F4. reflexivity.
    + pose proof (receive_or_tx DEFAULT_TIMEOUT (Uart.poll 1000 (uart5 s1))) as R.
      destruct (Uart.receive_or DEFAULT_TIMEOUT (Uart.poll 1000 (uart5 s1)))
        as [timeout u].
      rewrite V. rewrite tx_send, tx_delay. cbn [snd] in R.
      cbn [SaveTimeout set_autoLockTimeout delay write_word set_eeprom on_uart
           uart5 tx Uart.DelayMs].
      rewrite R, poll_tx, F4. reflexivity.
    + rewrite tx_send, tx_delay. cbn [set_autoLockTimeout set_storedPassword
        set_eeprom uart5]. rewrite F4. reflexivity.
Qed.

End AfterErase.

(** The credential buffer keeps its [PASSWORD_LENGTH + 1] cells in every
    state that [main] reaches. *)
Lemma strcpy_length dst : forall src, length (strcpy dst src) = length dst.
Proof.
  induction dst as [|c dst IH]; intros [|b src]; cbn; try reflexivity.
  destruct (b =? 0); cbn; [reflexivity|]. now rewrite IH.
Qed.

Lemma dispatch_password_length command s :
  length (Control.g_storedPassword (Control.dispatch command s))
  = length (Control.g_storedPassword s).
Proof.
  unfold Control.dispatch.
  destruct (ReceivePassword_frame s) as (F1 & _).
  destruct (command =? CMD_CHECK_PASSWORD).
  { unfold Control.HandleCheckPassword. destruct (Control.IsPasswordValid s); reflexivity. }
  destruct (command =? CMD_SETUP_PASSWORD).
  { unfold Control.HandleSetupPassword.
    destruct (Control.ReceivePassword s) as [p1 s1]. cbn [snd] in F1.
    destruct (ReceivePassword_frame (Control.delay 50 s1)) as (G1 & _).
    destruct (Control.ReceivePassword (Control.delay 50 s1)) as [p2 s2].
    cbn [snd] in G1.
    destruct (strcmp p1 p2 =? 0); cbn; [rewrite strcpy_length|];
      rewrite G1; cbn; now rewrite F1. }
  destruct (command =? CMD_CHANGE_PASSWORD).
  { unfold Control.HandleChangePassword.
    destruct (Control.ReceivePassword s) as [p s1]. cbn [snd] in F1.
    destruct (Control.VerifyPassword p s1); cbn; now rewrite F1. }
  destruct (command =? CMD_SET_TIMEOUT).
  { unfold Control.HandleSetTimeout, Control.receive_timeout.
    destruct (Control.ReceivePassword s) as [p s1]. cbn [snd] in F1.
    destruct (Uart.receive_or Control.DEFAULT_TIMEOUT
                (Uart.poll 1000 (Control.uart5 s1))) as [t u].
    destruct (Control.VerifyPassword p _); cbn; now rewrite F1. }
  destruct (command =? CMD_OPEN_DOOR).
  { unfold Control.HandleOpenDoor.
    destruct (Control.ReceivePassword s) as [p s1]. cbn [snd] in F1.
    destruct (Control.VerifyPassword p s1); [|cbn; now rewrite F1].
    destruct (PerformDoorOperation_frame
                (Control.delay 100 (Control.send RESP_PASSWORD_MATCH s1))) as (P1 & _).
    rewrite P1. cbn. now rewrite F1. }
  destruct (command =? CMD_ERASE_EEPROM).
  { unfold Control.HandleEraseEEPROM.
    destruct (Control.ReceivePassword s) as [p s1]. cbn [snd] in F1.
    destruct (Control.VerifyPassword p s1); cbn; [rewrite strcpy_length|];
      now rewrite F1. }
  destruct (command =? CMD_TRIGGER_LOCKOUT); [|reflexivity].
  unfold Control.HandleTriggerLockout, Control.TriggerLockout.
  destruct (lockout_beeps_frame Control.LOCKOUT_DURATION
              (Control.send RESP_SYSTEM_LOCKED s)) as (L1 & _).
  rewrite L1. reflexivity.
Qed.

Lemma main_password_length n m line :
  length (Control.g_storedPassword (Control.main n m line)) = 6%nat.
Proof.
  unfold Control.main. induction n as [|n IH].
  { cbn [Nat.iter]. unfold Control.boot, Control.LoadTimeout.
    destruct (_ || _); reflexivity. }
  rewrite Nat.iter_succ.
  set (s := Nat.iter n Control.main_pass (Control.boot m line)) in *.
  unfold Control.main_pass.
  destruct (Uart.UART5_IsDataAvailable (Control.uart5 s)); [|exact IH].
  destruct (Uart.UART5_ReceiveChar (Control.uart5 s)) as [command u].
  cbn [Control.delay Control.on_uart Control.g_storedPassword].
  rewrite dispatch_password_length. exact IH.
Qed.

(** C10, as the code has it.  A successful [HandleEraseEEPROM] answers
    EepromErased and leaves the credential "00000" and the timeout 5 in
    memory.  From then on, over any number of passes of the main loop in
    which no Setup-password command is taken from the line, the state
    keeps that credential and has no validity marker: Check-password-exists
    answers NoPassword, and Open-door, Change-password, Set-timeout and
    Erase all succeed when the payload they receive is "00000". *)
Theorem erase_leaves_default_credential (s : Control.ECU) :
  length (Control.g_storedPassword s) = 6%nat ->
  Control.VerifyPassword (fst (Control.ReceivePassword s)) s = true ->
  let s0 := Control.HandleEraseEEPROM s in
  Control.g_storedPassword s0 = default_credential
  /\ Control.g_autoLockTimeout s0 = 5
  /\ tx (Control.uart5 s0) = tx (Control.uart5 s) ++ [RESP_EEPROM_ERASED]
  /\ forall n : nat,
       (forall k, (k < n)%nat ->
          Control.pending_command (Nat.iter k Control.main_pass s0)
          <> Some CMD_SETUP_PASSWORD) ->
       forall f : UART -> UART,
         let t := Control.on_uart f (Nat.iter n Control.main_pass s0) in
         Control.g_storedPassword t = default_credential
         /\ tx (Control.uart5 (Control.HandleCheckPassword t))
            = tx (Control.uart5 t) ++ [RESP_NO_PASSWORD]
         /\ (fst (Control.ReceivePassword t) = default_credential ->
             (exists more,
                tx (Control.uart5 (Control.HandleOpenDoor t))
                = tx (Control.uart5 t) ++ RESP_PASSWORD_MATCH :: more)
             /\ tx (Control.uart5 (Control.HandleChangePassword t))
                = tx (Control.uart5 t) ++ [RESP_PASSWORD_MATCH]
             /\ tx (Control.uart5 (Control.HandleSetTimeout t))
                = tx (Control.uart5 t) ++ [RESP_TIMEOUT_SAVED]
             /\ tx (Control.uart5 (Control.HandleEraseEEPROM t))
                = tx (Control.uart5 t) ++ [RESP_EEPROM_ERASED]).
Proof.
  intros Hlen HV.
  assert (E : let s0 := Control.HandleEraseEEPROM s in
              erased_state s0 /\ Control.g_autoLockTimeout s0 = 5
              /\ tx (Control.uart5 s0) = tx (Control.uart5 s) ++ [RESP_EEPROM_ERASED]).
  { unfold Control.HandleEraseEEPROM.
    destruct (ReceivePassword_frame s) as (F1 & F2 & F3 & F4).
    destruct (Control.ReceivePassword s) as [p s1]. cbn [fst snd] in *.
    assert (V1 : Control.VerifyPassword p s1 = true).
    { unfold Control.VerifyPassword in *. now rewrite F1. }
    rewrite V1. cbn zeta. split; [split|split].
    - cbn. rewrite F1. now apply strcpy_default.
    - reflexivity.
    - reflexivity.
    - rewrite tx_send, tx_delay. cbn. now rewrite F4. }
  cbn zeta in E. destruct E as (J & Et & Etx). cbn zeta.
  split; [exact (proj1 J)|]. split; [exact Et|]. split; [exact Etx|].
  intros n Hn f.
  pose proof (erased_state_on_uart f _ (erased_state_passes n _ J Hn)) as Jt.
  cbn zeta. split; [exact (proj1 Jt)|].
  exact (erased_state_accepts _ Jt).
Qed.

Lemma erase_leaves_default_credential_witness :
  let s := Control.mkECU [0x31; 0x32; 0x33; 0x34; 0x35; 0] 17
             (<[12 := Control.PASSWORD_VALID_MARKER]> ∅)
             (mkUART [(0%nat, 0x31); (10%nat, 0x32); (10%nat, 0x33); (10%nat, 0x34);
                      (10%nat, 0x35);
                      (500%nat, CMD_SET_TIMEOUT);
                      (50%nat, 0x30); (10%nat, 0x30); (10%nat, 0x30); (10%nat, 0x30);
                      (10%nat, 0x30); (60%nat, 9);
                      (300%nat, CMD_CHECK_PASSWORD)] []) in
  let s0 := Control.HandleEraseEEPROM s in
  let t := Control.on_uart (fun u => u) (Nat.iter 60 Control.main_pass s0) in
  Control.IsPasswordValid s = true
  /\ Control.g_storedPassword s0 = default_credential
  /\ Control.g_autoLockTimeout s0 = 5
  /\ tx (Control.uart5 s0) = [RESP_EEPROM_ERASED]
  /\ tx (Control.uart5 t) = [RESP_EEPROM_ERASED; RESP_TIMEOUT_SAVED]
  /\ Control.g_autoLockTimeout t = 9
  /\ tx (Control.uart5 (Control.HandleCheckPassword t))
     = tx (Control.uart5 t) ++ [RESP_NO_PASSWORD].
Proof.
  intros s s0 t.
  assert (Hlen : length (Control.g_storedPassword s) = 6%nat) by reflexivity.
  assert (HV : Control.VerifyPassword (fst (Control.ReceivePassword s)) s = true)
    by (vm_compute; reflexivity).
  destruct (erase_leaves_default_credential s Hlen HV) as (H1 & H2 & H3 & H4).
  split; [vm_compute; reflexivity|].
  split; [exact H1|]. split; [exact H2|]. split; [exact H3|].
  split; [vm_compute; reflexivity|]. split; [vm_compute; reflexivity|].
  assert (Hn : forall k, (k < 60)%nat ->
            Control.pending_command (Nat.iter k Control.main_pass s0)
            <> Some CMD_SETUP_PASSWORD).
  { intros k Hk.
    do 60 (destruct k as [|k]; [vm_compute; discriminate|]).
    exfalso. lia. }
  exact (proj1 (proj2 (H4 60%nat Hn (fun u => u)))).
Defined.

(** C10, the claim as worded, at a concrete byte stream.  After a
    successful erase, and with no reboot, a Setup-password with 24680
    replaces the credential: the Open-door with the payload "00000" that
    follows is answered PasswordMismatch, and Check-password-exists
    answers PasswordExists. *)
Lemma erase_then_setup_counterexample :
  let line :=
    [(0%nat, CMD_SETUP_PASSWORD);
     (50%nat, 0x31); (10%nat, 0x32); (10%nat, 0x33); (10%nat, 0x34); (10%nat, 0x35);
     (60%nat, 0x31); (10%nat, 0x32); (10%nat, 0x33); (10%nat, 0x34); (10%nat, 0x35);
     (10%nat, CMD_ERASE_EEPROM);
     (50%nat, 0x31); (10%nat, 0x32); (10%nat, 0x33); (10%nat, 0x34); (10%nat, 0x35);
     (10%nat, CMD_SETUP_PASSWORD);
     (50%nat, 0x32); (10%nat, 0x34); (10%nat, 0x36); (10%nat, 0x38); (10%nat, 0x30);
     (60%nat, 0x32); (10%nat, 0x34); (10%nat, 0x36); (10%nat, 0x38); (10%nat, 0x30);
     (10%nat, CMD_OPEN_DOOR);
     (50%nat, 0x30); (10%nat, 0x30); (10%nat, 0x30); (10%nat, 0x30); (10%nat, 0x30);
     (10%nat, CMD_CHECK_PASSWORD)] in
  tx (Control.uart5 (Control.main 2 ∅ line))
  = [RESP_PASSWORD_MATCH; RESP_EEPROM_ERASED]
  /\ Control.g_storedPassword (Control.main 2 ∅ line) = default_credential
  /\ Control.pending_command (Control.main 3 ∅ line) = Some CMD_OPEN_DOOR
  /\ fst (Control.ReceivePassword
            (Control.on_uart (fun u => snd (Uart.UART5_ReceiveChar u))
                             (Control.main 3 ∅ line)))
     = default_credential
  /\ tx (Control.uart5 (Control.main 5 ∅ line))
     = [RESP_PASSWORD_MATCH; RESP_EEPROM_ERASED; RESP_PASSWORD_MATCH;
        RESP_PASSWORD_MISMATCH; RESP_PASSWORD_EXISTS].
Proof. vm_compute. repeat split; reflexivity. Qed.

(** ** HMI ECU: the countdown loop *)

Section CountdownLoop.
Import HMI.

(** Turning in the loop until the byte at the head of the line is in the
    FIFO. *)
Lemma receive_countdown_wait d v q t kp kn hd :
  exists k q',
    map snd q' = map snd q
    /\ forall fuel,
         receive_countdown (k + fuel) (mkECU (mkUART ((d, v) :: q) t) kp kn hd)
         = receive_countdown fuel (mkECU (mkUART ((0%nat, v) :: q') t) kp kn hd).
Proof.
  induction d as [d IH] using lt_wf_ind.
  destruct d as [|d].
  - exists 0%nat, q. split; [reflexivity|]. intros fuel. reflexivity.
  - destruct (Nat.leb_spec (S d) 10) as [Hle|Hgt].
    + exists 1%nat, (advance (10 - S d) q). split; [apply advance_bytes|].
      intros fuel. cbn [Nat.add receive_countdown uart5 rx Uart.UART5_IsDataAvailable].
      unfold delay, on_uart, Uart.DelayMs. cbn [uart5 rx tx keypad knob heard advance].
      destruct (Nat.leb_spec (S d) 10) as [_|Hc]; [reflexivity|lia].
    + destruct (IH (S d - 10)%nat ltac:(lia)) as (k & q' & Hq & Hk).
      exists (S k), q'. split; [exact Hq|].
      intros fuel. cbn [Nat.add receive_countdown uart5 rx Uart.UART5_IsDataAvailable].
      unfold delay, on_uart, Uart.DelayMs. cbn [uart5 rx tx keypad knob heard advance].
      destruct (Nat.leb_spec (S d) 10) as [Hc|_]; [lia|]. apply Hk.
Qed.

(** The loop leaves at the first byte that reads as [RESP_DOOR_LOCKING],
    whatever the pace of the line; what follows that byte stays unread. *)
Lemma receive_countdown_stops pre :
  forall (q : list (nat * Z)) (v : Z) (post : list Z) t kp kn hd,
    Forall (fun c => Z.land c 0xFF <> RESP_DOOR_LOCKING) pre ->
    Z.land v 0xFF = RESP_DOOR_LOCKING ->
    map snd q = pre ++ v :: post ->
    exists k h',
      map snd (rx (uart5 h')) = post
      /\ forall fuel,
           receive_countdown (k + fuel) (mkECU (mkUART q t) kp kn hd)
           = Done RESP_DOOR_LOCKING h'.
Proof.
  induction pre as [|c pre IH]; intros q v post t kp kn hd Hpre Hv Hq.
  - destruct q as [|[d v'] q]; [discriminate Hq|].
    cbn [app map snd] in Hq. injection Hq as -> Hpost.
    destruct (receive_countdown_wait d v q t kp kn hd) as (k & q' & Hq' & Hk).
    exists (k + 1)%nat,
      (delay 10 (mkECU (mkUART q' t) kp kn hd)).
    split.
    + cbn. rewrite advance_bytes. congruence.
    + intros fuel. rewrite <- Nat.add_assoc, Hk.
      cbn [Nat.add receive_countdown uart5 rx Uart.UART5_IsDataAvailable
           Uart.UART5_ReceiveChar tx on_uart keypad knob heard].
      rewrite Hv. reflexivity.
  - destruct q as [|[d v'] q]; [discriminate Hq|].
    cbn [app map snd] in Hq. injection Hq as -> Hrest.
    inversion Hpre as [|? ? Hc Hpre']; subst.
    destruct (receive_countdown_wait d c q t kp kn hd) as (k & q' & Hq' & Hk).
    destruct (IH (advance 10 q') v post t kp kn hd Hpre' Hv) as (k2 & h' & Hpost & Hk2).
    { rewrite advance_bytes. congruence. }
    exists (k + S k2)%nat, h'. split; [exact Hpost|].
    intros fuel. rewrite <- Nat.add_assoc, Hk.
    cbn [Nat.add receive_countdown uart5 rx Uart.UART5_IsDataAvailable
         Uart.UART5_ReceiveChar tx on_uart keypad knob heard].
    destruct (Z.eqb_spec (Z.land c 255) RESP_DOOR_LOCKING) as [E|_]; [contradiction|].
    apply Hk2.
Qed.

Lemma countdown_values_split (t : Z) :
  20 <= t <= 30 ->
  exists pre,
    countdown_values (Z.to_nat t) = pre ++ 20 :: countdown_values 19
    /\ Forall (fun c => Z.land c 0xFF <> RESP_DOOR_LOCKING) pre.
Proof.
  intros Ht.
  assert (H : t = 20 \/ t = 21 \/ t = 22 \/ t = 23 \/ t = 24 \/ t = 25 \/ t = 26
              \/ t = 27 \/ t = 28 \/ t = 29 \/ t = 30) by lia.
  repeat (destruct H as [->|H]); try subst t;
    match goal with
    | |- context [countdown_values (Z.to_nat ?n)] =>
        exists (take (Z.to_nat (n - 20)) (countdown_values (Z.to_nat n)))
    end;
    (split; [vm_compute; reflexivity|]);
    vm_compute; repeat constructor; discriminate.
Qed.

End CountdownLoop.

Lemma since_app {A : Type} (l more : list A) : since l (l ++ more) = more.
Proof. unfold since. apply drop_app_length. Qed.

(** C9. With a configured timeout [t] between 20 and 30, the bytes that
    [PerformDoorOperation] sends after CountdownStart are the countdown
    [t, ..., 1] followed by DoorLocking and DoorLocked, and the countdown
    contains 20, the value of [RESP_DOOR_LOCKING].  Given these bytes on
    its line, at any pace, the countdown loop of the HMI returns with
    DoorLocking at the byte 20: the countdown values 19 to 1 and the
    DoorLocking and DoorLocked bytes of the Control ECU are still unread. *)
Theorem countdown_cut_short (t : Z) (s : Control.ECU) (h : HMI.ECU) :
  20 <= t <= 30 ->
  Control.g_autoLockTimeout s = t ->
  since (tx (Control.uart5 s)) (tx (Control.uart5 (Control.PerformDoorOperation s)))
  = [RESP_DOOR_UNLOCKING; RESP_COUNTDOWN_START] ++ map snd (rx (HMI.uart5 h)) ->
  map snd (rx (HMI.uart5 h))
  = countdown_values (Z.to_nat t) ++ [RESP_DOOR_LOCKING; RESP_DOOR_LOCKED]
  /\ In RESP_DOOR_LOCKING (countdown_values (Z.to_nat t))
  /\ exists (fuel0 : nat) (h' : HMI.ECU),
       map snd (rx (HMI.uart5 h'))
       = countdown_values 19 ++ [RESP_DOOR_LOCKING; RESP_DOOR_LOCKED]
       /\ forall fuel, (fuel0 <= fuel)%nat ->
            HMI.receive_countdown fuel h = HMI.Done RESP_DOOR_LOCKING h'.
Proof.
  intros Ht Hs Hline.
  destruct (PerformDoorOperation_frame s) as (_ & _ & _ & Htx).
  rewrite Htx, since_app, Hs in Hline.
  apply app_inv_head in Hline.
  destruct (countdown_values_split t Ht) as (pre & Hsplit & Hpre).
  split; [symmetry; exact Hline|].
  split; [rewrite Hsplit; apply in_elt|].
  destruct h as [[q tq] kp kn hd]. cbn [HMI.uart5 rx] in Hline.
  destruct (receive_countdown_stops pre q 20
              (countdown_values 19 ++ [RESP_DOOR_LOCKING; RESP_DOOR_LOCKED])
              tq kp kn hd Hpre eq_refl) as (k & h' & Hpost & Hk).
  { rewrite <- Hline, Hsplit, <- app_assoc. reflexivity. }
  exists k, h'. split; [exact Hpost|].
  intros fuel Hf. replace fuel with (k + (fuel - k))%nat by lia. apply Hk.
Qed.

Lemma countdown_cut_short_witness :
  let s := Control.mkECU [0x31; 0x32; 0x33; 0x34; 0x35; 0] 22 ∅ (mkUART [] []) in
  let h := HMI.mkECU
             (mkUART (map (fun b => (1000%nat, b))
                          (countdown_values 22 ++ [RESP_DOOR_LOCKING; RESP_DOOR_LOCKED]))
                     [])
             [] [] [] in
  In RESP_DOOR_LOCKING (countdown_values (Z.to_nat 22))
  /\ exists (fuel0 : nat) (h' : HMI.ECU),
       map snd (rx (HMI.uart5 h'))
       = countdown_values 19 ++ [RESP_DOOR_LOCKING; RESP_DOOR_LOCKED]
       /\ forall fuel, (fuel0 <= fuel)%nat ->
            HMI.receive_countdown fuel h = HMI.Done RESP_DOOR_LOCKING h'.
Proof.
  intros s h.
  assert (H1 : 20 <= 22 <= 30) by lia.
  assert (H2 : Control.g_autoLockTimeout s = 22) by reflexivity.
  assert (H3 : since (tx (Control.uart5 s))
                     (tx (Control.uart5 (Control.PerformDoorOperation s)))
               = [RESP_DOOR_UNLOCKING; RESP_COUNTDOWN_START]
                 ++ map snd (rx (HMI.uart5 h))) by (vm_compute; reflexivity).
  exact (proj2 (countdown_cut_short 22 s h H1 H2 H3)).
Defined.

(** ** HMI ECU: what a dialog sends *)

Section Frames.

Lemma opcodes_from_skip p rest :
  opcodes_from (length p) (p ++ rest) = opcodes_from 0 rest.
Proof.
  induction p as [|b p IH]; [destruct rest; reflexivity|]. cbn. exact IH.
Qed.

Lemma frames_nil : frames [] [].
Proof. intros rest. reflexivity. Qed.

Lemma frames_app F1 F2 o1 o2 :
  frames F1 o1 -> frames F2 o2 -> frames (F1 ++ F2) (o1 ++ o2).
Proof.
  intros H1 H2 rest. rewrite <- !app_assoc, H1, H2. reflexivity.
Qed.

Lemma frames_one c p :
  length p = payload_length c -> frames (c :: p) [c].
Proof.
  intros Hp rest. unfold opcodes. cbn [app opcodes_from].
  rewrite <- Hp, opcodes_from_skip. reflexivity.
Qed.

Lemma silent_nil : silent [].
Proof. exists []. split; [apply frames_nil|intros []]. Qed.

Lemma silent_app F1 F2 : silent F1 -> silent F2 -> silent (F1 ++ F2).
Proof.
  intros (o1 & H1 & N1) (o2 & H2 & N2). exists (o1 ++ o2).
  split; [now apply frames_app|]. rewrite in_app_iff. tauto.
Qed.

Lemma silent_one c p :
  length p = payload_length c -> c <> CMD_TRIGGER_LOCKOUT -> silent (c :: p).
Proof.
  intros Hp Hc. exists [c]. split; [now apply frames_one|].
  intros [E|[]]. congruence.
Qed.

Lemma lockouts_silent F : silent F -> lockouts F = 0%nat.
Proof.
  intros (ops & H & N). unfold lockouts.
  specialize (H []). rewrite !app_nil_r in H. rewrite H.
  now apply count_occ_not_In.
Qed.

Lemma lockouts_silent_lockout F :
  silent F -> lockouts (F ++ [CMD_TRIGGER_LOCKOUT]) = 1%nat.
Proof.
  intros (ops & H & N). unfold lockouts. rewrite (H [CMD_TRIGGER_LOCKOUT]).
  rewrite count_occ_app. rewrite (proj1 (count_occ_not_In Z.eq_dec ops _) N).
  reflexivity.
Qed.

End Frames.

Section Dialogs.
Import HMI.

Lemma extends_refl s : extends s s.
Proof. exists [], []. rewrite !app_nil_r. auto using silent_nil. Qed.

Lemma extends_trans s1 s2 s3 : extends s1 s2 -> extends s2 s3 -> extends s1 s3.
Proof.
  intros (F1 & R1 & T1 & H1 & S1) (F2 & R2 & T2 & H2 & S2).
  exists (F1 ++ F2), (R1 ++ R2). rewrite T2, T1, H2, H1, !app_assoc.
  auto using silent_app.
Qed.

Lemma extends_heard s s' R :
  tx (uart5 s') = tx (uart5 s) -> heard s' = heard s ++ R -> extends s s'.
Proof.
  intros T H. exists [], R. rewrite app_nil_r. auto using silent_nil.
Qed.

Lemma extends_same s s' :
  tx (uart5 s') = tx (uart5 s) -> heard s' = heard s -> extends s s'.
Proof. intros T H. apply (extends_heard s s' []); [exact T|now rewrite app_nil_r]. Qed.

Lemma extends_frame s s' c p :
  tx (uart5 s') = tx (uart5 s) ++ c :: p -> heard s' = heard s ->
  length p = payload_length c -> c <> CMD_TRIGGER_LOCKOUT -> extends s s'.
Proof.
  intros T H Hp Hc. exists (c :: p), []. rewrite app_nil_r.
  auto using silent_one.
Qed.

Lemma bind_extends {A B : Type} s (r : run A) (k : A -> ECU -> run B) :
  extends s (final r) ->
  (forall a s1, r = Done a s1 -> extends s1 (final (k a s1))) ->
  extends s (final (bind r k)).
Proof.
  intros Hr Hk. destruct r as [a s1|s1]; cbn [bind final] in *; [|exact Hr].
  eapply extends_trans; [exact Hr|]. now apply Hk.
Qed.

Lemma Keypad_GetKey_same s :
  tx (uart5 (snd (Keypad_GetKey s))) = tx (uart5 s)
  /\ heard (snd (Keypad_GetKey s)) = heard s.
Proof. unfold Keypad_GetKey. destruct (keypad s); auto. Qed.

Lemma POT_ReadMapped_same lo hi s :
  tx (uart5 (snd (POT_ReadMapped lo hi s))) = tx (uart5 s)
  /\ heard (snd (POT_ReadMapped lo hi s)) = heard s.
Proof. unfold POT_ReadMapped. destruct (knob s); auto. Qed.

(** [GetPassword], the countdown loop and the potentiometer loop send
    nothing and hear nothing. *)
Lemma get_digits_same fuel :
  forall password s,
    tx (uart5 (final (get_digits fuel password s))) = tx (uart5 s)
    /\ heard (final (get_digits fuel password s)) = heard s.
Proof.
  induction fuel as [|fuel IH]; intros password s; cbn [get_digits].
  - destruct (length password <? PASSWORD_LENGTH)%nat; cbn; auto.
  - destruct (length password <? PASSWORD_LENGTH)%nat; [|cbn; auto].
    destruct (Keypad_GetKey_same s) as [K1 K2].
    destruct (Keypad_GetKey s) as [key s1]. cbn [snd] in *.
    destruct ((48 <=? key) && (key <=? 57)).
    + destruct (IH (password ++ [key]) (delay 10 (delay 200 s1))) as [I1 I2].
      rewrite I1, I2. cbn. auto.
    + destruct (IH password (delay 10 s1)) as [I1 I2].
      rewrite I1, I2. cbn. auto.
Qed.

Lemma receive_countdown_same fuel :
  forall s,
    tx (uart5 (final (receive_countdown fuel s))) = tx (uart5 s)
    /\ heard (final (receive_countdown fuel s)) = heard s.
Proof.
  induction fuel as [|fuel IH]; intros s; cbn [receive_countdown]; [cbn; auto|].
  destruct (Uart.UART5_IsDataAvailable (uart5 s)).
  - assert (R : tx (snd (Uart.UART5_ReceiveChar (uart5 s))) = tx (uart5 s)).
    { unfold Uart.UART5_ReceiveChar. destruct (rx (uart5 s)) as [|[d v] q]; reflexivity. }
    destruct (Uart.UART5_ReceiveChar (uart5 s)) as [c u]. cbn [snd] in R.
    destruct (c =? RESP_DOOR_LOCKING); [cbn; auto|].
    destruct (IH (delay 10 (on_uart (fun _ => u) s))) as [I1 I2].
    rewrite I1, I2. cbn. auto.
  - destruct (IH (delay 10 s)) as [I1 I2]. rewrite I1, I2. cbn. auto.
Qed.

Lemma adjust_timeout_same fuel :
  forall s,
    tx (uart5 (final (adjust_timeout fuel s))) = tx (uart5 s)
    /\ heard (final (adjust_timeout fuel s)) = heard s.
Proof.
  induction fuel as [|fuel IH]; intros s; cbn [adjust_timeout]; [cbn; auto|].
  destruct (POT_ReadMapped_same TIMEOUT_MIN_SECONDS TIMEOUT_MAX_SECONDS s) as [P1 P2].
  destruct (POT_ReadMapped TIMEOUT_MIN_SECONDS TIMEOUT_MAX_SECONDS s) as [timeout s1].
  cbn [snd] in *.
  destruct (Keypad_GetKey_same s1) as [K1 K2].
  destruct (Keypad_GetKey s1) as [key s2]. cbn [snd] in *.
  destruct (key =? KEY_SAVE).
  - cbn. rewrite K1, K2. auto.
  - destruct (IH (delay 100 s2)) as [I1 I2]. rewrite I1, I2. cbn.
    rewrite K1, K2. auto.
Qed.

Lemma send_chars_effect n :
  forall password s,
    exists F, length F = n
      /\ tx (uart5 (send_chars n password s)) = tx (uart5 s) ++ F
      /\ heard (send_chars n password s) = heard s.
Proof.
  induction n as [|n IH]; intros password s.
  - exists []. cbn. rewrite app_nil_r. auto.
  - cbn [send_chars].
    destruct (IH (tl password) (delay 10 (send (hd 0 password) s))) as (F & L & T & H).
    exists (hd 0 password :: F). rewrite T, H. cbn. rewrite L, <- app_assoc. auto.
Qed.

Lemma WaitForResponse_effect s :
  tx (uart5 (snd (WaitForResponse s))) = tx (uart5 s)
  /\ heard (snd (WaitForResponse s)) = heard s ++ [fst (WaitForResponse s)].
Proof.
  unfold WaitForResponse.
  pose proof (receive_or_tx RESP_TIMEOUT (Uart.poll UART_RESPONSE_TIMEOUT_MS (uart5 s))) as R.
  destruct (Uart.receive_or RESP_TIMEOUT (Uart.poll UART_RESPONSE_TIMEOUT_MS (uart5 s)))
    as [response u].
  cbn [fst snd uart5 heard] in *. rewrite R, poll_tx. auto.
Qed.

End Dialogs.

Section DialogTraces.
Import HMI.

Lemma since_refl {A : Type} (l : list A) : since l l = [].
Proof. unfold since. apply drop_all. Qed.

Lemma final_bind_done {A B : Type} (r : run A) (b : B) :
  final (bind r (fun _ s => Done b s)) = final r.
Proof. destruct r; reflexivity. Qed.

Lemma GetPassword_same fuel s :
  tx (uart5 (final (GetPassword fuel s))) = tx (uart5 s)
  /\ heard (final (GetPassword fuel s)) = heard s.
Proof. apply get_digits_same. Qed.

Lemma GetPassword_extends fuel s : extends s (final (GetPassword fuel s)).
Proof. destruct (GetPassword_same fuel s). now apply extends_same. Qed.

(** An opcode followed by a password. *)
Lemma send_frame command password s :
  exists F, length F = 5%nat
    /\ tx (uart5 (SendPassword password (delay 50 (send command s))))
       = tx (uart5 s) ++ command :: F
    /\ heard (SendPassword password (delay 50 (send command s))) = heard s.
Proof.
  unfold SendPassword.
  destruct (send_chars_effect PASSWORD_LENGTH password (delay 50 (send command s)))
    as (F & L & T & H).
  exists F. rewrite T, H. cbn. rewrite <- app_assoc. auto.
Qed.

Lemma SetupPassword_extends fuel s : extends s (final (SetupPassword fuel s)).
Proof.
  unfold SetupPassword.
  apply bind_extends; [apply GetPassword_extends|]. intros password1 s1 _. cbn zeta.
  apply extends_trans with (delay 500 s1); [now apply extends_same|].
  apply bind_extends; [apply GetPassword_extends|]. intros password2 s2 _.
  destruct (send_frame CMD_SETUP_PASSWORD password1 s2) as (F1 & L1 & T1 & H1).
  set (s3 := SendPassword password1 (delay 50 (send CMD_SETUP_PASSWORD s2))) in *.
  destruct (send_chars_effect PASSWORD_LENGTH password2 (delay 50 s3))
    as (F2 & L2 & T2 & H2).
  fold (SendPassword password2 (delay 50 s3)) in T2, H2.
  destruct (WaitForResponse_effect (SendPassword password2 (delay 50 s3))) as [W1 W2].
  destruct (WaitForResponse (SendPassword password2 (delay 50 s3))) as [response s4].
  cbn [fst snd] in *.
  assert (E : extends s2 (delay 2000 s4)).
  { exists (CMD_SETUP_PASSWORD :: F1 ++ F2), [response].
    cbn [delay on_uart uart5 heard Uart.DelayMs tx].
    rewrite W1, W2, T2, H2. cbn [delay on_uart uart5 heard Uart.DelayMs tx].
    rewrite T1, H1, <- app_assoc. repeat split.
    apply silent_one; [|discriminate]. rewrite length_app, L1, L2. reflexivity. }
  destruct (response =? RESP_PASSWORD_MATCH); exact E.
Qed.

Lemma setup_until_saved_extends fuel :
  forall s, extends s (final (setup_until_saved fuel s)).
Proof.
  induction fuel as [|fuel IH]; intros s; cbn [setup_until_saved].
  - apply extends_refl.
  - apply bind_extends; [apply SetupPassword_extends|].
    intros saved s1 _. destruct saved; [apply extends_refl|apply IH].
Qed.

Lemma follow_door_extends fuel s : extends s (final (follow_door fuel s)).
Proof.
  unfold follow_door.
  destruct (WaitForResponse_effect (delay 1500 s)) as [W1 W2].
  destruct (WaitForResponse (delay 1500 s)) as [r1 s1]. cbn [fst snd] in *.
  set (s2 := if r1 =? RESP_DOOR_UNLOCKING then delay 2000 s1 else s1).
  assert (E2 : extends s s2).
  { apply (extends_heard s s2 [r1]); subst s2;
      destruct (r1 =? RESP_DOOR_UNLOCKING); cbn; rewrite ?W1, ?W2; reflexivity. }
  destruct (WaitForResponse_effect s2) as [X1 X2].
  destruct (WaitForResponse s2) as [r2 s3]. cbn [fst snd] in *.
  eapply extends_trans; [exact E2|].
  eapply extends_trans; [apply (extends_heard s2 s3 [r2]); assumption|].
  apply bind_extends.
  - destruct (r2 =? RESP_COUNTDOWN_START); [|apply extends_refl].
    destruct (receive_countdown_same fuel s3). now apply extends_same.
  - intros r3 s4 _.
    set (s5 := if r3 =? RESP_DOOR_LOCKING then delay 2000 s4 else s4).
    assert (E5 : extends s4 s5).
    { apply extends_same; subst s5; destruct (r3 =? RESP_DOOR_LOCKING); reflexivity. }
    destruct (WaitForResponse_effect s5) as [Y1 Y2].
    destruct (WaitForResponse s5) as [r4 s6]. cbn [fst snd final] in *.
    eapply extends_trans; [exact E5|].
    apply (extends_heard s5 _ [r4]);
      destruct (r4 =? RESP_DOOR_LOCKED); cbn; rewrite ?Y1, ?Y2; reflexivity.
Qed.

Section Attempts.
Variable command : Z.
Variable granted : ECU -> run unit.
Hypothesis command_payload : payload_length command = 5%nat.
Hypothesis command_not_lockout : command <> CMD_TRIGGER_LOCKOUT.
Hypothesis granted_extends : forall s, extends s (final (granted s)).
Variable fuel : nat.

Lemma attempts_loop_extends left :
  forall s, extends s (final (attempts_loop command granted fuel left s)).
Proof.
  induction left as [|left IH]; intros s; cbn [attempts_loop].
  - apply extends_refl.
  - apply bind_extends; [apply GetPassword_extends|]. intros password s1 _.
    destruct (send_frame command password s1) as (F & L & T & H).
    set (s2 := SendPassword password (delay 50 (send command s1))) in *.
    destruct (WaitForResponse_effect s2) as [W1 W2].
    destruct (WaitForResponse s2) as [response s3]. cbn [fst snd] in *.
    assert (E3 : extends s1 s3).
    { exists (command :: F), [response]. rewrite W1, W2, T, H. repeat split.
      apply silent_one; [now rewrite L, command_payload|exact command_not_lockout]. }
    eapply extends_trans; [exact E3|].
    destruct (response =? RESP_PASSWORD_MATCH).
    + rewrite final_bind_done. apply granted_extends.
    + eapply extends_trans; [|apply IH].
      destruct left; [apply extends_refl|now apply extends_same].
Qed.

(** When the first [left] answers are PasswordMismatch, the loop runs out
    of attempts: it has heard exactly these answers and falls through to
    the lockout. *)
Lemma attempts_loop_exhausted left :
  forall s,
    let r := attempts_loop command granted fuel left s in
    take left (since (heard s) (heard (final r)))
    = repeat RESP_PASSWORD_MISMATCH left ->
    exists s',
      r = Done false s'
      /\ since (heard s) (heard s') = repeat RESP_PASSWORD_MISMATCH left.
Proof.
  induction left as [|left IH]; intros s; cbn [attempts_loop]; cbn zeta.
  - intros _. exists s. split; [reflexivity|apply since_refl].
  - destruct (GetPassword_same fuel s) as [G1 G2].
    destruct (GetPassword fuel s) as [password s1|s1]; cbn [bind final] in *.
    + destruct (send_frame command password s1) as (F & L & T & H).
      set (s2 := SendPassword password (delay 50 (send command s1))) in *.
      destruct (WaitForResponse_effect s2) as [W1 W2].
      destruct (WaitForResponse s2) as [response s3]. cbn [fst snd] in *.
      assert (H3 : heard s3 = heard s ++ [response]) by (rewrite W2, H, G2; reflexivity).
      destruct (Z.eqb_spec response RESP_PASSWORD_MATCH) as [Em|Em].
      * rewrite final_bind_done.
        destruct (granted_extends s3) as (Fg & Rg & _ & Hg & _).
        rewrite Hg, H3, <- app_assoc, since_app. cbn [app take repeat].
        intros Hc. injection Hc as Hc _. rewrite Em in Hc. discriminate Hc.
      * set (s4 := match left with O => s3 | S _ => delay 1500 s3 end).
        assert (H4 : heard s4 = heard s3) by (subst s4; destruct left; reflexivity).
        specialize (IH s4). cbn zeta in IH.
        destruct (attempts_loop_extends left s4) as (Fa & Ra & _ & Ha & _).
        rewrite Ha, since_app in IH.
        rewrite Ha, H4, H3, <- app_assoc, since_app. cbn [app take repeat].
        intros Hc. injection Hc as Hr Hc.
        destruct (IH Hc) as (s' & Er & Hs'). exists s'. split; [exact Er|].
        rewrite Er in Ha. cbn [final] in Ha.
        rewrite Ha, H4, H3, <- app_assoc, since_app. cbn [app].
        rewrite Ha, since_app in Hs'. rewrite Hs', Hr. reflexivity.
    + rewrite G2, since_refl. cbn. intros Hc. discriminate Hc.
Qed.

End Attempts.

Lemma open_attempts_shape fuel left :
  forall s,
    open_attempts fuel left s
    = attempts_loop CMD_OPEN_DOOR (follow_door fuel) fuel left s.
Proof.
  induction left as [|left IH]; intros s; cbn [open_attempts attempts_loop];
    [reflexivity|].
  destruct (GetPassword fuel s) as [password s1|s1]; cbn [bind]; [|reflexivity].
  destruct (WaitForResponse _) as [response s3].
  destruct (response =? RESP_PASSWORD_MATCH); [reflexivity|apply IH].
Qed.

Lemma change_attempts_shape fuel left :
  forall s,
    change_attempts fuel left s
    = attempts_loop CMD_CHANGE_PASSWORD
        (fun s => setup_until_saved fuel (delay 1000 s)) fuel left s.
Proof.
  induction left as [|left IH]; intros s; cbn [change_attempts attempts_loop];
    [reflexivity|].
  destruct (GetPassword fuel s) as [password s1|s1]; cbn [bind]; [|reflexivity].
  destruct (WaitForResponse _) as [response s3].
  destruct (response =? RESP_PASSWORD_MATCH); [reflexivity|apply IH].
Qed.

End DialogTraces.

Section LockoutSignal.
Import HMI.

Lemma HandleSetTimeout_trace fuel s :
  exists F R,
    tx (uart5 (final (HandleSetTimeout fuel s))) = tx (uart5 s) ++ F
    /\ heard (final (HandleSetTimeout fuel s)) = heard s ++ R
    /\ silent F /\ (length R <= 1)%nat.
Proof.
  unfold HandleSetTimeout.
  destruct (adjust_timeout_same fuel s) as [A1 A2].
  destruct (adjust_timeout fuel s) as [timeout s1|s1]; cbn [bind final] in *.
  2:{ exists [], []. rewrite !app_nil_r. auto using silent_nil. }
  destruct (GetPassword_same fuel s1) as [G1 G2].
  destruct (GetPassword fuel s1) as [password s2|s2]; cbn [bind final] in *.
  2:{ exists [], []. rewrite !app_nil_r, G1, G2. auto using silent_nil. }
  destruct (send_frame CMD_SET_TIMEOUT password s2) as (F & L & T & H).
  set (s3 := SendPassword password (delay 50 (send CMD_SET_TIMEOUT s2))) in *.
  destruct (WaitForResponse_effect (send timeout (delay 50 s3))) as [W1 W2].
  destruct (WaitForResponse (send timeout (delay 50 s3))) as [response s4].
  cbn [fst snd] in *.
  exists (CMD_SET_TIMEOUT :: F ++ [timeout]), [response].
  assert (E : tx (uart5 s4) = tx (uart5 s) ++ CMD_SET_TIMEOUT :: F ++ [timeout]
              /\ heard s4 = heard s ++ [response]).
  { rewrite W1, W2. cbn [send delay on_uart uart5 heard Uart.UART5_SendChar
      Uart.DelayMs tx]. rewrite T, H, G1, G2, A1, A2, <- app_assoc. auto. }
  destruct E as [E1 E2].
  assert (Sl : silent (CMD_SET_TIMEOUT :: F ++ [timeout])).
  { apply silent_one; [|discriminate]. rewrite length_app, L. reflexivity. }
  destruct (response =? RESP_TIMEOUT_SAVED); cbn [final delay on_uart uart5 heard
    Uart.DelayMs tx]; auto.
Qed.

Lemma HandleEraseEEPROM_extends fuel s :
  extends s (final (HandleEraseEEPROM fuel s)).
Proof.
  unfold HandleEraseEEPROM.
  apply extends_trans with (delay 2000 s); [now apply extends_same|].
  apply bind_extends; [apply GetPassword_extends|]. intros password s1 _.
  destruct (send_frame CMD_ERASE_EEPROM password s1) as (F & L & T & H).
  set (s2 := SendPassword password (delay 50 (send CMD_ERASE_EEPROM s1))) in *.
  destruct (WaitForResponse_effect s2) as [W1 W2].
  destruct (WaitForResponse s2) as [response s3]. cbn [fst snd] in *.
  assert (E3 : extends s1 s3).
  { exists (CMD_ERASE_EEPROM :: F), [response]. rewrite W1, W2, T, H.
    repeat split. apply silent_one; [now rewrite L|discriminate]. }
  eapply extends_trans; [exact E3|].
  destruct (response =? RESP_EEPROM_ERASED).
  - eapply extends_trans; [|apply setup_until_saved_extends]. now apply extends_same.
  - now apply extends_same.
Qed.

(** A dialog built on the attempt loop: at most one TriggerLockout, and
    exactly one, sent last, after three PasswordMismatch answers. *)
Lemma attempts_dialog command granted fuel s :
  payload_length command = 5%nat ->
  command <> CMD_TRIGGER_LOCKOUT ->
  (forall s, extends s (final (granted s))) ->
  let r := bind (attempts_loop command granted fuel 3 s)
             (fun exited s => if exited then Done tt s else Done tt (lockout s)) in
  let sent := since (tx (uart5 s)) (tx (uart5 (final r))) in
  let answers := since (heard s) (heard (final r)) in
  (lockouts sent <= 1)%nat
  /\ (take 3 answers = repeat RESP_PASSWORD_MISMATCH 3 ->
      returned r = true /\ lockouts sent = 1%nat
      /\ answers = repeat RESP_PASSWORD_MISMATCH 3
      /\ last sent = Some CMD_TRIGGER_LOCKOUT).
Proof.
  intros Hp Hc Hg. cbn zeta.
  pose proof (attempts_loop_extends command granted Hp Hc Hg fuel 3 s) as E.
  pose proof (attempts_loop_exhausted command granted Hp Hc Hg fuel 3 s) as X.
  cbn zeta in X.
  destruct (attempts_loop command granted fuel 3 s) as [[|] s'|s'];
    cbn [bind final returned] in *;
    destruct E as (F & R & T & H & S).
  - rewrite T, H, !since_app, (lockouts_silent F S). split; [lia|].
    intros Hm. rewrite H, since_app in X. destruct (X Hm) as (? & Ex & _).
    discriminate Ex.
  - cbn [lockout send delay on_uart uart5 heard Uart.UART5_SendChar Uart.DelayMs tx].
    rewrite T, H, <- app_assoc, !since_app, (lockouts_silent_lockout F S).
    split; [lia|]. intros Hm. rewrite H, since_app in X.
    destruct (X Hm) as (s'' & Ex & Hs). injection Ex as <-.
    rewrite H, since_app in Hs.
    repeat split; [exact Hs|apply last_snoc].
  - rewrite T, H, !since_app, (lockouts_silent F S). split; [lia|].
    intros Hm. rewrite H, since_app in X. destruct (X Hm) as (? & Ex & _).
    discriminate Ex.
Qed.

End LockoutSignal.

(** C7, as the code has it.  No dialog sends TriggerLockout more than
    once.  In the open-door and change-password dialogs, when the first
    three answers are PasswordMismatch the dialog returns, these are all
    the answers it has heard, and it has sent TriggerLockout exactly once,
    as its last byte.  The set-timeout and erase dialogs never send
    TriggerLockout, whatever they hear; the set-timeout dialog hears at
    most one answer. *)
Theorem lockout_signalling (d : HMI.dialog) (fuel : nat) (s : HMI.ECU) :
  let r := HMI.handle d fuel s in
  let sent := since (tx (HMI.uart5 s)) (tx (HMI.uart5 (HMI.final r))) in
  let answers := since (HMI.heard s) (HMI.heard (HMI.final r)) in
  (lockouts sent <= 1)%nat
  /\ (d = HMI.OpenDoor \/ d = HMI.ChangePassword ->
      take 3 answers
      = [RESP_PASSWORD_MISMATCH; RESP_PASSWORD_MISMATCH; RESP_PASSWORD_MISMATCH] ->
      HMI.returned r = true
      /\ lockouts sent = 1%nat
      /\ answers
         = [RESP_PASSWORD_MISMATCH; RESP_PASSWORD_MISMATCH; RESP_PASSWORD_MISMATCH]
      /\ last sent = Some CMD_TRIGGER_LOCKOUT)
  /\ (d = HMI.SetTimeout \/ d = HMI.EraseEeprom -> lockouts sent = 0%nat)
  /\ (d = HMI.SetTimeout -> (length answers <= 1)%nat).
Proof.
  cbn zeta.
  assert (Hopen : forall fuel s, extends s (HMI.final (HMI.follow_door fuel s)))
    by apply follow_door_extends.
  assert (Hchange : forall fuel s,
            extends s (HMI.final (HMI.setup_until_saved fuel (HMI.delay 1000 s)))).
  { intros f0 s0. eapply extends_trans; [|apply setup_until_saved_extends].
    now apply extends_same. }
  destruct d; cbn [HMI.handle].
  - unfold HMI.HandleOpenDoor. change (Z.to_nat MAX_ATTEMPTS) with 3%nat.
    rewrite open_attempts_shape.
    destruct (attempts_dialog CMD_OPEN_DOOR (HMI.follow_door fuel) fuel s
                eq_refl ltac:(discriminate) (Hopen fuel)) as [A B].
    split; [exact A|]. split; [intros _; exact B|].
    split; [intros [E|E]; discriminate E|intros E; discriminate E].
  - unfold HMI.HandleChangePassword. change (Z.to_nat MAX_ATTEMPTS) with 3%nat.
    rewrite change_attempts_shape.
    destruct (attempts_dialog CMD_CHANGE_PASSWORD
                (fun s => HMI.setup_until_saved fuel (HMI.delay 1000 s)) fuel s
                eq_refl ltac:(discriminate) (Hchange fuel)) as [A B].
    split; [exact A|]. split; [intros _; exact B|].
    split; [intros [E|E]; discriminate E|intros E; discriminate E].
  - destruct (HandleSetTimeout_trace fuel s) as (F & R & T & H & S & L).
    rewrite T, H, !since_app, (lockouts_silent F S).
    split; [lia|]. split; [intros [E|E]; discriminate E|]. split; [reflexivity|].
    intros _. exact L.
  - destruct (HandleEraseEEPROM_extends fuel s) as (F & R & T & H & S).
    rewrite T, H, !since_app, (lockouts_silent F S).
    split; [lia|]. split; [intros [E|E]; discriminate E|]. split; [reflexivity|].
    intros E; discriminate E.
Qed.

Lemma lockout_signalling_witness :
  let s := HMI.mkECU
             (mkUART [(1200%nat, 0x11); (2700%nat, 0x11); (2700%nat, 0x11)] [])
             [0x31; 0x31; 0x31; 0x31; 0x31; 0x32; 0x32; 0x32; 0x32; 0x32;
              0x33; 0x33; 0x33; 0x33; 0x33] [] [] in
  let r := HMI.handle HMI.OpenDoor 10 s in
  let sent := since (tx (HMI.uart5 s)) (tx (HMI.uart5 (HMI.final r))) in
  let answers := since (HMI.heard s) (HMI.heard (HMI.final r)) in
  HMI.returned r = true
  /\ lockouts sent = 1%nat
  /\ answers
     = [RESP_PASSWORD_MISMATCH; RESP_PASSWORD_MISMATCH; RESP_PASSWORD_MISMATCH]
  /\ last sent = Some CMD_TRIGGER_LOCKOUT.
Proof.
  intros s r sent answers.
  assert (H : take 3 answers
              = [RESP_PASSWORD_MISMATCH; RESP_PASSWORD_MISMATCH; RESP_PASSWORD_MISMATCH])
    by (vm_compute; reflexivity).
  destruct (lockout_signalling HMI.OpenDoor 10 s) as (_ & B & _).
  exact (B (or_introl eq_refl) H).
Defined.

(** C7, the claim as worded, at a concrete erase dialog.  The password is
    accepted (EepromErased); three Setup-password exchanges are then
    answered PasswordMismatch and a fourth PasswordMatch.  The dialog has
    heard exactly three PasswordMismatch answers, consecutive, and returns
    without having sent TriggerLockout. *)
Lemma erase_dialog_counterexample :
  let s := HMI.mkECU
             (mkUART [(3200%nat, 0x17); (4850%nat, 0x11); (4850%nat, 0x11);
                      (4850%nat, 0x11); (4850%nat, 0x10)] [])
             ([0x31; 0x32; 0x33; 0x34; 0x35]
              ++ [0x31; 0x31; 0x31; 0x31; 0x31; 0x32; 0x32; 0x32; 0x32; 0x32]
              ++ [0x33; 0x33; 0x33; 0x33; 0x33; 0x34; 0x34; 0x34; 0x34; 0x34]
              ++ [0x35; 0x35; 0x35; 0x35; 0x35; 0x36; 0x36; 0x36; 0x36; 0x36]
              ++ [0x37; 0x37; 0x37; 0x37; 0x37; 0x37; 0x37; 0x37; 0x37; 0x37])
             [] [] in
  let r := HMI.handle HMI.EraseEeprom 20 s in
  let sent := since (tx (HMI.uart5 s)) (tx (HMI.uart5 (HMI.final r))) in
  let answers := since (HMI.heard s) (HMI.heard (HMI.final r)) in
  HMI.returned r = true
  /\ answers
     = [RESP_EEPROM_ERASED; RESP_PASSWORD_MISMATCH; RESP_PASSWORD_MISMATCH;
        RESP_PASSWORD_MISMATCH; RESP_PASSWORD_MATCH]
  /\ opcodes sent
     = [CMD_ERASE_EEPROM; CMD_SETUP_PASSWORD; CMD_SETUP_PASSWORD;
        CMD_SETUP_PASSWORD; CMD_SETUP_PASSWORD]
  /\ lockouts sent = 0%nat
  /\ ~ In CMD_TRIGGER_LOCKOUT sent.
Proof.
  vm_compute. repeat split; try reflexivity.
  intros H. repeat (destruct H as [H|H]; [discriminate H|]). exact H.
Qed.

(** * Further properties of the code *)

(** ** Time on the receive line *)

Lemma advance_add a b q : advance b (advance a q) = advance (a + b) q.
Proof.
  revert a b; induction q as [|[d v] q IH]; intros a b; [reflexivity|].
  cbn [advance].
  destruct (Nat.leb_spec d a) as [Hda|Hda]; cbn [advance].
  - cbn [Nat.leb]. rewrite Nat.sub_0_r, IH.
    destruct (Nat.leb_spec d (a + b)); [|lia].
    do 2 f_equal. lia.
  - destruct (Nat.leb_spec (d - a) b) as [Hb|Hb];
      destruct (Nat.leb_spec d (a + b)); try lia.
    + do 2 f_equal. lia.
    + do 2 f_equal. lia.
Qed.

(** ** ReceivePassword *)

Section Receive.
Import Control.

Lemma receive_chars_in_time pre :
  forall rest t,
    Forall (fun e => (fst e <= 1000)%nat) pre ->
    receive_chars (length pre) {| rx := pre ++ rest; tx := t |}
    = (map (fun e => Z.land (snd e) 0xFF) pre, {| rx := rest; tx := t |}).
Proof.
  induction pre as [|[d v] pre IH]; intros rest t Hpre; [reflexivity|].
  inversion Hpre as [|? ? Hd Hpre']; subst. cbn [fst] in Hd.
  cbn [length receive_chars app].
  rewrite (poll_in_time 1000 d v (pre ++ rest) t Hd).
  cbv [Uart.receive_or Uart.UART5_IsDataAvailable Uart.UART5_ReceiveChar rx tx].
  rewrite (IH rest t Hpre'). reflexivity.
Qed.

Lemma receive_chars_silent n :
  forall q t,
    match q with
    | [] => True
    | (d, _) :: _ => (1000 * n < d)%nat
    end ->
    receive_chars n {| rx := q; tx := t |}
    = (repeat 0x30 n, {| rx := advance (1000 * n) q; tx := t |}).
Proof.
  induction n as [|n IH]; intros q t Hq.
  - cbn [receive_chars repeat]. rewrite Nat.mul_0_r, advance_0. reflexivity.
  - cbn [receive_chars repeat]. destruct q as [|[d v] q].
    + rewrite poll_empty.
      cbv [Uart.receive_or Uart.UART5_IsDataAvailable rx].
      rewrite (IH [] t I). reflexivity.
    + rewrite (poll_late 1000 d v q t) by lia.
      assert (Hpos : (d - 1000 <> 0)%nat) by lia.
      cbv [Uart.receive_or Uart.UART5_IsDataAvailable rx].
      destruct (d - 1000)%nat as [|d'] eqn:Ed; [contradiction|].
      rewrite (IH ((S d', v) :: q) t) by lia.
      do 2 f_equal.
      assert (Hlt1 : (1000 * n < S d')%nat) by lia.
      assert (Hlt2 : (1000 * S n < d)%nat) by lia.
      cbn [advance].
      destruct (Nat.leb_spec (S d') (1000 * n)); [lia|].
      destruct (Nat.leb_spec d (1000 * S n)); [lia|].
      do 2 f_equal. lia.
Qed.

End Receive.

(** X1. When the five characters of a password arrive each within 1000 ms
    of the one before, [ReceivePassword] returns exactly these characters
    (the low eight bits of each) and the terminator, takes exactly these
    five entries from the line and sends nothing. *)
Theorem receive_password_in_time (s : Control.ECU) (pre rest : list (nat * Z)) :
  rx (Control.uart5 s) = pre ++ rest ->
  length pre = 5%nat ->
  Forall (fun e => (fst e <= 1000)%nat) pre ->
  Control.ReceivePassword s
  = (map (fun e => Z.land (snd e) 0xFF) pre ++ [0],
     Control.on_uart (fun u => {| rx := rest; tx := tx u |}) s).
Proof.
  intros Hrx Hlen Hpre. unfold Control.ReceivePassword.
  destruct s as [p t m [q l]]. cbn [Control.uart5 rx] in *. subst q.
  change PASSWORD_LENGTH with 5%nat. rewrite <- Hlen.
  rewrite (receive_chars_in_time pre rest l Hpre). reflexivity.
Qed.

Lemma receive_password_in_time_witness :
  let s := Control.mkECU [0; 0; 0; 0; 0; 0] 5 ∅
             (mkUART [(0%nat, 0x131); (1000%nat, 0x32); (10%nat, 0x33);
                      (999%nat, 0x34); (10%nat, 0x35); (1%nat, 0x07)] [0x19]) in
  Control.ReceivePassword s
  = ([0x31; 0x32; 0x33; 0x34; 0x35; 0],
     Control.on_uart (fun u => {| rx := [(1%nat, 0x07)]; tx := tx u |}) s).
Proof.
  intros s.
  apply (receive_password_in_time s
           [(0%nat, 0x131); (1000%nat, 0x32); (10%nat, 0x33);
            (999%nat, 0x34); (10%nat, 0x35)] [(1%nat, 0x07)]).
  - reflexivity.
  - reflexivity.
  - repeat constructor; cbn [fst]; lia.
Defined.

(** X2. When the line is silent, nothing under way or the next byte more
    than 5000 ms off, [ReceivePassword] fills every cell with ['0'] after
    its five waits of 1000 ms: it returns "00000", consumes nothing, and
    the line is 5000 ms older. *)
Theorem receive_password_silent (s : Control.ECU) :
  match rx (Control.uart5 s) with
  | [] => True
  | (d, _) :: _ => (5000 < d)%nat
  end ->
  fst (Control.ReceivePassword s) = default_credential
  /\ rx (Control.uart5 (snd (Control.ReceivePassword s)))
     = advance 5000 (rx (Control.uart5 s))
  /\ map snd (rx (Control.uart5 (snd (Control.ReceivePassword s))))
     = map snd (rx (Control.uart5 s)).
Proof.
  intros Hq. unfold Control.ReceivePassword.
  destruct s as [p t m [q l]]. cbn [Control.uart5 rx] in *.
  change PASSWORD_LENGTH with 5%nat.
  rewrite (receive_chars_silent 5 q l).
  - cbn [fst snd Control.on_uart Control.uart5 rx]. rewrite advance_bytes.
    change (1000 * 5)%nat with 5000%nat. repeat split.
  - destruct q as [|[d v] q]; [exact I|]. lia.
Qed.

Lemma receive_password_silent_witness :
  let s := Control.mkECU [0; 0; 0; 0; 0; 0] 5 ∅
             (mkUART [(Z.to_nat 5001, 0x31); (10%nat, 0x32)] []) in
  fst (Control.ReceivePassword s) = default_credential
  /\ rx (Control.uart5 (snd (Control.ReceivePassword s)))
     = [(1%nat, 0x31); (10%nat, 0x32)].
Proof.
  intros s.
  assert (H : match rx (Control.uart5 s) with
              | [] => True
              | (d, _) :: _ => (5000 < d)%nat
              end).
  { apply Nat.ltb_lt. vm_compute. reflexivity. }
  destruct (receive_password_silent s H) as (H1 & H2 & _).
  split; [exact H1|]. rewrite H2. vm_compute. reflexivity.
Defined.

(** ** Open-door, Change-password and the door sequence *)

Section DoorFacts.
Import Control.

Lemma HandleOpenDoor_effect s :
  let s' := HandleOpenDoor s in
  g_storedPassword s' = g_storedPassword s
  /\ g_autoLockTimeout s' = g_autoLockTimeout s
  /\ eeprom s' = eeprom s
  /\ tx (uart5 s')
     = tx (uart5 s)
       ++ (if VerifyPassword (fst (ReceivePassword s)) s
           then [RESP_PASSWORD_MATCH; RESP_DOOR_UNLOCKING; RESP_COUNTDOWN_START]
                ++ countdown_values (Z.to_nat (g_autoLockTimeout s))
                ++ [RESP_DOOR_LOCKING; RESP_DOOR_LOCKED]
           else [RESP_PASSWORD_MISMATCH]).
Proof.
  unfold HandleOpenDoor.
  destruct (ReceivePassword_frame s) as (F1 & F2 & F3 & F4).
  destruct (ReceivePassword s) as [p s1]. cbn [fst snd] in *.
  assert (V : VerifyPassword p s1 = VerifyPassword p s)
    by (unfold VerifyPassword; now rewrite F1).
  rewrite V. destruct (VerifyPassword p s); cbn zeta.
  - destruct (PerformDoorOperation_frame (delay 100 (send RESP_PASSWORD_MATCH s1)))
      as (P1 & P2 & P3 & P4).
    rewrite P1, P2, P3, P4, tx_delay, tx_send, F4.
    change (g_autoLockTimeout (delay 100 (send RESP_PASSWORD_MATCH s1)))
      with (g_autoLockTimeout s1).
    rewrite F2, <- app_assoc. repeat split; assumption.
  - rewrite tx_send, F4. repeat split; assumption.
Qed.

Lemma countdown_values_length n : length (countdown_values n) = n.
Proof. induction n as [|n IH]; [reflexivity|]. cbn [countdown_values length]. now rewrite IH. Qed.

Lemma countdown_values_range n :
  Forall (fun b => 1 <= b <= Z.of_nat n) (countdown_values n).
Proof.
  induction n as [|n IH]; [constructor|]. cbn [countdown_values].
  constructor; [lia|]. eapply Forall_impl; [exact IH|].
  cbn beta. intros b Hb. lia.
Qed.

Lemma rx_delay n s : rx (uart5 (delay n s)) = advance n (rx (uart5 s)).
Proof. reflexivity. Qed.

Lemma countdown_rx i :
  forall s, rx (uart5 (countdown i s)) = advance (1000 * i) (rx (uart5 s)).
Proof.
  induction i as [|i IH]; intros s.
  - cbn [countdown]. rewrite Nat.mul_0_r, advance_0. reflexivity.
  - cbn [countdown]. rewrite IH. unfold SendCountdown.
    rewrite rx_delay, rx_send, advance_add. f_equal. lia.
Qed.

Lemma strcpy_whole dst a b c d e :
  length dst = 6%nat ->
  a <> 0 -> b <> 0 -> c <> 0 -> d <> 0 -> e <> 0 ->
  strcpy dst [a; b; c; d; e; 0] = [a; b; c; d; e; 0].
Proof.
  intros H Ha Hb Hc Hd He.
  destruct dst as [|? [|? [|? [|? [|? [|? [|? ?]]]]]]]; try discriminate H.
  cbn [strcpy].
  destruct (Z.eqb_spec a 0); [contradiction|].
  destruct (Z.eqb_spec b 0); [contradiction|].
  destruct (Z.eqb_spec c 0); [contradiction|].
  destruct (Z.eqb_spec d 0); [contradiction|].
  destruct (Z.eqb_spec e 0); [contradiction|].
  reflexivity.
Qed.

End DoorFacts.

(** X3. When the credential in memory is "00000" (as after an erase), an
    Open-door command that is followed by no payload at all is granted:
    the five waits time out, the buffer is filled with ['0'], and the
    handler sends PasswordMatch and runs the whole door sequence. *)
Theorem open_door_without_payload (s : Control.ECU) :
  Control.g_storedPassword s = default_credential ->
  match rx (Control.uart5 s) with
  | [] => True
  | (d, _) :: _ => (5000 < d)%nat
  end ->
  tx (Control.uart5 (Control.HandleOpenDoor s))
  = tx (Control.uart5 s)
    ++ [RESP_PASSWORD_MATCH; RESP_DOOR_UNLOCKING; RESP_COUNTDOWN_START]
    ++ countdown_values (Z.to_nat (Control.g_autoLockTimeout s))
    ++ [RESP_DOOR_LOCKING; RESP_DOOR_LOCKED].
Proof.
  intros Hp Hq.
  destruct (HandleOpenDoor_effect s) as (_ & _ & _ & H). rewrite H.
  unfold Control.VerifyPassword.
  destruct s as [p t m [q l]]. cbn [Control.uart5 Control.g_storedPassword rx] in *.
  unfold Control.ReceivePassword. cbn [Control.uart5].
  change PASSWORD_LENGTH with 5%nat.
  rewrite (receive_chars_silent 5 q l).
  - cbn [fst]. rewrite Hp. reflexivity.
  - destruct q as [|[d v] q]; [exact I|]. lia.
Qed.

Lemma open_door_without_payload_witness :
  let s := Control.mkECU default_credential 7 ∅ (mkUART [] []) in
  tx (Control.uart5 (Control.HandleOpenDoor s))
  = [RESP_PASSWORD_MATCH; RESP_DOOR_UNLOCKING; RESP_COUNTDOWN_START;
     7; 6; 5; 4; 3; 2; 1; RESP_DOOR_LOCKING; RESP_DOOR_LOCKED].
Proof.
  intros s. exact (open_door_without_payload s eq_refl I).
Defined.

(** X4. A Setup-password whose two payloads compare equal and hold no NUL
    character installs the payload as the credential in memory as well:
    the same payload then verifies, the validity marker is set so that
    Check-password-exists answers PasswordExists, and the timeout, in
    memory and in its EEPROM cell, is as before. *)
Theorem setup_then_verify (s s1 s2 : Control.ECU) (p1 p2 : list Z) :
  Control.ReceivePassword s = (p1, s1) ->
  Control.ReceivePassword (Control.delay 50 s1) = (p2, s2) ->
  strcmp p1 p2 = 0 ->
  Forall (fun c => c <> 0) (take 5 p1) ->
  length (Control.g_storedPassword s) = 6%nat ->
  let s' := Control.HandleSetupPassword s in
  Control.g_storedPassword s' = p1
  /\ Control.VerifyPassword p1 s' = true
  /\ tx (Control.uart5 (Control.HandleCheckPassword s'))
     = tx (Control.uart5 s') ++ [RESP_PASSWORD_EXISTS]
  /\ Control.g_autoLockTimeout s' = Control.g_autoLockTimeout s
  /\ Control.read_word Control.EEPROM_TIMEOUT_BLOCK Control.EEPROM_TIMEOUT_OFFSET s'
     = Control.read_word Control.EEPROM_TIMEOUT_BLOCK Control.EEPROM_TIMEOUT_OFFSET s.
Proof.
  intros H1 H2 Heq Hnz Hlen. unfold Control.HandleSetupPassword.
  rewrite H1, H2, Heq. cbn [Z.eqb]. cbn zeta.
  destruct (ReceivePassword_frame s) as (A1 & A2 & A3 & A4).
  destruct (ReceivePassword_frame (Control.delay 50 s1)) as (B1 & B2 & B3 & B4).
  destruct (ReceivePassword_shape s) as (a & b & c & d & e & Sp1 & _).
  rewrite H1 in A1, A2, A3, A4, Sp1. rewrite H2 in B1, B2, B3, B4.
  cbn [fst snd] in *. subst p1. cbn [take] in Hnz.
  repeat match goal with
         | H : Forall _ (_ :: _) |- _ => inversion H; subst; clear H
         end.
  assert (Hpw : Control.g_storedPassword
                  (Control.send RESP_PASSWORD_MATCH
                     (Control.delay 100 (Control.SavePassword [a; b; c; d; e; 0] s2)))
                = [a; b; c; d; e; 0]).
  { cbn [Control.send Control.delay Control.on_uart Control.g_storedPassword
         Control.SavePassword Control.set_storedPassword Control.MarkPasswordAsValid
         Control.write_word Control.set_eeprom].
    apply strcpy_whole; try assumption.
    rewrite B1. cbn [Control.delay Control.on_uart Control.g_storedPassword].
    now rewrite A1. }
  split; [exact Hpw|]. split.
  { unfold Control.VerifyPassword. rewrite Hpw, strcmp_refl. reflexivity. }
  split.
  { unfold Control.HandleCheckPassword, Control.IsPasswordValid.
    rewrite read_valid_flag.
    change (Control.eeprom (Control.send RESP_PASSWORD_MATCH
              (Control.delay 100 (Control.SavePassword [a; b; c; d; e; 0] s2))))
      with (Control.eeprom (Control.SavePassword [a; b; c; d; e; 0] s2)).
    rewrite eeprom_SavePassword, lookup_insert_eq. reflexivity. }
  split.
  { cbn. rewrite B2. cbn. exact A2. }
  rewrite !read_timeout_word.
  change (Control.eeprom (Control.send RESP_PASSWORD_MATCH
            (Control.delay 100 (Control.SavePassword [a; b; c; d; e; 0] s2))))
    with (Control.eeprom (Control.SavePassword [a; b; c; d; e; 0] s2)).
  rewrite eeprom_SavePassword.
  rewrite !lookup_insert_ne by discriminate.
  rewrite B3. cbn [Control.delay Control.on_uart Control.eeprom]. now rewrite A3.
Qed.

Lemma setup_then_verify_witness :
  let s := Control.mkECU [0; 0; 0; 0; 0; 0] 12 (<[8 := 12]> ∅)
             (mkUART [(0%nat, 0x32); (10%nat, 0x34); (10%nat, 0x36); (10%nat, 0x38);
                      (10%nat, 0x30); (60%nat, 0x32); (10%nat, 0x34); (10%nat, 0x36);
                      (10%nat, 0x38); (10%nat, 0x30)] []) in
  let s' := Control.HandleSetupPassword s in
  Control.g_storedPassword s' = [0x32; 0x34; 0x36; 0x38; 0x30; 0]
  /\ Control.VerifyPassword [0x32; 0x34; 0x36; 0x38; 0x30; 0] s' = true
  /\ Control.g_autoLockTimeout s' = 12.
Proof.
  intros s s'.
  pose (r1 := Control.ReceivePassword s).
  pose (r2 := Control.ReceivePassword (Control.delay 50 (snd r1))).
  assert (H1 : Control.ReceivePassword s = (fst r1, snd r1)) by apply surjective_pairing.
  assert (H2 : Control.ReceivePassword (Control.delay 50 (snd r1)) = (fst r2, snd r2))
    by apply surjective_pairing.
  assert (H3 : strcmp (fst r1) (fst r2) = 0) by (vm_compute; reflexivity).
  assert (H4 : Forall (fun c => c <> 0) (take 5 (fst r1)))
    by (vm_compute; repeat constructor; discriminate).
  assert (H5 : length (Control.g_storedPassword s) = 6%nat) by reflexivity.
  destruct (setup_then_verify s _ _ _ _ H1 H2 H3 H4 H5) as (K1 & K2 & _ & K4 & _).
  split; [exact K1|]. split; [exact K2|exact K4].
Defined.

(** X5. [HandleChangePassword] only verifies: it answers with the single
    byte PasswordMatch when the received password compares equal to the
    credential in memory and PasswordMismatch otherwise, and in both cases
    the credential, the timeout and the whole EEPROM are left as they
    were.  The new password is never part of this exchange. *)
Theorem change_password_only_verifies (s : Control.ECU) :
  let s' := Control.HandleChangePassword s in
  Control.g_storedPassword s' = Control.g_storedPassword s
  /\ Control.g_autoLockTimeout s' = Control.g_autoLockTimeout s
  /\ Control.eeprom s' = Control.eeprom s
  /\ tx (Control.uart5 s')
     = tx (Control.uart5 s)
       ++ [if Control.VerifyPassword (fst (Control.ReceivePassword s)) s
           then RESP_PASSWORD_MATCH else RESP_PASSWORD_MISMATCH].
Proof.
  unfold Control.HandleChangePassword.
  destruct (ReceivePassword_frame s) as (F1 & F2 & F3 & F4).
  destruct (Control.ReceivePassword s) as [p s1]. cbn [fst snd] in *.
  assert (V : Control.VerifyPassword p s1 = Control.VerifyPassword p s)
    by (unfold Control.VerifyPassword; now rewrite F1).
  rewrite V. destruct (Control.VerifyPassword p s); cbn zeta;
    rewrite tx_send, F4; repeat split; assumption.
Qed.

(** X6. [HandleOpenDoor] for any configured timeout [t]: on a match it
    sends PasswordMatch, DoorUnlocking, CountdownStart, the [t] countdown
    bytes [t, ..., 1] (none when [t = 0]), DoorLocking and DoorLocked,
    [t + 5] bytes in all; on a mismatch it sends PasswordMismatch alone.
    Either way the credential, the timeout and the EEPROM are unchanged. *)
Theorem open_door_any_timeout (s : Control.ECU) :
  let s' := Control.HandleOpenDoor s in
  let t := Z.to_nat (Control.g_autoLockTimeout s) in
  let sent := since (tx (Control.uart5 s)) (tx (Control.uart5 s')) in
  Control.g_storedPassword s' = Control.g_storedPassword s
  /\ Control.g_autoLockTimeout s' = Control.g_autoLockTimeout s
  /\ Control.eeprom s' = Control.eeprom s
  /\ (Control.VerifyPassword (fst (Control.ReceivePassword s)) s = true ->
      sent = [RESP_PASSWORD_MATCH; RESP_DOOR_UNLOCKING; RESP_COUNTDOWN_START]
             ++ countdown_values t ++ [RESP_DOOR_LOCKING; RESP_DOOR_LOCKED]
      /\ length sent = (t + 5)%nat
      /\ Forall (fun b => 1 <= b <= Z.of_nat t) (countdown_values t))
  /\ (Control.VerifyPassword (fst (Control.ReceivePassword s)) s = false ->
      sent = [RESP_PASSWORD_MISMATCH]).
Proof.
  cbn zeta. destruct (HandleOpenDoor_effect s) as (H1 & H2 & H3 & H4).
  rewrite H4, since_app.
  split; [exact H1|]. split; [exact H2|]. split; [exact H3|].
  split; intros V; rewrite V; [|reflexivity].
  split; [reflexivity|]. split; [|apply countdown_values_range].
  cbn [app length]. rewrite length_app, countdown_values_length. cbn [length]. lia.
Qed.

Lemma open_door_any_timeout_witness :
  let s := Control.mkECU [0x31; 0x32; 0x33; 0x34; 0x35; 0] 0 ∅
             (mkUART [(0%nat, 0x31); (10%nat, 0x32); (10%nat, 0x33); (10%nat, 0x34);
                      (10%nat, 0x35)] []) in
  since (tx (Control.uart5 s)) (tx (Control.uart5 (Control.HandleOpenDoor s)))
  = [RESP_PASSWORD_MATCH; RESP_DOOR_UNLOCKING; RESP_COUNTDOWN_START;
     RESP_DOOR_LOCKING; RESP_DOOR_LOCKED].
Proof.
  intros s.
  assert (V : Control.VerifyPassword (fst (Control.ReceivePassword s)) s = true)
    by (vm_compute; reflexivity).
  destruct (open_door_any_timeout s) as (_ & _ & _ & K & _).
  exact (proj1 (K V)).
Defined.

(** X7. The door sequence reads nothing: [PerformDoorOperation] leaves
    every byte on the receive line in place, and the line is older by the
    sum of its delays, 4200 ms and 1000 ms for each second of the
    configured timeout.  A command sent meanwhile waits in the FIFO. *)
Theorem door_operation_duration (s : Control.ECU) :
  rx (Control.uart5 (Control.PerformDoorOperation s))
  = advance (4200 + 1000 * Z.to_nat (Control.g_autoLockTimeout s))
            (rx (Control.uart5 s))
  /\ map snd (rx (Control.uart5 (Control.PerformDoorOperation s)))
     = map snd (rx (Control.uart5 s)).
Proof.
  assert (H : rx (Control.uart5 (Control.PerformDoorOperation s))
              = advance (4200 + 1000 * Z.to_nat (Control.g_autoLockTimeout s))
                        (rx (Control.uart5 s))).
  { unfold Control.PerformDoorOperation. cbn zeta.
    repeat first [rewrite rx_send | rewrite rx_delay | rewrite countdown_rx].
    rewrite !advance_add.
    change (Control.g_autoLockTimeout (Control.delay 50 (Control.send RESP_COUNTDOWN_START
              (Control.delay 2000 (Control.send RESP_DOOR_UNLOCKING s)))))
      with (Control.g_autoLockTimeout s).
    f_equal. lia. }
  split; [exact H|]. rewrite H. apply advance_bytes.
Qed.

(** ** Set-timeout, erase, boot and lockout on the Control ECU *)

(** X8. A Set-timeout with a matching password stores the timeout byte as
    it was received: it becomes the timeout in memory and the content of
    the timeout cell, the answer is TimeoutSaved, and the credential in
    memory and the credential and marker cells are untouched.  The byte is
    the low eight bits of what arrived within 1000 ms, and 5 when nothing
    did. *)
Theorem set_timeout_match (s s1 : Control.ECU) (password : list Z) :
  Control.ReceivePassword s = (password, s1) ->
  Control.VerifyPassword password s = true ->
  let s' := Control.HandleSetTimeout s in
  let timeout := fst (Control.receive_timeout s1) in
  tx (Control.uart5 s') = tx (Control.uart5 s) ++ [RESP_TIMEOUT_SAVED]
  /\ Control.g_autoLockTimeout s' = timeout
  /\ Control.read_word Control.EEPROM_TIMEOUT_BLOCK Control.EEPROM_TIMEOUT_OFFSET s'
     = timeout
  /\ 0 <= timeout < 256
  /\ Control.g_storedPassword s' = Control.g_storedPassword s
  /\ Control.eeprom s' !! 0 = Control.eeprom s !! 0
  /\ Control.eeprom s' !! 4 = Control.eeprom s !! 4
  /\ Control.eeprom s' !! 12 = Control.eeprom s !! 12
  /\ (forall d b rest,
        rx (Control.uart5 s1) = (d, b) :: rest ->
        if (d <=? 1000)%nat then timeout = Z.land b 0xFF
        else timeout = Control.DEFAULT_TIMEOUT).
Proof.
  intros HR HV. unfold Control.HandleSetTimeout. rewrite HR.
  destruct (ReceivePassword_frame s) as (F1 & F2 & F3 & F4).
  rewrite HR in F1, F2, F3, F4. cbn [snd] in *.
  unfold Control.receive_timeout.
  pose proof (receive_or_tx Control.DEFAULT_TIMEOUT
                (Uart.poll 1000 (Control.uart5 s1))) as Htx.
  pose proof (receive_or_byte Control.DEFAULT_TIMEOUT
                (Uart.poll 1000 (Control.uart5 s1))) as Hb.
  destruct (Uart.receive_or Control.DEFAULT_TIMEOUT
              (Uart.poll 1000 (Control.uart5 s1))) as [timeout u] eqn:E.
  cbn [fst snd] in *. rewrite poll_tx in Htx.
  assert (HV' : Control.VerifyPassword password
                  (Control.on_uart (fun _ => u) s1) = true).
  { unfold Control.VerifyPassword in *.
    cbn [Control.on_uart Control.g_storedPassword]. now rewrite F1. }
  rewrite HV'. cbn zeta.
  split.
  { rewrite tx_send, tx_delay.
    cbn [Control.SaveTimeout Control.set_autoLockTimeout Control.delay
         Control.write_word Control.set_eeprom Control.on_uart Control.uart5 tx
         Uart.DelayMs].
    now rewrite Htx, F4. }
  split; [reflexivity|].
  split.
  { rewrite read_timeout_word.
    change (Control.eeprom (Control.send RESP_TIMEOUT_SAVED (Control.delay 50
              (Control.SaveTimeout timeout (Control.on_uart (fun _ => u) s1)))))
      with (Control.eeprom (Control.SaveTimeout timeout
              (Control.on_uart (fun _ => u) s1))).
    rewrite eeprom_SaveTimeout, lookup_insert_eq. reflexivity. }
  split; [apply Hb; unfold Control.DEFAULT_TIMEOUT; lia|].
  split; [cbn; exact F1|].
  change (Control.eeprom (Control.send RESP_TIMEOUT_SAVED (Control.delay 50
            (Control.SaveTimeout timeout (Control.on_uart (fun _ => u) s1)))))
    with (Control.eeprom (Control.SaveTimeout timeout
            (Control.on_uart (fun _ => u) s1))).
  rewrite eeprom_SaveTimeout, !lookup_insert_ne by discriminate.
  cbn [Control.on_uart Control.eeprom]. rewrite F3.
  repeat split.
  intros d b rest Hrx.
  destruct (Control.uart5 s1) as [q l]. cbn [rx] in Hrx. subst q.
  destruct (Nat.leb_spec d 1000) as [Hd|Hd].
  - rewrite (poll_in_time 1000 d b rest l Hd) in E.
    cbv [Uart.receive_or Uart.UART5_IsDataAvailable Uart.UART5_ReceiveChar rx tx] in E.
    injection E as <- _. reflexivity.
  - rewrite (poll_late 1000 d b rest l Hd) in E.
    cbv [Uart.receive_or Uart.UART5_IsDataAvailable rx] in E.
    destruct (d - 1000)%nat eqn:Ed; [lia|]. injection E as <- _. reflexivity.
Qed.

Lemma set_timeout_match_witness :
  let s := Control.mkECU [0x31; 0x32; 0x33; 0x34; 0x35; 0] 5 ∅
             (mkUART [(0%nat, 0x31); (10%nat, 0x32); (10%nat, 0x33); (10%nat, 0x34);
                      (10%nat, 0x35); (60%nat, 17)] []) in
  let s' := Control.HandleSetTimeout s in
  tx (Control.uart5 s') = [RESP_TIMEOUT_SAVED]
  /\ Control.g_autoLockTimeout s' = 17
  /\ Control.read_word Control.EEPROM_TIMEOUT_BLOCK Control.EEPROM_TIMEOUT_OFFSET s' = 17.
Proof.
  intros s s'.
  pose (r := Control.ReceivePassword s).
  assert (HR : Control.ReceivePassword s = (fst r, snd r)) by apply surjective_pairing.
  assert (HV : Control.VerifyPassword (fst r) s = true) by (vm_compute; reflexivity).
  destruct (set_timeout_match s _ _ HR HV) as (K1 & K2 & K3 & _).
  split; [exact K1|]. split.
  - etransitivity; [exact K2|]. vm_compute. reflexivity.
  - etransitivity; [exact K3|]. vm_compute. reflexivity.
Defined.

(** X9. A timeout byte saved by [SaveTimeout] is the timeout in memory
    until the next reboot; the [LoadTimeout] of the next boot gives the
    same value when it lies in [5,30] and 5 otherwise. *)
Theorem timeout_after_reboot (t : Z) (s : Control.ECU) (line : list (nat * Z)) :
  0 <= t < 256 ->
  Control.g_autoLockTimeout (Control.SaveTimeout t s) = t
  /\ Control.g_autoLockTimeout
       (Control.boot (Control.eeprom (Control.SaveTimeout t s)) line)
     = (if (5 <=? t) && (t <=? 30) then t else 5).
Proof.
  intros Ht. split; [reflexivity|].
  unfold Control.boot, Control.LoadTimeout.
  rewrite read_timeout_word.
  cbn [Control.LoadPassword Control.set_storedPassword Control.eeprom].
  rewrite eeprom_SaveTimeout, lookup_insert_eq. cbn [default from_option id].
  rewrite !(land_byte t) by lia.
  destruct (Z.ltb_spec t 5); destruct (Z.leb_spec 5 t); try lia; cbn [orb andb].
  - reflexivity.
  - destruct (Z.gtb_spec t 30); destruct (Z.leb_spec t 30); try lia; reflexivity.
Qed.

Lemma timeout_after_reboot_witness :
  let s := Control.mkECU [0; 0; 0; 0; 0; 0] 5 ∅ (mkUART [] []) in
  Control.g_autoLockTimeout (Control.SaveTimeout 31 s) = 31
  /\ Control.g_autoLockTimeout
       (Control.boot (Control.eeprom (Control.SaveTimeout 31 s)) []) = 5.
Proof.
  intros s. exact (timeout_after_reboot 31 s [] ltac:(lia)).
Defined.

(** X10. [HandleEraseEEPROM] with a password that does not match answers
    PasswordMismatch and changes nothing.  With a matching password the
    whole EEPROM is erased, so that the next boot finds the credential
    FF FF FF FF FF, no validity marker and the timeout 5: the payload
    "00000", accepted until then, is refused after the reboot. *)
Theorem erase_effect (s : Control.ECU) :
  let s' := Control.HandleEraseEEPROM s in
  (Control.VerifyPassword (fst (Control.ReceivePassword s)) s = false ->
     tx (Control.uart5 s') = tx (Control.uart5 s) ++ [RESP_PASSWORD_MISMATCH]
     /\ Control.g_storedPassword s' = Control.g_storedPassword s
     /\ Control.g_autoLockTimeout s' = Control.g_autoLockTimeout s
     /\ Control.eeprom s' = Control.eeprom s)
  /\ (Control.VerifyPassword (fst (Control.ReceivePassword s)) s = true ->
      Control.eeprom s' = ∅
      /\ forall line,
           let b := Control.boot (Control.eeprom s') line in
           Control.g_storedPassword b = [0xFF; 0xFF; 0xFF; 0xFF; 0xFF; 0]
           /\ Control.g_autoLockTimeout b = 5
           /\ Control.IsPasswordValid b = false
           /\ Control.VerifyPassword default_credential b = false).
Proof.
  unfold Control.HandleEraseEEPROM.
  destruct (ReceivePassword_frame s) as (F1 & F2 & F3 & F4).
  destruct (Control.ReceivePassword s) as [p s1]. cbn [fst snd] in *.
  assert (V : Control.VerifyPassword p s1 = Control.VerifyPassword p s)
    by (unfold Control.VerifyPassword; now rewrite F1).
  rewrite V. cbn zeta. split; intros HV; rewrite HV.
  - rewrite tx_send, F4. repeat split; assumption.
  - split; [reflexivity|]. intros line. vm_compute. repeat split.
Qed.

Lemma erase_effect_witness :
  let s := Control.mkECU [0x31; 0x32; 0x33; 0x34; 0x35; 0] 9
             (<[12 := Control.PASSWORD_VALID_MARKER]> (<[8 := 9]> ∅))
             (mkUART [(0%nat, 0x31); (10%nat, 0x32); (10%nat, 0x33); (10%nat, 0x34);
                      (10%nat, 0x36)] []) in
  let s' := Control.HandleEraseEEPROM s in
  tx (Control.uart5 s') = [RESP_PASSWORD_MISMATCH]
  /\ Control.g_autoLockTimeout s' = 9
  /\ Control.eeprom s' = Control.eeprom s.
Proof.
  intros s s'.
  assert (HV : Control.VerifyPassword (fst (Control.ReceivePassword s)) s = false)
    by (vm_compute; reflexivity).
  destruct (proj1 (erase_effect s) HV) as (K1 & _ & K3 & K4).
  split; [exact K1|]. split; [exact K3|exact K4].
Defined.

(** X11. On a device that boots with erased credential cells, the
    credential in memory is FF FF FF FF FF: no password of five decimal
    digits verifies, so a fresh device answers PasswordMismatch to every
    password the HMI can type until a Setup-password has run.  The boot
    itself sends nothing and reads nothing. *)
Theorem fresh_boot_rejects_digits (m : gmap Z Z) (line : list (nat * Z)) (C : list Z) :
  m !! 0 = None ->
  is_credential C ->
  let b := Control.boot m line in
  Control.VerifyPassword (C ++ [0]) b = false
  /\ nth 0 (Control.g_storedPassword b) 0 = 0xFF
  /\ tx (Control.uart5 b) = []
  /\ rx (Control.uart5 b) = line.
Proof.
  intros Hm HC.
  destruct (credential_bytes C HC) as (a & b0 & c & d & e & -> & _).
  destruct HC as [_ HC]. inversion HC as [|? ? Ha _]; subst.
  assert (Hpw : exists x y z w,
             Control.g_storedPassword (Control.boot m line) = [0xFF; x; y; z; w; 0]).
  { unfold Control.boot, Control.LoadTimeout. rewrite read_timeout_word.
    do 4 eexists.
    destruct (_ || _); cbn [Control.set_autoLockTimeout Control.g_storedPassword
      Control.LoadPassword Control.set_storedPassword];
      rewrite read_password_word0; cbn [Control.eeprom]; rewrite Hm;
      reflexivity. }
  destruct Hpw as (x & y & z & w & Hpw).
  cbn zeta. split.
  - unfold Control.VerifyPassword. rewrite Hpw. cbn [app strcmp hd tl].
    destruct (Z.eqb_spec a 255); [lia|].
    destruct (Z.eqb_spec (a - 255) 0); [lia|reflexivity].
  - rewrite Hpw. split; [reflexivity|].
    unfold Control.boot, Control.LoadTimeout.
    destruct (_ || _); split; reflexivity.
Qed.

Lemma fresh_boot_rejects_digits_witness :
  Control.VerifyPassword ([0x30; 0x30; 0x30; 0x30; 0x30] ++ [0])
    (Control.boot ∅ [(3%nat, CMD_OPEN_DOOR)]) = false.
Proof.
  assert (HC : is_credential [0x30; 0x30; 0x30; 0x30; 0x30]).
  { split; [reflexivity|]. repeat constructor; lia. }
  exact (proj1 (fresh_boot_rejects_digits ∅ [(3%nat, CMD_OPEN_DOOR)] _ eq_refl HC)).
Defined.

(** X12. [TriggerLockout] needs no password: in any state it sends
    SystemLocked and nothing else, and the credential, the timeout, the
    EEPROM and the bytes waiting on the line are as before. *)
Theorem trigger_lockout_frame (s : Control.ECU) :
  let s' := Control.HandleTriggerLockout s in
  tx (Control.uart5 s') = tx (Control.uart5 s) ++ [RESP_SYSTEM_LOCKED]
  /\ Control.g_storedPassword s' = Control.g_storedPassword s
  /\ Control.g_autoLockTimeout s' = Control.g_autoLockTimeout s
  /\ Control.eeprom s' = Control.eeprom s
  /\ map snd (rx (Control.uart5 s')) = map snd (rx (Control.uart5 s)).
Proof.
  cbn zeta. unfold Control.HandleTriggerLockout, Control.TriggerLockout.
  destruct (lockout_beeps_frame Control.LOCKOUT_DURATION
              (Control.send RESP_SYSTEM_LOCKED s)) as (L1 & L2 & L3 & L4).
  rewrite L1, L2, L3, L4, tx_send. repeat split.
  generalize Control.LOCKOUT_DURATION. intros n.
  change (rx (Control.uart5 s))
    with (rx (Control.uart5 (Control.send RESP_SYSTEM_LOCKED s))).
  generalize (Control.send RESP_SYSTEM_LOCKED s). intros s0.
  induction n as [|n IH]; [reflexivity|].
  rewrite Nat.iter_succ. unfold Control.Buzzer_Beep at 1.
  cbn [Control.delay Control.on_uart Control.uart5 Uart.DelayMs rx].
  rewrite !advance_bytes. exact IH.
Qed.

(** ** The command loop of the Control ECU *)

Ltac byte_goal := cbv; repeat split; intros Hc; discriminate Hc.

Section Loop.
Import Control.

Lemma strcpy_terminated dst src :
  length dst = 6%nat -> nth 5 dst 1 = 0 ->
  length src = 6%nat -> nth 5 src 1 = 0 ->
  nth 5 (strcpy dst src) 1 = 0.
Proof.
  intros Hd Hd5 Hs Hs5.
  destruct dst as [|? [|? [|? [|? [|? [|? [|? ?]]]]]]]; try discriminate Hd.
  destruct src as [|a [|b [|c [|d [|e [|f [|? ?]]]]]]]; try discriminate Hs.
  cbn [nth] in Hd5, Hs5. subst. cbn [strcpy].
  destruct (a =? 0); [reflexivity|]. destruct (b =? 0); [reflexivity|].
  destruct (c =? 0); [reflexivity|]. destruct (d =? 0); [reflexivity|].
  destruct (e =? 0); reflexivity.
Qed.

Lemma answered_one s s' b :
  tx (uart5 s') = tx (uart5 s) ++ [b] ->
  1 <= b <= 255 ->
  g_storedPassword s' = g_storedPassword s ->
  g_autoLockTimeout s' = g_autoLockTimeout s ->
  answered s s'.
Proof.
  intros T Hb Hp Ht. exists [b]. rewrite Hp, Ht.
  split; [exact T|]. split; [discriminate|]. split; [reflexivity|].
  split; [auto|]. intros H. split; [exact H|]. repeat constructor; lia.
Qed.

Lemma HandleCheckPassword_answered s : answered s (HandleCheckPassword s).
Proof.
  unfold HandleCheckPassword.
  destruct (IsPasswordValid s);
    eapply answered_one; try reflexivity; byte_goal.
Qed.

Lemma HandleChangePassword_answered s : answered s (HandleChangePassword s).
Proof.
  unfold HandleChangePassword.
  destruct (ReceivePassword_frame s) as (F1 & F2 & F3 & F4).
  destruct (ReceivePassword s) as [p s1]. cbn [snd] in *.
  destruct (VerifyPassword p s1);
    eapply answered_one; try (rewrite tx_send, F4; reflexivity); try assumption;
    byte_goal.
Qed.

Lemma HandleSetupPassword_answered s : answered s (HandleSetupPassword s).
Proof.
  unfold HandleSetupPassword.
  destruct (ReceivePassword_frame s) as (A1 & A2 & A3 & A4).
  destruct (ReceivePassword_shape s) as (a & b & c & d & e & Sp1 & _).
  destruct (ReceivePassword s) as [p1 s1]. cbn [fst snd] in *.
  destruct (ReceivePassword_frame (delay 50 s1)) as (B1 & B2 & B3 & B4).
  destruct (ReceivePassword (delay 50 s1)) as [p2 s2]. cbn [snd] in *.
  assert (Hp : g_storedPassword s2 = g_storedPassword s) by (rewrite B1; exact A1).
  assert (Ht : g_autoLockTimeout s2 = g_autoLockTimeout s) by (rewrite B2; exact A2).
  assert (Hx : tx (uart5 s2) = tx (uart5 s)) by (rewrite B4, tx_delay; exact A4).
  destruct (strcmp p1 p2 =? 0).
  - exists [RESP_PASSWORD_MATCH].
    cbn [send delay on_uart SavePassword set_storedPassword MarkPasswordAsValid
         write_word set_eeprom g_storedPassword g_autoLockTimeout uart5 tx
         Uart.UART5_SendChar Uart.DelayMs].
    rewrite Hp, Ht, Hx, strcpy_length.
    split; [reflexivity|]. split; [discriminate|]. split; [reflexivity|].
    split.
    + intros H6 H5. subst p1. now apply strcpy_terminated.
    + intros H. split; [exact H|]. repeat constructor; byte_goal.
  - eapply answered_one; try (rewrite tx_send, Hx; reflexivity); try assumption.
    byte_goal.
Qed.

Lemma HandleSetTimeout_answered s : answered s (HandleSetTimeout s).
Proof.
  unfold HandleSetTimeout, receive_timeout.
  destruct (ReceivePassword_frame s) as (F1 & F2 & F3 & F4).
  destruct (ReceivePassword s) as [p s1]. cbn [snd] in *.
  pose proof (receive_or_tx DEFAULT_TIMEOUT (Uart.poll 1000 (uart5 s1))) as Htx.
  pose proof (receive_or_byte DEFAULT_TIMEOUT (Uart.poll 1000 (uart5 s1))) as Hb.
  destruct (Uart.receive_or DEFAULT_TIMEOUT (Uart.poll 1000 (uart5 s1))) as [t u].
  cbn [fst snd] in *. rewrite poll_tx in Htx.
  destruct (VerifyPassword p (on_uart (fun _ => u) s1)).
  - exists [RESP_TIMEOUT_SAVED].
    cbn [send delay on_uart SaveTimeout set_autoLockTimeout write_word set_eeprom
         g_storedPassword g_autoLockTimeout uart5 tx Uart.UART5_SendChar Uart.DelayMs].
    rewrite Htx, F4, F1.
    split; [reflexivity|]. split; [discriminate|]. split; [reflexivity|].
    split; [auto|]. intros _. split; [apply Hb; byte_goal|].
    repeat constructor; byte_goal.
  - eapply answered_one.
    + rewrite tx_send. cbn [on_uart uart5]. rewrite Htx, F4. reflexivity.
    + byte_goal.
    + exact F1.
    + exact F2.
Qed.

Lemma byte_countdown t :
  0 <= t < 256 -> Forall (fun b => 1 <= b <= 255) (countdown_values (Z.to_nat t)).
Proof.
  intros Ht. eapply Forall_impl; [apply countdown_values_range|].
  cbn beta. intros b Hb. lia.
Qed.

Lemma HandleOpenDoor_answered s : answered s (HandleOpenDoor s).
Proof.
  destruct (HandleOpenDoor_effect s) as (H1 & H2 & H3 & H4).
  eexists. split; [exact H4|]. rewrite H1, H2.
  split; [destruct (VerifyPassword _ s); discriminate|]. split; [reflexivity|].
  split; [auto|]. intros Ht. split; [exact Ht|].
  destruct (VerifyPassword _ s); [|repeat constructor; byte_goal].
  repeat (apply Forall_cons; split; [byte_goal|]).
  apply Forall_app. split; [now apply byte_countdown|].
  repeat constructor; byte_goal.
Qed.

Lemma HandleEraseEEPROM_answered s : answered s (HandleEraseEEPROM s).
Proof.
  unfold HandleEraseEEPROM.
  destruct (ReceivePassword_frame s) as (F1 & F2 & F3 & F4).
  destruct (ReceivePassword s) as [p s1]. cbn [snd] in *.
  destruct (VerifyPassword p s1).
  - exists [RESP_EEPROM_ERASED].
    cbn [send delay on_uart set_autoLockTimeout set_storedPassword set_eeprom
         g_storedPassword g_autoLockTimeout uart5 tx Uart.UART5_SendChar Uart.DelayMs].
    rewrite F4, F1, strcpy_length.
    split; [reflexivity|]. split; [discriminate|]. split; [reflexivity|].
    split.
    + intros H6 H5. now apply strcpy_terminated.
    + intros _. split; [byte_goal|].
      repeat constructor; byte_goal.
  - eapply answered_one; try (rewrite tx_send, F4; reflexivity); try assumption.
    byte_goal.
Qed.

Lemma HandleTriggerLockout_answered s : answered s (HandleTriggerLockout s).
Proof.
  unfold HandleTriggerLockout, TriggerLockout.
  destruct (lockout_beeps_frame LOCKOUT_DURATION (send RESP_SYSTEM_LOCKED s))
    as (L1 & L2 & L3 & L4).
  eapply answered_one.
  - rewrite L4, tx_send. reflexivity.
  - byte_goal.
  - rewrite L1. reflexivity.
  - rewrite L3. reflexivity.
Qed.

Lemma dispatch_handled command s :
  In command handled_opcodes -> answered s (dispatch command s).
Proof.
  intros H. unfold dispatch.
  repeat (destruct H as [<-|H];
          [cbn [Z.eqb Pos.eqb CMD_CHECK_PASSWORD CMD_SETUP_PASSWORD
                CMD_CHANGE_PASSWORD CMD_SET_TIMEOUT CMD_OPEN_DOOR CMD_ERASE_EEPROM
                CMD_TRIGGER_LOCKOUT];
           auto using HandleCheckPassword_answered, HandleSetupPassword_answered,
             HandleChangePassword_answered, HandleSetTimeout_answered,
             HandleOpenDoor_answered, HandleEraseEEPROM_answered,
             HandleTriggerLockout_answered|]).
  destruct H.
Qed.

Lemma dispatch_unhandled command s :
  ~ In command handled_opcodes -> dispatch command s = s.
Proof.
  intros H. unfold dispatch.
  repeat match goal with
         | |- context [command =? ?c] =>
             destruct (Z.eqb_spec command c) as [->|_];
               [exfalso; apply H; cbv; tauto|]
         end.
  reflexivity.
Qed.

Lemma control_invariant_answered s s' :
  control_invariant s -> answered s s' -> control_invariant s'.
Proof.
  intros (I1 & I2 & I3 & I4) (L & T & _ & A1 & A2 & A3).
  destruct (A3 I3) as [B1 B2].
  unfold control_invariant. rewrite A1, T.
  split; [exact I1|]. split; [now apply A2|]. split; [exact B1|].
  apply Forall_app. split; assumption.
Qed.

Lemma control_invariant_main_pass s :
  control_invariant s -> control_invariant (main_pass s).
Proof.
  intros I. unfold main_pass.
  destruct (Uart.UART5_IsDataAvailable (uart5 s)) eqn:E; [|exact I].
  assert (R : tx (snd (Uart.UART5_ReceiveChar (uart5 s))) = tx (uart5 s)).
  { unfold Uart.UART5_ReceiveChar. destruct (rx (uart5 s)) as [|[d v] q]; reflexivity. }
  destruct (Uart.UART5_ReceiveChar (uart5 s)) as [command u]. cbn [snd] in R.
  assert (I' : control_invariant (on_uart (fun _ => u) s)).
  { destruct I as (I1 & I2 & I3 & I4). unfold control_invariant.
    cbn [on_uart g_storedPassword g_autoLockTimeout uart5]. rewrite R. auto. }
  assert (D : control_invariant (dispatch command (on_uart (fun _ => u) s))).
  { destruct (in_dec Z.eq_dec command handled_opcodes) as [Hin|Hout].
    - eapply control_invariant_answered; [exact I'|now apply dispatch_handled].
    - now rewrite dispatch_unhandled. }
  exact D.
Qed.

End Loop.

(** X13. Every opcode that the command loop knows is answered: whatever
    the state and the line, the handler sends at least one byte.  Any
    other byte, the defined but unhandled CMD_VERIFY_PASSWORD (0x02)
    included, is dropped without an answer and without any effect. *)
Theorem dispatch_answers (command : Z) (s : Control.ECU) :
  (In command handled_opcodes ->
     exists b more,
       tx (Control.uart5 (Control.dispatch command s))
       = tx (Control.uart5 s) ++ b :: more)
  /\ (~ In command handled_opcodes -> Control.dispatch command s = s)
  /\ ~ In CMD_VERIFY_PASSWORD handled_opcodes.
Proof.
  split; [|split].
  - intros H. destruct (dispatch_handled command s H) as (L & T & N & _).
    destruct L as [|b more]; [contradiction|]. now exists b, more.
  - apply dispatch_unhandled.
  - cbv. intros H. repeat (destruct H as [H|H]; [discriminate H|]). exact H.
Qed.

Lemma dispatch_answers_witness :
  let s := Control.mkECU [0x31; 0x32; 0x33; 0x34; 0x35; 0] 5 ∅ (mkUART [] []) in
  (exists b more,
     tx (Control.uart5 (Control.dispatch CMD_TRIGGER_LOCKOUT s)) = [] ++ b :: more)
  /\ Control.dispatch CMD_VERIFY_PASSWORD s = s.
Proof.
  intros s. destruct (dispatch_answers CMD_TRIGGER_LOCKOUT s) as (A & _ & _).
  destruct (dispatch_answers CMD_VERIFY_PASSWORD s) as (_ & B & C).
  split; [apply A; cbv; tauto|exact (B C)].
Defined.

(** X14. In every state that [main] reaches, from any EEPROM content and
    on any line: the credential buffer has six cells and ends with its
    terminator, the timeout in memory is a byte, and every byte sent so
    far lies in 1..255 (the Control ECU never sends a NUL byte). *)
Theorem main_invariant (n : nat) (m : gmap Z Z) (line : list (nat * Z)) :
  control_invariant (Control.main n m line).
Proof.
  unfold Control.main. induction n as [|n IH].
  - cbn [Nat.iter]. unfold control_invariant, Control.boot, Control.LoadTimeout.
    rewrite read_timeout_word.
    cbn [Control.LoadPassword Control.set_storedPassword Control.eeprom].
    set (data := default Eeprom.ERASED_WORD (m !! 8)).
    assert (Hb : 0 <= Z.land data 255 < 256).
    { change 255 with (Z.ones 8). rewrite Z.land_ones by lia.
      apply Z.mod_pos_bound. lia. }
    rewrite (land_byte (Z.land data 255)) by exact Hb.
    destruct (_ || _); cbn [Control.set_autoLockTimeout Control.g_storedPassword
      Control.g_autoLockTimeout Control.uart5 tx];
      (split; [reflexivity|]); (split; [reflexivity|]);
      (split; [|constructor]); [byte_goal|exact Hb].
  - rewrite Nat.iter_succ. now apply control_invariant_main_pass.
Qed.

(** ** The EEPROM driver *)

Section EepromFacts.
Import Eeprom.

Lemma CalculateAddress_valid block offset :
  0 <= block < 32 -> 0 <= offset < 16 ->
  CalculateAddress block offset = block * 64 + offset * 4.
Proof.
  intros Hb Ho. unfold CalculateAddress, EEPROM_BLOCK_SIZE, EEPROM_WORD_SIZE.
  change 0xFFFFFFFF with (Z.ones 32). rewrite Z.land_ones by lia.
  rewrite Z.mod_small; [lia|]. change (2 ^ 32) with 4294967296. lia.
Qed.

Lemma valid_parameters block offset :
  0 <= block < 32 -> 0 <= offset < 16 ->
  (block >=? EEPROM_TOTAL_BLOCKS) || (offset >=? EEPROM_BLOCK_SIZE) = false.
Proof.
  intros Hb Ho. unfold EEPROM_TOTAL_BLOCKS, EEPROM_BLOCK_SIZE.
  destruct (Z.geb_spec block 32); [lia|]. destruct (Z.geb_spec offset 16); [lia|].
  reflexivity.
Qed.

End EepromFacts.

(** X15. For cells inside the 32 blocks of 16 words, [EEPROM_WriteWord]
    followed by [EEPROM_ReadWord] of the same cell gives the word back,
    and a read of any other cell gives what it gave before the write:
    distinct (block, offset) pairs never share an address.  After
    [EEPROM_MassErase] every cell reads as all ones.  All these calls
    report success. *)
Theorem eeprom_write_read (block offset block' offset' data data0 : Z)
    (m : gmap Z Z) :
  0 <= block < 32 -> 0 <= offset < 16 ->
  0 <= block' < 32 -> 0 <= offset' < 16 ->
  let m' := snd (Eeprom.EEPROM_WriteWord block offset data m) in
  fst (Eeprom.EEPROM_WriteWord block offset data m) = Eeprom.EEPROM_SUCCESS
  /\ Eeprom.EEPROM_ReadWord block offset data0 m' = (Eeprom.EEPROM_SUCCESS, data)
  /\ ((block, offset) <> (block', offset') ->
      Eeprom.EEPROM_ReadWord block' offset' data0 m'
      = Eeprom.EEPROM_ReadWord block' offset' data0 m)
  /\ Eeprom.EEPROM_ReadWord block offset data0 (snd (Eeprom.EEPROM_MassErase m))
     = (Eeprom.EEPROM_SUCCESS, Eeprom.ERASED_WORD)
  /\ fst (Eeprom.EEPROM_MassErase m) = Eeprom.EEPROM_SUCCESS.
Proof.
  intros Hb Ho Hb' Ho'. cbn zeta.
  unfold Eeprom.EEPROM_WriteWord, Eeprom.EEPROM_ReadWord, Eeprom.EEPROM_MassErase,
    Eeprom.EEPROMProgram, Eeprom.EEPROMRead, Eeprom.EEPROMMassErase.
  rewrite !valid_parameters by assumption.
  rewrite !CalculateAddress_valid by assumption.
  cbn [fst snd negb Z.eqb].
  split; [reflexivity|]. split; [now rewrite lookup_insert_eq|].
  split; [|split; reflexivity].
  intros Hne. rewrite lookup_insert_ne; [reflexivity|].
  intros E. apply Hne.
  assert (Hk : 16 * (block - block') = offset' - offset) by lia.
  assert (Hblock : block = block') by lia.
  f_equal; lia.
Qed.

Lemma eeprom_write_read_witness :
  Eeprom.EEPROM_ReadWord 31 15 0
    (snd (Eeprom.EEPROM_WriteWord 31 15 0xAA55AA55 ∅))
  = (Eeprom.EEPROM_SUCCESS, 0xAA55AA55).
Proof.
  exact (proj1 (proj2 (eeprom_write_read 31 15 0 0 0xAA55AA55 0 ∅
                         ltac:(lia) ltac:(lia) ltac:(lia) ltac:(lia)))).
Defined.

(** X16. [EEPROM_WriteWord] and [EEPROM_ReadWord] reject a block number
    of 32 or more and an offset of 16 or more: they report EEPROM_ERROR,
    the store is not written, and the caller's variable is not assigned. *)
Theorem eeprom_rejects_out_of_range (block offset data data0 : Z) (m : gmap Z Z) :
  32 <= block \/ 16 <= offset ->
  Eeprom.EEPROM_WriteWord block offset data m = (Eeprom.EEPROM_ERROR, m)
  /\ Eeprom.EEPROM_ReadWord block offset data0 m = (Eeprom.EEPROM_ERROR, data0).
Proof.
  intros H. unfold Eeprom.EEPROM_WriteWord, Eeprom.EEPROM_ReadWord,
    Eeprom.EEPROM_TOTAL_BLOCKS, Eeprom.EEPROM_BLOCK_SIZE.
  assert (E : (block >=? 32) || (offset >=? 16) = true).
  { destruct (Z.geb_spec block 32); [reflexivity|].
    destruct (Z.geb_spec offset 16); [reflexivity|]. lia. }
  rewrite E. split; reflexivity.
Qed.

Lemma eeprom_rejects_out_of_range_witness :
  Eeprom.EEPROM_WriteWord 0 16 7 (<[0 := 1]> ∅) = (Eeprom.EEPROM_ERROR, <[0 := 1]> ∅)
  /\ Eeprom.EEPROM_ReadWord 32 0 9 (<[0 := 1]> ∅) = (Eeprom.EEPROM_ERROR, 9).
Proof.
  assert (H1 : 32 <= 0 \/ 16 <= 16) by (right; lia).
  assert (H2 : 32 <= 32 \/ 16 <= 0) by (left; lia).
  split.
  - exact (proj1 (eeprom_rejects_out_of_range 0 16 7 0 (<[0 := 1]> ∅) H1)).
  - exact (proj2 (eeprom_rejects_out_of_range 32 0 0 9 (<[0 := 1]> ∅) H2)).
Defined.

(** ** The HMI ECU: waiting, typing, counting down *)

Section HmiFacts.
Import HMI.

Lemma digit_keys_digits samples :
  Forall (fun c => 0x30 <= c <= 0x39) (digit_keys samples).
Proof.
  unfold digit_keys. apply Forall_forall. intros c Hc.
  apply list_elem_of_In, filter_In in Hc. destruct Hc as [_ Hc].
  apply andb_true_iff in Hc. destruct Hc as [H1 H2].
  apply Z.leb_le in H1, H2. lia.
Qed.

Lemma digit_keys_cons k ks :
  digit_keys (k :: ks)
  = if (0x30 <=? Z.land k 0xFF) && (Z.land k 0xFF <=? 0x39)
    then Z.land k 0xFF :: digit_keys ks else digit_keys ks.
Proof. reflexivity. Qed.

(** What [GetPassword] returns, and what it leaves on the keypad. *)
Lemma get_digits_returns fuel :
  forall password s p s',
    (length password <= 5)%nat ->
    get_digits fuel password s = Done p s' ->
    p = take 5 (password ++ digit_keys (keypad s)) ++ [0]
    /\ (5 <= length (password ++ digit_keys (keypad s)))%nat
    /\ digit_keys (keypad s')
       = drop (5 - length password) (digit_keys (keypad s)).
Proof.
  induction fuel as [|fuel IH]; intros password s p s' Hlen; cbn [get_digits];
    change PASSWORD_LENGTH with 5%nat;
    destruct (Nat.ltb_spec (length password) 5) as [Hlt|Hge];
    try discriminate.
  - intros E. injection E as <- <-.
    rewrite take_app_le, take_ge by lia.
    replace (5 - length password)%nat with 0%nat by lia.
    rewrite length_app. repeat split; lia.
  - unfold Keypad_GetKey. destruct (keypad s) as [|k ks] eqn:Ek.
    + cbn [andb Z.leb Z.compare]. intros E.
      destruct (IH password (delay 10 s) p s' Hlen E) as (H1 & H2 & H3).
      cbn [delay on_uart keypad] in H1, H2, H3. rewrite Ek in H1, H2, H3.
      auto.
    + rewrite digit_keys_cons.
      set (s1 := {| uart5 := uart5 s; keypad := ks; knob := knob s; heard := heard s |}).
      destruct ((48 <=? Z.land k 255) && (Z.land k 255 <=? 57)).
      * intros E.
        destruct (IH (password ++ [Z.land k 255]) (delay 10 (delay 200 s1)) p s'
                    ltac:(rewrite length_app; cbn; lia) E) as (H1 & H2 & H3).
        cbn [delay on_uart keypad s1] in H1, H2, H3.
        rewrite <- app_assoc in H1, H2. cbn [app] in H1, H2.
        rewrite length_app in H3. cbn [length] in H3.
        split; [exact H1|]. split; [exact H2|]. rewrite H3.
        replace (5 - length password)%nat
          with (S (5 - (length password + 1)))%nat by lia.
        reflexivity.
      * intros E.
        destruct (IH password (delay 10 s1) p s' Hlen E) as (H1 & H2 & H3).
        cbn [delay on_uart keypad s1] in H1, H2, H3. auto.
  - intros E. injection E as <- <-.
    rewrite take_app_le, take_ge by lia.
    replace (5 - length password)%nat with 0%nat by lia.
    rewrite length_app. repeat split; lia.
Qed.

Lemma get_digits_terminates fuel :
  forall password s,
    (length password <= 5)%nat ->
    (5 <= length password + length (digit_keys (keypad s)))%nat ->
    (length (keypad s) <= fuel)%nat ->
    returned (get_digits fuel password s) = true.
Proof.
  induction fuel as [|fuel IH]; intros password s Hlen Hd Hf; cbn [get_digits];
    change PASSWORD_LENGTH with 5%nat;
    destruct (Nat.ltb_spec (length password) 5) as [Hlt|Hge];
    try reflexivity.
  - destruct (keypad s); [cbn in Hd; lia|cbn in Hf; lia].
  - unfold Keypad_GetKey. destruct (keypad s) as [|k ks] eqn:Ek.
    + cbn in Hd. lia.
    + rewrite digit_keys_cons in Hd. cbn [length] in Hf.
      destruct ((48 <=? Z.land k 255) && (Z.land k 255 <=? 57)).
      * apply IH; cbn [delay on_uart keypad]; [rewrite length_app; cbn; lia| |lia].
        rewrite length_app. cbn [length] in *. lia.
      * apply IH; cbn [delay on_uart keypad]; [lia|lia|lia].
Qed.

End HmiFacts.

(** X17. [WaitForResponse] of the HMI: a byte that arrives within
    5000 ms is taken from the line and returned (its low eight bits);
    otherwise the function returns RESP_TIMEOUT (0xFF) after 5000 ms and
    takes nothing.  It sends nothing.  A received byte 0xFF gives the same
    return value as a timeout. *)
Theorem wait_for_response (s : HMI.ECU) :
  let r := fst (HMI.WaitForResponse s) in
  let s' := snd (HMI.WaitForResponse s) in
  tx (HMI.uart5 s') = tx (HMI.uart5 s)
  /\ HMI.heard s' = HMI.heard s ++ [r]
  /\ match rx (HMI.uart5 s) with
     | [] => r = HMI.RESP_TIMEOUT /\ rx (HMI.uart5 s') = []
     | (d, v) :: q =>
         if (d <=? HMI.UART_RESPONSE_TIMEOUT_MS)%nat
         then r = Z.land v 0xFF /\ rx (HMI.uart5 s') = q
         else r = HMI.RESP_TIMEOUT
              /\ rx (HMI.uart5 s')
                 = ((d - HMI.UART_RESPONSE_TIMEOUT_MS)%nat, v) :: q
     end.
Proof.
  cbn zeta. destruct (WaitForResponse_effect s) as [W1 W2].
  split; [exact W1|]. split; [exact W2|].
  unfold HMI.WaitForResponse.
  destruct s as [[q l] kp kn hd]. cbn [HMI.uart5 HMI.keypad HMI.knob HMI.heard rx].
  destruct q as [|[d v] q].
  - rewrite (poll_empty HMI.UART_RESPONSE_TIMEOUT_MS l). split; reflexivity.
  - destruct (Nat.leb_spec d HMI.UART_RESPONSE_TIMEOUT_MS) as [Hd|Hd].
    + rewrite (poll_in_time _ d v q l Hd). split; reflexivity.
    + rewrite (poll_late _ d v q l Hd).
      cbv [Uart.receive_or Uart.UART5_IsDataAvailable rx].
      destruct (d - HMI.UART_RESPONSE_TIMEOUT_MS)%nat eqn:E; [lia|].
      split; reflexivity.
Qed.

(** X18. [CheckPasswordExists] sends the single opcode
    CMD_CHECK_PASSWORD and reports [true] exactly when a byte arrives
    within 2000 ms and that byte is PasswordExists; a late answer is left
    on the line. *)
Theorem check_password_exists (s : HMI.ECU) :
  let r := fst (HMI.CheckPasswordExists s) in
  let s' := snd (HMI.CheckPasswordExists s) in
  tx (HMI.uart5 s') = tx (HMI.uart5 s) ++ [CMD_CHECK_PASSWORD]
  /\ match rx (HMI.uart5 s) with
     | [] => r = false
     | (d, v) :: q =>
         if (d <=? 2000)%nat
         then r = (Z.land v 0xFF =? RESP_PASSWORD_EXISTS)
              /\ rx (HMI.uart5 s') = q
         else r = false /\ rx (HMI.uart5 s') = ((d - 2000)%nat, v) :: q
     end.
Proof.
  cbn zeta. unfold HMI.CheckPasswordExists, HMI.send, HMI.on_uart.
  unfold Uart.UART5_SendChar.
  destruct s as [[q l] kp kn hd].
  cbn [HMI.uart5 HMI.keypad HMI.knob HMI.heard rx tx].
  destruct q as [|[d v] q].
  - rewrite (poll_empty 2000 (l ++ [CMD_CHECK_PASSWORD])). split; reflexivity.
  - destruct (Nat.leb_spec d 2000) as [Hd|Hd].
    + rewrite (poll_in_time 2000 d v q _ Hd). repeat split.
    + rewrite (poll_late 2000 d v q _ Hd).
      cbv [Uart.UART5_IsDataAvailable rx].
      destruct (d - 2000)%nat eqn:E; [lia|]. repeat split.
Qed.

(** X19. [GetPassword] returns the first five decimal-digit keys that the
    keypad delivers, in order, with the terminator; every other key is
    skipped.  It returns as soon as the keypad has delivered five digits
    (fuel for one pass per sample is enough), and it sends nothing. *)
Theorem get_password_digits (fuel : nat) (s : HMI.ECU) :
  let digits := digit_keys (HMI.keypad s) in
  (forall p s',
     HMI.GetPassword fuel s = HMI.Done p s' ->
     p = take 5 digits ++ [0]
     /\ is_credential (take 5 digits)
     /\ digit_keys (HMI.keypad s') = drop 5 digits
     /\ tx (HMI.uart5 s') = tx (HMI.uart5 s))
  /\ ((5 <= length digits)%nat -> (length (HMI.keypad s) <= fuel)%nat ->
      HMI.returned (HMI.GetPassword fuel s) = true).
Proof.
  cbn zeta. split.
  - intros p s' E. unfold HMI.GetPassword in E.
    destruct (get_digits_returns fuel [] s p s' ltac:(cbn; lia) E) as (H1 & H2 & H3).
    cbn [app length] in H1, H2, H3.
    split; [exact H1|]. split; [|split; [exact H3|]].
    + split; [rewrite length_take; change PASSWORD_LENGTH with 5%nat; lia|].
      apply Forall_take, digit_keys_digits.
    + pose proof (get_digits_same fuel [] s) as [T _].
      fold (HMI.GetPassword fuel s) in T. unfold HMI.GetPassword in T.
      rewrite E in T. exact T.
  - intros Hd Hf. apply get_digits_terminates; cbn [length]; lia.
Qed.

Lemma get_password_digits_witness :
  let s := HMI.mkECU (mkUART [] [])
             [0; 0x31; 0x41; 0x32; 0; 0x2A; 0x33; 0x34; 0x23; 0x35; 0x36] [] [] in
  HMI.returned (HMI.GetPassword 11 s) = true
  /\ forall p s', HMI.GetPassword 11 s = HMI.Done p s' ->
                  p = [0x31; 0x32; 0x33; 0x34; 0x35; 0].
Proof.
  intros s. destruct (get_password_digits 11 s) as [A B]. split.
  - apply B; vm_compute; lia.
  - intros p s' E. exact (proj1 (A p s' E)).
Defined.

(** X20. With a configured timeout [t] of at most 19 the countdown loop
    of the HMI works as the protocol intends: given the countdown
    [t, ..., 1] followed by DoorLocking and DoorLocked on its line, at any
    pace, it reads the whole countdown, returns at the DoorLocking byte of
    the Control ECU and leaves DoorLocked for the wait that follows.  It
    sends nothing. *)
Theorem countdown_loop_complete (t : Z) (h : HMI.ECU) :
  0 <= t <= 19 ->
  map snd (rx (HMI.uart5 h))
  = countdown_values (Z.to_nat t) ++ [RESP_DOOR_LOCKING; RESP_DOOR_LOCKED] ->
  exists (fuel0 : nat) (h' : HMI.ECU),
    map snd (rx (HMI.uart5 h')) = [RESP_DOOR_LOCKED]
    /\ tx (HMI.uart5 h') = tx (HMI.uart5 h)
    /\ forall fuel, (fuel0 <= fuel)%nat ->
         HMI.receive_countdown fuel h = HMI.Done RESP_DOOR_LOCKING h'.
Proof.
  intros Ht Hline.
  assert (Hpre : Forall (fun c => Z.land c 0xFF <> RESP_DOOR_LOCKING)
                        (countdown_values (Z.to_nat t))).
  { eapply Forall_impl; [apply countdown_values_range|].
    cbn beta. intros b Hb. rewrite land_byte by lia.
    unfold RESP_DOOR_LOCKING. lia. }
  destruct h as [[q l] kp kn hd]. cbn [HMI.uart5 rx tx] in *.
  destruct (receive_countdown_stops (countdown_values (Z.to_nat t)) q
              RESP_DOOR_LOCKING [RESP_DOOR_LOCKED] l kp kn hd Hpre eq_refl Hline)
    as (k & h' & Hpost & Hk).
  exists k, h'. split; [exact Hpost|]. split.
  - pose proof (receive_countdown_same (k + 0)
                  (HMI.mkECU (mkUART q l) kp kn hd)) as [T _].
    rewrite (Hk 0%nat) in T. exact T.
  - intros fuel Hf. replace fuel with (k + (fuel - k))%nat by lia. apply Hk.
Qed.

Lemma countdown_loop_complete_witness :
  let h := HMI.mkECU
             (mkUART (map (fun b => (1000%nat, b))
                          (countdown_values 19 ++ [RESP_DOOR_LOCKING; RESP_DOOR_LOCKED]))
                     [CMD_OPEN_DOOR])
             [] [] [] in
  exists (fuel0 : nat) (h' : HMI.ECU),
    map snd (rx (HMI.uart5 h')) = [RESP_DOOR_LOCKED]
    /\ tx (HMI.uart5 h') = tx (HMI.uart5 h)
    /\ forall fuel, (fuel0 <= fuel)%nat ->
         HMI.receive_countdown fuel h = HMI.Done RESP_DOOR_LOCKING h'.
Proof.
  intros h.
  assert (H1 : 0 <= 19 <= 19) by lia.
  assert (H2 : map snd (rx (HMI.uart5 h))
               = countdown_values (Z.to_nat 19)
                 ++ [RESP_DOOR_LOCKING; RESP_DOOR_LOCKED]) by (vm_compute; reflexivity).
  exact (countdown_loop_complete 19 h H1 H2).
Defined.

(** X21. The countdown loop of the HMI has no timeout of its own: as long
    as no byte on its line reads as DoorLocking, on a silent line in
    particular, it is still turning after any number of passes. *)
Theorem countdown_loop_never_gives_up (fuel : nat) (h : HMI.ECU) :
  Forall (fun v => Z.land v 0xFF <> RESP_DOOR_LOCKING) (map snd (rx (HMI.uart5 h))) ->
  HMI.returned (HMI.receive_countdown fuel h) = false.
Proof.
  revert h; induction fuel as [|fuel IH]; intros h Hline; [reflexivity|].
  cbn [HMI.receive_countdown].
  destruct h as [[q l] kp kn hd]. cbn [HMI.uart5 rx] in *.
  unfold Uart.UART5_IsDataAvailable, Uart.UART5_ReceiveChar. cbn [rx tx].
  destruct q as [|[[|d] v] q].
  - apply IH. cbn. constructor.
  - cbn [map snd] in Hline. inversion Hline as [|? ? Hv Hq]; subst.
    destruct (Z.eqb_spec (Z.land v 255) RESP_DOOR_LOCKING); [contradiction|].
    apply IH. cbn [HMI.delay HMI.on_uart HMI.uart5 Uart.DelayMs rx].
    rewrite advance_bytes. exact Hq.
  - apply IH. cbn [HMI.delay HMI.on_uart HMI.uart5 Uart.DelayMs rx].
    rewrite advance_bytes. exact Hline.
Qed.

Lemma countdown_loop_never_gives_up_witness :
  HMI.returned
    (HMI.receive_countdown 3000
       (HMI.mkECU (mkUART [(40%nat, 5); (1000%nat, 4); (1000%nat, 0x15)] []) [] [] []))
  = false.
Proof.
  apply countdown_loop_never_gives_up.
  repeat constructor; vm_compute; intros Hc; discriminate Hc.
Defined.

(** ** UART5_SendString *)

(** X22. [UART5_SendString] sends the characters that precede the first
    NUL of the string, in order, and nothing after it; the receive line is
    not touched. *)
Theorem send_string_up_to_nul (pre rest : list Z) (u : UART) :
  Forall (fun c => c <> 0) pre ->
  UART5_SendString (pre ++ 0 :: rest) u = {| rx := rx u; tx := tx u ++ pre |}.
Proof.
  revert u; induction pre as [|c pre IH]; intros u Hpre.
  - cbn. rewrite app_nil_r. destruct u; reflexivity.
  - inversion Hpre as [|? ? Hc Hpre']; subst. cbn [app UART5_SendString].
    destruct (Z.eqb_spec c 0); [contradiction|].
    rewrite (IH _ Hpre'). unfold Uart.UART5_SendChar. cbn [rx tx].
    now rewrite <- app_assoc.
Qed.

Lemma send_string_up_to_nul_witness :
  UART5_SendString ([0x4F; 0x4B] ++ 0 :: [0x21; 0]) (mkUART [(5%nat, 1)] [0x10])
  = {| rx := [(5%nat, 1)]; tx := [0x10] ++ [0x4F; 0x4B] |}.
Proof.
  apply (send_string_up_to_nul [0x4F; 0x4B] [0x21; 0] (mkUART [(5%nat, 1)] [0x10])).
  repeat constructor; discriminate.
Defined.

(** ** The dialogs of the HMI ECU *)

Section HmiDialogs.
Import HMI.

Lemma take_add_drop {A : Type} (n m : nat) (l : list A) :
  take (n + m) l = take n l ++ take m (drop n l).
Proof.
  revert l; induction n as [|n IH]; intros l; [reflexivity|].
  destruct l as [|x l]; [now destruct m|]. cbn. now rewrite IH.
Qed.

Lemma send_chars_exact n :
  forall password s,
    (n <= length password)%nat ->
    tx (uart5 (send_chars n password s)) = tx (uart5 s) ++ take n password
    /\ heard (send_chars n password s) = heard s.
Proof.
  induction n as [|n IH]; intros password s Hn.
  - cbn. now rewrite app_nil_r.
  - destruct password as [|c password]; [cbn in Hn; lia|].
    cbn [send_chars hd tl take]. cbn [length] in Hn.
    destruct (IH password (delay 10 (send c s)) ltac:(lia)) as [T H].
    rewrite T, H. cbn. now rewrite <- app_assoc.
Qed.

Lemma SendPassword_digits digits s :
  (5 <= length digits)%nat ->
  tx (uart5 (SendPassword (take 5 digits ++ [0]) s)) = tx (uart5 s) ++ take 5 digits
  /\ heard (SendPassword (take 5 digits ++ [0]) s) = heard s.
Proof.
  intros H. unfold SendPassword. change PASSWORD_LENGTH with 5%nat.
  destruct (send_chars_exact 5 (take 5 digits ++ [0]) s) as [T Hh].
  { rewrite length_app, length_take. cbn [length]. lia. }
  rewrite T, Hh. split; [|reflexivity].
  rewrite take_app_le by (rewrite length_take; lia).
  rewrite take_take. reflexivity.
Qed.

Lemma get_digits_keypad_shrinks fuel :
  forall password s p s',
    get_digits fuel password s = Done p s' ->
    (length (keypad s') <= length (keypad s))%nat.
Proof.
  induction fuel as [|fuel IH]; intros password s p s'; cbn [get_digits];
    destruct (length password <? PASSWORD_LENGTH)%nat;
    try discriminate; try (intros E; injection E as <- <-; lia).
  unfold Keypad_GetKey. destruct (keypad s) as [|k ks] eqn:Ek.
  - cbn [andb Z.leb Z.compare]. intros E. apply IH in E.
    cbn [delay on_uart keypad] in E. rewrite Ek in E. exact E.
  - destruct ((48 <=? Z.land k 255) && (Z.land k 255 <=? 57));
      intros E; apply IH in E; cbn [delay on_uart keypad] in E; cbn [length]; lia.
Qed.

Lemma follow_door_sends_nothing fuel s :
  tx (uart5 (final (follow_door fuel s))) = tx (uart5 s).
Proof.
  unfold follow_door.
  destruct (WaitForResponse_effect (delay 1500 s)) as [W1 _].
  destruct (WaitForResponse (delay 1500 s)) as [r1 s1]. cbn [fst snd] in *.
  set (s2 := if r1 =? RESP_DOOR_UNLOCKING then delay 2000 s1 else s1).
  assert (T2 : tx (uart5 s2) = tx (uart5 s)).
  { subst s2. destruct (r1 =? RESP_DOOR_UNLOCKING); cbn; rewrite W1; reflexivity. }
  destruct (WaitForResponse_effect s2) as [X1 _].
  destruct (WaitForResponse s2) as [r2 s3]. cbn [fst snd] in *.
  assert (T3 : tx (uart5 (final (if r2 =? RESP_COUNTDOWN_START
                                 then receive_countdown fuel s3
                                 else Done r2 s3))) = tx (uart5 s)).
  { destruct (r2 =? RESP_COUNTDOWN_START).
    - destruct (receive_countdown_same fuel s3) as [T _]. now rewrite T, X1.
    - cbn [final]. now rewrite X1. }
  destruct (if r2 =? RESP_COUNTDOWN_START then receive_countdown fuel s3
            else Done r2 s3) as [r3 s4|s4]; cbn [bind final] in *; [|exact T3].
  set (s5 := if r3 =? RESP_DOOR_LOCKING then delay 2000 s4 else s4).
  assert (T5 : tx (uart5 s5) = tx (uart5 s)).
  { subst s5. destruct (r3 =? RESP_DOOR_LOCKING); cbn; rewrite T3; reflexivity. }
  destruct (WaitForResponse_effect s5) as [Y1 _].
  destruct (WaitForResponse s5) as [r4 s6]. cbn [fst snd final] in *.
  destruct (r4 =? RESP_DOOR_LOCKED); cbn; rewrite Y1; exact T5.
Qed.

Lemma open_attempts_step fuel left s :
  open_attempts fuel (S left) s
  = bind (GetPassword fuel s) (fun password s =>
      let s := send CMD_OPEN_DOOR s in
      let s := delay 50 s in
      let s := SendPassword password s in
      let '(response, s) := WaitForResponse s in
      if response =? RESP_PASSWORD_MATCH then
        bind (follow_door fuel s) (fun _ s => Done true s)
      else
        let s := match left with O => s | S _ => delay 1500 s end in
        open_attempts fuel left s).
Proof. reflexivity. Qed.

End HmiDialogs.

(** X23. [SetupPassword] of the HMI sends one frame, the opcode
    CMD_SETUP_PASSWORD followed by the first ten digit keys of the keypad
    (the password and its confirmation), hears one answer, and returns
    [true] exactly when that answer is PasswordMatch: PasswordMismatch,
    any other byte and a timeout all give [false].  It returns once the
    keypad has delivered ten digits. *)
Theorem hmi_setup_password (fuel : nat) (s : HMI.ECU) :
  let digits := digit_keys (HMI.keypad s) in
  (forall saved s',
     HMI.SetupPassword fuel s = HMI.Done saved s' ->
     since (tx (HMI.uart5 s)) (tx (HMI.uart5 s'))
     = CMD_SETUP_PASSWORD :: take 10 digits
     /\ (10 <= length digits)%nat
     /\ exists r,
          since (HMI.heard s) (HMI.heard s') = [r]
          /\ saved = (r =? RESP_PASSWORD_MATCH))
  /\ ((10 <= length digits)%nat -> (length (HMI.keypad s) <= fuel)%nat ->
      HMI.returned (HMI.SetupPassword fuel s) = true).
Proof.
  cbn zeta. unfold HMI.SetupPassword.
  pose proof (GetPassword_same fuel s) as [G1 G1'].
  pose proof (get_digits_returns fuel [] s) as R1.
  pose proof (get_digits_keypad_shrinks fuel [] s) as K1.
  pose proof (get_digits_terminates fuel [] s) as M1.
  fold (HMI.GetPassword fuel s) in R1, K1, M1.
  destruct (HMI.GetPassword fuel s) as [p1 s1|s1]; cbn [HMI.bind HMI.final] in *.
  2:{ split; [intros ? ? E; discriminate E|].
      intros Hd Hf. apply M1; cbn [length]; lia. }
  destruct (R1 p1 s1 ltac:(cbn; lia) eq_refl) as (P1 & L1 & D1).
  specialize (K1 p1 s1 eq_refl). cbn [app length] in P1, L1, D1.
  change (5 - 0)%nat with 5%nat in D1.
  pose proof (GetPassword_same fuel (HMI.delay 500 s1)) as [G2 G2'].
  pose proof (get_digits_returns fuel [] (HMI.delay 500 s1)) as R2.
  pose proof (get_digits_terminates fuel [] (HMI.delay 500 s1)) as M2.
  fold (HMI.GetPassword fuel (HMI.delay 500 s1)) in R2, M2.
  cbn [HMI.delay HMI.on_uart HMI.keypad] in R2, M2.
  fold (HMI.delay 500 s1) in R2, M2.
  destruct (HMI.GetPassword fuel (HMI.delay 500 s1)) as [p2 s2|s2];
    cbn [HMI.bind HMI.final] in *.
  2:{ split; [intros ? ? E; discriminate E|].
      intros Hd Hf. apply M2; cbn [length]; [lia| |lia].
      rewrite D1, length_drop. lia. }
  destruct (R2 p2 s2 ltac:(cbn; lia) eq_refl) as (P2 & L2 & _).
  cbn [app length] in P2, L2. rewrite D1 in P2, L2.
  set (s3 := HMI.delay 50 (HMI.send CMD_SETUP_PASSWORD s2)).
  destruct (SendPassword_digits (digit_keys (HMI.keypad s)) s3 L1) as [T4 H4].
  rewrite <- P1 in T4, H4.
  set (s4 := HMI.SendPassword p1 s3) in *.
  destruct (SendPassword_digits (drop 5 (digit_keys (HMI.keypad s)))
              (HMI.delay 50 s4) L2) as [T5 H5].
  rewrite <- P2 in T5, H5.
  set (s5 := HMI.SendPassword p2 (HMI.delay 50 s4)) in *.
  destruct (WaitForResponse_effect s5) as [W1 W2].
  destruct (HMI.WaitForResponse s5) as [r s6]. cbn [fst snd] in *.
  assert (Tx : tx (HMI.uart5 s6)
               = tx (HMI.uart5 s)
                 ++ CMD_SETUP_PASSWORD :: take 10 (digit_keys (HMI.keypad s))).
  { rewrite W1, T5. cbn [HMI.delay HMI.on_uart HMI.uart5 Uart.DelayMs tx].
    rewrite T4. subst s3.
    cbn [HMI.delay HMI.send HMI.on_uart HMI.uart5 Uart.DelayMs Uart.UART5_SendChar tx].
    rewrite G2. cbn [HMI.delay HMI.on_uart HMI.uart5 Uart.DelayMs tx]. rewrite G1.
    rewrite <- !app_assoc. cbn [app]. do 2 f_equal.
    exact (eq_sym (take_add_drop 5 5 _)). }
  assert (Hh : HMI.heard s6 = HMI.heard s ++ [r]).
  { rewrite W2, H5. cbn [HMI.delay HMI.on_uart HMI.heard]. rewrite H4. subst s3.
    cbn [HMI.delay HMI.send HMI.on_uart HMI.heard]. rewrite G2'.
    cbn [HMI.delay HMI.on_uart HMI.heard]. now rewrite G1'. }
  split.
  - intros saved s' E.
    assert (Hlen : (10 <= length (digit_keys (HMI.keypad s)))%nat).
    { rewrite length_drop in L2. lia. }
    destruct (r =? RESP_PASSWORD_MATCH) eqn:Er; injection E as <- <-;
      cbn [HMI.delay HMI.on_uart HMI.uart5 HMI.heard Uart.DelayMs tx];
      rewrite Tx, Hh, !since_app;
      (split; [reflexivity|]); (split; [exact Hlen|]);
      exists r; rewrite Er; split; reflexivity.
  - intros _ _. destruct (r =? RESP_PASSWORD_MATCH); reflexivity.
Qed.

Lemma hmi_setup_password_witness :
  let s := HMI.mkECU (mkUART [(Z.to_nat 4000, 0x11)] [])
             [0x31; 0x32; 0x33; 0x34; 0x35; 0x23; 0x31; 0x32; 0x33; 0x34; 0x36] [] [] in
  HMI.returned (HMI.SetupPassword 11 s) = true
  /\ forall saved s', HMI.SetupPassword 11 s = HMI.Done saved s' ->
       since (tx (HMI.uart5 s)) (tx (HMI.uart5 s'))
       = [CMD_SETUP_PASSWORD; 0x31; 0x32; 0x33; 0x34; 0x35;
          0x31; 0x32; 0x33; 0x34; 0x36].
Proof.
  intros s. destruct (hmi_setup_password 11 s) as [A B]. split.
  - apply B; vm_compute; lia.
  - intros saved s' E. exact (proj1 (A saved s' E)).
Defined.

(** X24. Once the open-door dialog of the HMI has heard PasswordMatch as
    its first answer it only listens: whatever follows on the line, and
    even if the countdown loop never ends, the dialog has sent the single
    frame CMD_OPEN_DOOR with the five typed digits and no TriggerLockout. *)
Theorem hmi_open_door_granted (fuel : nat) (s : HMI.ECU) :
  let r := HMI.HandleOpenDoor fuel s in
  let sent := since (tx (HMI.uart5 s)) (tx (HMI.uart5 (HMI.final r))) in
  let answers := since (HMI.heard s) (HMI.heard (HMI.final r)) in
  head answers = Some RESP_PASSWORD_MATCH ->
  sent = CMD_OPEN_DOOR :: take 5 (digit_keys (HMI.keypad s))
  /\ length sent = 6%nat
  /\ lockouts sent = 0%nat.
Proof.
  cbn zeta. unfold HMI.HandleOpenDoor. change (Z.to_nat MAX_ATTEMPTS) with 3%nat.
  rewrite open_attempts_step.
  pose proof (GetPassword_same fuel s) as [G1 G1'].
  pose proof (get_digits_returns fuel [] s) as R1.
  fold (HMI.GetPassword fuel s) in R1.
  destruct (HMI.GetPassword fuel s) as [p1 s1|s1]; cbn [HMI.bind HMI.final] in *.
  2:{ rewrite G1', since_refl. intros E; discriminate E. }
  destruct (R1 p1 s1 ltac:(cbn; lia) eq_refl) as (P1 & L1 & _).
  cbn [app length] in P1, L1.
  set (s2 := HMI.delay 50 (HMI.send CMD_OPEN_DOOR s1)).
  destruct (SendPassword_digits (digit_keys (HMI.keypad s)) s2 L1) as [T3 H3].
  rewrite <- P1 in T3, H3.
  set (s3 := HMI.SendPassword p1 s2) in *.
  destruct (WaitForResponse_effect s3) as [W1 W2].
  destruct (HMI.WaitForResponse s3) as [r1 s4]. cbn [fst snd] in *.
  assert (Tx : tx (HMI.uart5 s4)
               = tx (HMI.uart5 s)
                 ++ CMD_OPEN_DOOR :: take 5 (digit_keys (HMI.keypad s))).
  { rewrite W1, T3. subst s2.
    cbn [HMI.delay HMI.send HMI.on_uart HMI.uart5 Uart.DelayMs Uart.UART5_SendChar tx].
    rewrite G1, <- app_assoc. reflexivity. }
  assert (Hh : HMI.heard s4 = HMI.heard s ++ [r1]).
  { rewrite W2, H3. subst s2. cbn [HMI.delay HMI.send HMI.on_uart HMI.heard].
    now rewrite G1'. }
  destruct (Z.eqb_spec r1 RESP_PASSWORD_MATCH) as [Em|Em].
  - intros _.
    pose proof (follow_door_sends_nothing fuel s4) as F.
    destruct (HMI.follow_door fuel s4) as [[] s5|s5]; cbn [HMI.bind HMI.final] in *;
      rewrite F, Tx, since_app;
      (split; [reflexivity|]);
      (split; [cbn [length]; rewrite length_take; lia|]);
      apply lockouts_silent, silent_one;
      try (rewrite length_take; cbn [payload_length CMD_OPEN_DOOR CMD_SETUP_PASSWORD CMD_CHANGE_PASSWORD CMD_SET_TIMEOUT Z.eqb Pos.eqb]; lia); discriminate.
  - set (s5 := HMI.delay 1500 s4).
    pose proof (open_attempts_shape fuel 2 s5) as Sh.
    pose proof (attempts_loop_extends CMD_OPEN_DOOR (HMI.follow_door fuel)
                  eq_refl ltac:(discriminate) (follow_door_extends fuel) fuel 2 s5)
      as (F & R & _ & HR & _).
    rewrite <- Sh in HR.
    assert (Hfin : exists R', HMI.heard (HMI.final
                     (HMI.bind (HMI.open_attempts fuel 2 s5)
                        (fun exited s0 => if exited then HMI.Done () s0
                                          else HMI.Done () (HMI.lockout s0))))
                   = HMI.heard s ++ r1 :: R').
    { exists R.
      destruct (HMI.open_attempts fuel 2 s5) as [[|] s6|s6];
        cbn [HMI.bind HMI.final HMI.lockout HMI.send HMI.delay HMI.on_uart HMI.heard] in *;
        rewrite HR; subst s5; cbn [HMI.delay HMI.on_uart HMI.heard];
        rewrite Hh, <- app_assoc; reflexivity. }
    destruct Hfin as (R' & Hfin).
    change (HMI.open_attempts fuel 2 (HMI.delay 1500 s4))
      with (HMI.open_attempts fuel 2 s5).
    rewrite Hfin, since_app. cbn [head]. intros E. injection E as E. contradiction.
Qed.

Lemma hmi_open_door_granted_witness :
  let s := HMI.mkECU (mkUART [(1200%nat, 0x10)] [])
             [0x31; 0x32; 0x33; 0x34; 0x35] [] [] in
  let r := HMI.HandleOpenDoor 40 s in
  HMI.returned r = true
  /\ since (tx (HMI.uart5 s)) (tx (HMI.uart5 (HMI.final r)))
     = [CMD_OPEN_DOOR; 0x31; 0x32; 0x33; 0x34; 0x35].
Proof.
  intros s r.
  assert (H : head (since (HMI.heard s) (HMI.heard (HMI.final r)))
              = Some RESP_PASSWORD_MATCH) by (vm_compute; reflexivity).
  split; [vm_compute; reflexivity|].
  exact (proj1 (hmi_open_door_granted 40 s H)).
Defined.
